(** * The consolidation pipeline of the longevity dashboard

    A shallow embedding of [scripts/consolidate-data.py]: the per-source
    normalisers, the daily merger, the correlation engine, the summary
    aggregator and the biomarker normaliser, followed by the properties
    the specification states about them.

    Python values are modelled as they reach the functions after
    [json.load]: [None], booleans, integers of unbounded size, binary64
    floats, strings, lists and insertion-ordered dictionaries with string
    keys.  A string is the sequence of its code points, one character of
    [string] for each: the model holds the texts whose code points are
    below 256 (a no-break space is the one character of code 160, not
    the two bytes of its UTF-8 form), and slicing, comparison and
    [float] work on code points as Python has them.  Exceptions are
    explicit: every function that can raise returns a [res].  Floats are
    IEEE 754 binary64 values, computed with the operations of
    [SpecFloat] at precision 53 and maximal exponent 1024; the one
    operation Python leaves to the C library, [pow], is a parameter of
    the model. *)

From Stdlib Require Import ZArith List String Ascii Bool Lia.
From Stdlib Require Import Floats.SpecFloat.
From stdpp Require Import base option list strings gmap sorting.

#[local] Set Warnings "-register-all".

Local Open Scope string_scope.
Local Open Scope list_scope.
Local Open Scope Z_scope.

(** ** Exceptions *)

Inductive exn :=
| TypeError
| AttributeError
| KeyError
| ValueError
| IndexError
| ZeroDivisionError
| OverflowError.

Inductive res (A : Type) :=
| Ok (a : A)
| Raise (e : exn).

Arguments Ok {A} a.
Arguments Raise {A} e.

Global Instance res_ret : MRet res := fun A => @Ok A.
Global Instance res_bind : MBind res :=
  fun A B f m => match m with Ok a => f a | Raise e => Raise e end.
Global Instance res_fmap : FMap res :=
  fun A B f m => match m with Ok a => Ok (f a) | Raise e => Raise e end.

(** [for x in l: acc = step(acc, x)], stopping at the first exception. *)
Fixpoint foldM {A S : Type} (step : S -> A -> res S) (acc : S) (l : list A)
  : res S :=
  match l with
  | [] => Ok acc
  | x :: l' => acc' ← step acc x; foldM step acc' l'
  end.

(** A comprehension [[f(x) for x in l]] whose body can raise. *)
Fixpoint mapM {A B : Type} (f : A -> res B) (l : list A) : res (list B) :=
  match l with
  | [] => Ok []
  | x :: l' => y ← f x; ys ← mapM f l'; Ok (y :: ys)
  end.

(** ** Numbers

    A Python number is an [int] (unbounded) or a [float] (binary64). *)

Module Float64.

Definition prec : Z := 53.
Definition emax : Z := 1024.

Definition add := SFadd prec emax.
Definition sub := SFsub prec emax.
Definition mul := SFmul prec emax.
Definition div := SFdiv prec emax.
Definition sqrt := SFsqrt prec emax.

Definition is_zero (f : spec_float) : bool :=
  match f with S754_zero _ => true | _ => false end.
Definition is_inf (f : spec_float) : bool :=
  match f with S754_infinity _ => true | _ => false end.
Definition is_nan (f : spec_float) : bool :=
  match f with S754_nan => true | _ => false end.
Definition is_finite (f : spec_float) : bool :=
  match f with S754_zero _ | S754_finite _ _ _ => true | _ => false end.

(** An integer as an exact (not normalised) float datum; the operations of
    [SpecFloat] round whatever mantissa they are given. *)
Definition exact (z : Z) : spec_float :=
  match z with
  | Z0 => S754_zero false
  | Zpos p => S754_finite false p 0
  | Zneg p => S754_finite true p 0
  end.

(** The float nearest to an integer, ties to even. *)
Definition of_Z (z : Z) : spec_float := binary_normalize prec emax z 0 false.

(** The float nearest to the quotient of two integers: Python's [a / b] on
    ints, and the value of a decimal literal. *)
Definition of_quot (a b : Z) : spec_float := div (exact a) (exact b).

(** The decimal literal [m * 10^-d], as [json.load] reads it. *)
Definition dec (m : Z) (d : nat) : spec_float := of_quot m (10 ^ Z.of_nat d).

(** [a / b] rounded to the nearest integer, ties to even; [b] positive. *)
Definition round_half_even (a b : Z) : Z :=
  let q := a / b in
  let r := a mod b in
  match 2 * r ?= b with
  | Lt => q
  | Gt => q + 1
  | Eq => if Z.even q then q else q + 1
  end.

Definition signed (s : bool) (m : Z) : Z := if s then - m else m.

(** [round(x, n)] for [n >= 0]: the exact value of [x] is rounded to [n]
    decimals, ties to even, and the decimal result is read back as the
    nearest float. *)
Definition round_digits (n : nat) (x : spec_float) : spec_float :=
  match x with
  | S754_finite s m e =>
      if 0 <=? e then x
      else
        let k := round_half_even (Zpos m * 10 ^ Z.of_nat n) (2 ^ (- e)) in
        if k =? 0 then S754_zero s
        else of_quot (signed s k) (10 ^ Z.of_nat n)
  | _ => x
  end.

(** [round(x)]: the nearest integer, ties to even. *)
Definition round_int (x : spec_float) : res Z :=
  match x with
  | S754_zero _ => Ok 0
  | S754_finite s m e =>
      if 0 <=? e then Ok (signed s (Zpos m * 2 ^ e))
      else Ok (signed s (round_half_even (Zpos m) (2 ^ (- e))))
  | S754_infinity _ => Raise OverflowError
  | S754_nan => Raise ValueError
  end.

(** The float 1.0, and the test [x == 1.0] on a positive finite datum
    [m * 2^e]. *)
Definition one : spec_float := S754_finite false 4503599627370496 (-52).

Definition is_one (m : positive) (e : Z) : bool :=
  (e <=? 0) && (Zpos m =? 2 ^ (- e)).

End Float64.

(** ** The platform's [pow]

    Python computes [x ** y] on floats with the [pow] of the C library
    once it has set the special cases aside.  Libraries differ on the
    last digit of the result, so the model takes the function as a
    parameter, at the two exponents the pipeline uses: [libm_pow2 x] is
    [pow(x, 2.0)] and [libm_pow_half x] is [pow(x, 0.5)]. *)
Class Libm := {
  libm_pow2 : spec_float -> spec_float;
  libm_pow_half : spec_float -> spec_float
}.

(** A library whose [pow] is correctly rounded at both exponents; the
    sample computations below are made with it. *)
Definition correctly_rounded : Libm :=
  {| libm_pow2 := fun x => Float64.mul x x;
     libm_pow_half := Float64.sqrt |}.

Inductive pynum :=
| PInt (z : Z)
| PFloat (f : spec_float).

Module Num.

(** [float(z)]: an int beyond the float range does not convert. *)
Definition float_of_int (z : Z) : res spec_float :=
  let f := Float64.of_Z z in
  if Float64.is_inf f then Raise OverflowError else Ok f.

Definition to_float (n : pynum) : res spec_float :=
  match n with
  | PInt z => float_of_int z
  | PFloat f => Ok f
  end.

Definition float_op (op : spec_float -> spec_float -> spec_float)
  (a b : pynum) : res pynum :=
  fa ← to_float a; fb ← to_float b; Ok (PFloat (op fa fb)).

Definition add (a b : pynum) : res pynum :=
  match a, b with
  | PInt x, PInt y => Ok (PInt (x + y))
  | _, _ => float_op Float64.add a b
  end.

Definition sub (a b : pynum) : res pynum :=
  match a, b with
  | PInt x, PInt y => Ok (PInt (x - y))
  | _, _ => float_op Float64.sub a b
  end.

Definition mul (a b : pynum) : res pynum :=
  match a, b with
  | PInt x, PInt y => Ok (PInt (x * y))
  | _, _ => float_op Float64.mul a b
  end.

(** [b == 0] for a divisor. *)
Definition is_zero (b : pynum) : bool :=
  match b with
  | PInt y => y =? 0
  | PFloat f => Float64.is_zero f
  end.

(** True division [a / b]: two ints give the float nearest to their
    quotient; otherwise both operands become floats first, and then a
    zero divisor is refused. *)
Definition div (a b : pynum) : res pynum :=
  match a, b with
  | PInt x, PInt y =>
      if y =? 0 then Raise ZeroDivisionError
      else
        let q := Float64.of_quot x y in
        if Float64.is_inf q then Raise OverflowError else Ok (PFloat q)
  | _, _ =>
      fa ← to_float a; fb ← to_float b;
      if is_zero b then Raise ZeroDivisionError
      else Ok (PFloat (Float64.div fa fb))
  end.

(** [x ** 2]: exact on ints.  On a float, CPython's [float_pow] with the
    exponent 2.0: NaN stays NaN, an infinity gives the positive
    infinity, a zero gives 0.0 and a base of absolute value 1.0 gives
    1.0; for every other base the library raises its absolute value to
    the power, and an infinite result is an [OverflowError] (a result
    that underflows, to a subnormal float or to zero, is returned). *)
Definition pow2 {L : Libm} (a : pynum) : res pynum :=
  match a with
  | PInt x => Ok (PInt (x * x))
  | PFloat f =>
      match f with
      | S754_nan => Ok (PFloat S754_nan)
      | S754_infinity _ => Ok (PFloat (S754_infinity false))
      | S754_zero _ => Ok (PFloat (S754_zero false))
      | S754_finite _ m e =>
          if Float64.is_one m e then Ok (PFloat Float64.one)
          else
            let r := libm_pow2 (S754_finite false m e) in
            if Float64.is_inf r then Raise OverflowError else Ok (PFloat r)
      end
  end.

(** [x ** 0.5]: an int becomes a float first.  NaN stays NaN, an
    infinity gives the positive infinity, a zero gives 0.0 and 1.0
    gives 1.0; every other positive base goes to the library.  A
    negative base gives a complex number in Python; the model raises
    [TypeError] there, as the [round] of the one caller does on a complex
    quotient.  The base of that caller is a sum of squares, negative
    only if a square of the library is, which is true of no C library
    ([squares_not_negative] below). *)
Definition pow_half {L : Libm} (a : pynum) : res pynum :=
  f ← to_float a;
  match f with
  | S754_nan => Ok (PFloat S754_nan)
  | S754_zero _ => Ok (PFloat (S754_zero false))
  | S754_infinity _ => Ok (PFloat (S754_infinity false))
  | S754_finite true _ _ => Raise TypeError
  | S754_finite false m e =>
      if Float64.is_one m e then Ok (PFloat Float64.one)
      else
        let r := libm_pow_half f in
        if Float64.is_inf r then Raise OverflowError else Ok (PFloat r)
  end.

(** [round(x, n)] keeps an int as it is. *)
Definition round_digits (n : nat) (a : pynum) : pynum :=
  match a with
  | PInt z => PInt z
  | PFloat f => PFloat (Float64.round_digits n f)
  end.

(** [round(x)] gives an int. *)
Definition round_int (a : pynum) : res pynum :=
  match a with
  | PInt z => Ok (PInt z)
  | PFloat f => z ← Float64.round_int f; Ok (PInt z)
  end.

(** Comparisons are exact, also between an int and a float: both are read
    as extended dyadic rationals [m * 2^e]. *)
Inductive xreal :=
| XNaN
| XInf (neg : bool)
| XFin (m e : Z).

Definition xreal_of_float (f : spec_float) : xreal :=
  match f with
  | S754_zero _ => XFin 0 0
  | S754_infinity s => XInf s
  | S754_nan => XNaN
  | S754_finite s m e => XFin (Float64.signed s (Zpos m)) e
  end.

Definition xreal_of (n : pynum) : xreal :=
  match n with
  | PInt z => XFin z 0
  | PFloat f => xreal_of_float f
  end.

Definition dyadic_compare (m1 e1 m2 e2 : Z) : comparison :=
  let e := Z.min e1 e2 in
  m1 * 2 ^ (e1 - e) ?= m2 * 2 ^ (e2 - e).

Definition xcompare (a b : xreal) : option comparison :=
  match a, b with
  | XNaN, _ | _, XNaN => None
  | XInf s1, XInf s2 =>
      Some (match s1, s2 with
            | true, false => Lt
            | false, true => Gt
            | _, _ => Eq
            end)
  | XInf s, XFin _ _ => Some (if s then Lt else Gt)
  | XFin _ _, XInf s => Some (if s then Gt else Lt)
  | XFin m1 e1, XFin m2 e2 => Some (dyadic_compare m1 e1 m2 e2)
  end.

Definition compare (a b : pynum) : option comparison :=
  xcompare (xreal_of a) (xreal_of b).

Definition ltb (a b : pynum) : bool :=
  match compare a b with Some Lt => true | _ => false end.
Definition leb (a b : pynum) : bool :=
  match compare a b with Some Lt | Some Eq => true | _ => false end.
Definition gtb (a b : pynum) : bool := ltb b a.
Definition geb (a b : pynum) : bool := leb b a.
Definition eqb (a b : pynum) : bool :=
  match compare a b with Some Eq => true | _ => false end.

(** [bool(x)]: every number but zero is true, NaN included. *)
Definition truthy (a : pynum) : bool := negb (is_zero a).

End Num.

(** ** Values *)

Inductive pyval :=
| VNone
| VBool (b : bool)
| VNum (n : pynum)
| VStr (s : string)
| VList (l : list pyval)
| VDict (d : list (string * pyval)).

(** A dictionary keeps its keys in insertion order. *)
Abbreviation pydict := (list (string * pyval)).

Definition VInt (z : Z) : pyval := VNum (PInt z).
Definition VFloat (f : spec_float) : pyval := VNum (PFloat f).

(** [bool] is a subclass of [int]: [True] counts as 1 in arithmetic. *)
Definition as_num (v : pyval) : option pynum :=
  match v with
  | VBool b => Some (PInt (if b then 1 else 0))
  | VNum n => Some n
  | _ => None
  end.

Definition truthy (v : pyval) : bool :=
  match v with
  | VNone => false
  | VBool b => b
  | VNum n => Num.truthy n
  | VStr s => negb (String.eqb s "")
  | VList l => match l with [] => false | _ => true end
  | VDict d => match d with [] => false | _ => true end
  end.

(** [a or b] *)
Definition py_or (a b : pyval) : pyval := if truthy a then a else b.

Definition is_none (v : pyval) : bool :=
  match v with VNone => true | _ => false end.

(** *** Dictionaries *)

Fixpoint dict_lookup (k : string) (d : pydict) : option pyval :=
  match d with
  | [] => None
  | (k', v) :: d' => if String.eqb k k' then Some v else dict_lookup k d'
  end.

(** [d[k] = v]: an existing key keeps its place, a new one goes last. *)
Fixpoint dict_set (k : string) (v : pyval) (d : pydict) : pydict :=
  match d with
  | [] => [(k, v)]
  | (k', v') :: d' =>
      if String.eqb k k' then (k', v) :: d' else (k', v') :: dict_set k v d'
  end.

Definition keys (d : pydict) : list string := map fst d.

(** [d.get(k, default)] on a dictionary. *)
Definition dict_get (k : string) (default : pyval) (d : pydict) : pyval :=
  match dict_lookup k d with Some v => v | None => default end.

(** [o.get(k, default)]: only a dictionary has the method. *)
Definition py_get (o : pyval) (k : string) (default : pyval) : res pyval :=
  match o with
  | VDict d => Ok (dict_get k default d)
  | _ => Raise AttributeError
  end.

(** [o[k]] with a string key. *)
Definition py_index (o : pyval) (k : string) : res pyval :=
  match o with
  | VDict d =>
      match dict_lookup k d with Some v => Ok v | None => Raise KeyError end
  | _ => Raise TypeError
  end.

(** *** Sequences and strings *)

(** What a [for] loop iterates over. *)
Definition py_iter (v : pyval) : res (list pyval) :=
  match v with
  | VList l => Ok l
  | VDict d => Ok (map (fun kv => VStr (fst kv)) d)
  | VStr s => Ok (map (fun c => VStr (String c "")) (list_ascii_of_string s))
  | _ => Raise TypeError
  end.

Fixpoint str_take (n : nat) (s : string) : string :=
  match n, s with
  | S n', String c s' => String c (str_take n' s')
  | _, _ => ""
  end.

(** [v[:10]]: the first ten code points of a string, the first ten items
    of a list. *)
Definition slice10 (v : pyval) : res pyval :=
  match v with
  | VStr s => Ok (VStr (str_take 10 s))
  | VList l => Ok (VList (take 10 l))
  | _ => Raise TypeError
  end.

(** Use of a value as a dictionary key; the pipeline only ever offers the
    results of [slice10], of which the list is not hashable. *)
Definition as_key (v : pyval) : res string :=
  match v with
  | VStr s => Ok s
  | _ => Raise TypeError
  end.

Definition py_len {A : Type} (l : list A) : pyval :=
  VInt (Z.of_nat (length l)).

(** *** Arithmetic and comparison on values *)

Definition num_op (op : pynum -> pynum -> res pynum) (a b : pyval)
  : res pyval :=
  match as_num a, as_num b with
  | Some x, Some y => n ← op x y; Ok (VNum n)
  | _, _ => Raise TypeError
  end.

Definition py_add (a b : pyval) : res pyval :=
  match a, b with
  | VStr s, VStr t => Ok (VStr (s +:+ t))
  | VList l, VList m => Ok (VList (l ++ m))
  | _, _ => num_op Num.add a b
  end.

Definition py_sub : pyval -> pyval -> res pyval := num_op Num.sub.
Definition py_mul : pyval -> pyval -> res pyval := num_op Num.mul.
Definition py_div : pyval -> pyval -> res pyval := num_op Num.div.

Definition num_fun (f : pynum -> res pynum) (a : pyval) : res pyval :=
  match as_num a with
  | Some x => n ← f x; Ok (VNum n)
  | None => Raise TypeError
  end.

Definition py_pow2 {L : Libm} : pyval -> res pyval := num_fun Num.pow2.
Definition py_pow_half {L : Libm} : pyval -> res pyval := num_fun Num.pow_half.

(** [round(v, n)] *)
Definition py_round (n : nat) : pyval -> res pyval :=
  num_fun (fun x => Ok (Num.round_digits n x)).

(** [round(v)] *)
Definition py_round_int : pyval -> res pyval := num_fun Num.round_int.

(** Ordering between two numbers and between two strings, as Python has
    it; [None], dictionaries and mixed pairings are a [TypeError], as in
    Python.  Python also orders two lists, element by element; the model
    raises [TypeError] on them.  The pipeline orders dates only, and a date
    that is a list can only be the first ten items of a biomarker's
    [created_at] that is a list: on such a document the model is stricter
    than the code. *)
Definition py_cmp (fnum : pynum -> pynum -> bool)
  (fstr : string -> string -> bool) (a b : pyval) : res bool :=
  match a, b with
  | VStr s, VStr t => Ok (fstr s t)
  | _, _ =>
      match as_num a, as_num b with
      | Some x, Some y => Ok (fnum x y)
      | _, _ => Raise TypeError
      end
  end.

Definition py_lt : pyval -> pyval -> res bool := py_cmp Num.ltb String.ltb.
Definition py_le : pyval -> pyval -> res bool := py_cmp Num.leb String.leb.
Definition py_gt : pyval -> pyval -> res bool :=
  py_cmp Num.gtb (fun s t => String.ltb t s).
Definition py_ge : pyval -> pyval -> res bool :=
  py_cmp Num.geb (fun s t => String.leb t s).

(** [v == 0] *)
Definition py_is_zero (v : pyval) : bool :=
  match as_num v with
  | Some x => Num.eqb x (PInt 0)
  | None => false
  end.

(** [lo <= v <= hi]: the second comparison runs only when the first holds. *)
Definition py_between (lo v hi : pyval) : res bool :=
  b ← py_le lo v; if b : bool then py_le v hi else Ok false.

(** [sum(f(x) for x in l)]: a left fold of [+] from the int 0; each term
    is computed when the fold reaches it. *)
Definition py_sum_gen {A : Type} (f : A -> res pyval) (l : list A)
  : res pyval :=
  foldM (fun acc a => t ← f a; py_add acc t) (VInt 0) l.

(** [sum(l)] *)
Definition py_sum (l : list pyval) : res pyval := py_sum_gen Ok l.

(** [max(l)] and [min(l)]: the first item, replaced by each later item that
    compares strictly greater (smaller). *)
Definition max_step (m x : pyval) : res pyval :=
  b ← py_gt x m; Ok (if b : bool then x else m).
Definition min_step (m x : pyval) : res pyval :=
  b ← py_lt x m; Ok (if b : bool then x else m).

Definition py_max (l : list pyval) : res pyval :=
  match l with
  | [] => Raise ValueError
  | x :: l' => foldM max_step x l'
  end.

Definition py_min (l : list pyval) : res pyval :=
  match l with
  | [] => Raise ValueError
  | x :: l' => foldM min_step x l'
  end.

(** [sum(1 for v in l if p(v))] *)
Definition count_if (p : pyval -> res bool) (l : list pyval) : res pyval :=
  foldM (fun acc v => b ← p v; if b : bool then py_add acc (VInt 1) else Ok acc)
    (VInt 0) l.

(** ** Per-source normalisers *)

(** The accumulator is [defaultdict(lambda: {"date": None, ns: {}})]:
    reading a date that is not there yet creates this entry. *)
Definition fresh_day (ns : string) : pydict := [("date", VNone); (ns, VDict [])].

(** [daily[date]] *)
Definition day_entry (ns date : string) (daily : pydict) : pydict :=
  match dict_lookup date daily with
  | Some (VDict e) => e
  | _ => fresh_day ns
  end.

(** [daily[date][ns]] *)
Definition day_metrics (ns date : string) (daily : pydict) : pydict :=
  match dict_lookup ns (day_entry ns date daily) with
  | Some (VDict m) => m
  | _ => []
  end.

(** [daily[date]["date"] = date] *)
Definition set_date (ns date : string) (daily : pydict) : pydict :=
  dict_set date (VDict (dict_set "date" (VStr date) (day_entry ns date daily)))
    daily.

(** [daily[date][ns] = v] *)
Definition set_namespace (ns date : string) (v : pyval) (daily : pydict)
  : pydict :=
  dict_set date (VDict (dict_set ns v (day_entry ns date daily))) daily.

(** [daily[date][ns][k] = v] *)
Definition set_metric (ns date k : string) (v : pyval) (daily : pydict)
  : pydict :=
  set_namespace ns date (VDict (dict_set k v (day_metrics ns date daily))) daily.

(** *** Glucose readings *)

(** [readings_by_date[date].append(v)] on a [defaultdict(list)]. *)
Fixpoint group_append (date : string) (v : pyval)
  (g : list (string * list pyval)) : list (string * list pyval) :=
  match g with
  | [] => [(date, [v])]
  | (d, vs) :: g' =>
      if String.eqb date d then (d, vs ++ [v]) :: g'
      else (d, vs) :: group_append date v g'
  end.

Definition lingo_reading_step (g : list (string * list pyval))
  (reading : pyval) : res (list (string * list pyval)) :=
  timestamp ← py_get reading "timestamp" (VStr "");
  if truthy timestamp then
    date ← slice10 timestamp;
    key ← as_key date;
    value ← py_get reading "value" VNone;
    Ok (group_append key value g)
  else Ok g.

Definition in_band (v : pyval) : res bool := py_between (VInt 70) v (VInt 140).

(** The dictionary display of one day's statistics, its items evaluated
    in the order they are written. *)
Definition glucose_summary (values : list pyval) : res pyval :=
  total ← py_sum values;
  mean ← py_div total (py_len values);
  average ← py_round 1 mean;
  lo ← py_min values;
  hi ← py_max values;
  in_range ← count_if in_band values;
  in_range' ← count_if in_band values;
  share ← py_div in_range' (py_len values);
  percent ← py_mul share (VInt 100);
  time_in_range ← py_round 1 percent;
  Ok (VDict [("average", average); ("min", lo); ("max", hi);
             ("readings", py_len values); ("inRange", in_range);
             ("timeInRangePercent", time_in_range)]).

Definition lingo_day_step (daily : pydict) (day : string * list pyval)
  : res pydict :=
  let '(date, values) := day in
  match values with
  | [] => Ok daily
  | _ =>
      let daily := set_date "glucose" date daily in
      g ← glucose_summary values;
      Ok (set_namespace "glucose" date g daily)
  end.

Definition process_lingo_data (lingo : pyval) : res pydict :=
  history ← py_get lingo "history" (VList []);
  readings ← py_iter history;
  readings_by_date ← foldM lingo_reading_step [] readings;
  foldM lingo_day_step [] readings_by_date.

(** *** Recovery-tracker records *)

(** [created_at[:10] if created_at else None] *)
Definition record_date (record : pyval) : res pyval :=
  created_at ← py_get record "created_at" (VStr "");
  if truthy created_at then slice10 created_at else Ok VNone.

(** The guard [if date and record.get("score")] followed by
    [score = record["score"]]. *)
Definition dated_score (record : pyval) : res (option (pyval * pyval)) :=
  date ← record_date record;
  if truthy date then
    sc ← py_get record "score" VNone;
    if truthy sc then
      score ← py_index record "score";
      Ok (Some (date, score))
    else Ok None
  else Ok None.

(** [round(hrv_raw if hrv_raw > 1 else hrv_raw * 1000, 1)] *)
Definition normalize_hrv (hrv_raw : pyval) : res pyval :=
  above ← py_gt hrv_raw (VInt 1);
  hrv_ms ← (if above : bool then Ok hrv_raw else py_mul hrv_raw (VInt 1000));
  py_round 1 hrv_ms.

Definition recovery_step (daily : pydict) (record : pyval) : res pydict :=
  ds ← dated_score record;
  match ds with
  | None => Ok daily
  | Some (date, score) =>
      date ← as_key date;
      let daily := set_date "whoop" date daily in
      recovery_score ← py_get score "recovery_score" VNone;
      let daily := set_metric "whoop" date "recoveryScore" recovery_score daily in
      hrv_raw ← py_get score "hrv_rmssd_milli" VNone;
      daily ← (if is_none hrv_raw then Ok daily
               else hrv ← normalize_hrv hrv_raw;
                    Ok (set_metric "whoop" date "hrvMs" hrv daily));
      resting ← py_get score "resting_heart_rate" VNone;
      Ok (set_metric "whoop" date "restingHeartRate" resting daily)
  end.

(** [stage_summary.get(k) or 0] *)
Definition stage_millis (stage_summary : pyval) (k : string) : res pyval :=
  v ← py_get stage_summary k VNone; Ok (py_or v (VInt 0)).

(** [round(ms / (1000 * 60 * 60), 2)] *)
Definition hours (ms : pyval) : res pyval :=
  h ← py_div ms (VInt (1000 * 60 * 60)); py_round 2 h.

Definition sleep_step (daily : pydict) (record : pyval) : res pydict :=
  ds ← dated_score record;
  match ds with
  | None => Ok daily
  | Some (date, score) =>
      stage_summary ← py_get score "stage_summary" (VDict []);
      date ← as_key date;
      let daily := set_date "whoop" date daily in
      light ← stage_millis stage_summary "total_light_sleep_time_milli";
      deep ← stage_millis stage_summary "total_slow_wave_sleep_time_milli";
      rem ← stage_millis stage_summary "total_rem_sleep_time_milli";
      light_deep ← py_add light deep;
      total_sleep_ms ← py_add light_deep rem;
      asleep ← py_gt total_sleep_ms (VInt 0);
      daily ← (if asleep : bool then
                 sleep_h ← hours total_sleep_ms;
                 let daily := set_metric "whoop" date "sleepHours" sleep_h daily in
                 deep' ← stage_millis stage_summary "total_slow_wave_sleep_time_milli";
                 deep_h ← hours deep';
                 let daily := set_metric "whoop" date "deepSleepHours" deep_h daily in
                 rem' ← stage_millis stage_summary "total_rem_sleep_time_milli";
                 rem_h ← hours rem';
                 let daily := set_metric "whoop" date "remSleepHours" rem_h daily in
                 light' ← stage_millis stage_summary "total_light_sleep_time_milli";
                 light_h ← hours light';
                 Ok (set_metric "whoop" date "lightSleepHours" light_h daily)
               else Ok daily);
      performance ← py_get score "sleep_performance_percentage" VNone;
      let daily := set_metric "whoop" date "sleepPerformance" performance daily in
      efficiency ← py_get score "sleep_efficiency_percentage" VNone;
      Ok (set_metric "whoop" date "sleepEfficiency" efficiency daily)
  end.

(** [score.get("strain") or 0] *)
Definition event_strain (score : pyval) : res pyval :=
  s ← py_get score "strain" VNone; Ok (py_or s (VInt 0)).

Definition workout_step (daily : pydict) (record : pyval) : res pydict :=
  ds ← dated_score record;
  match ds with
  | None => Ok daily
  | Some (date, score) =>
      date ← as_key date;
      let daily := set_date "whoop" date daily in
      let current_strain := dict_get "strain" (VInt 0) (day_metrics "whoop" date daily) in
      new_strain ← event_strain score;
      strain ← py_max [current_strain; new_strain];
      Ok (set_metric "whoop" date "strain" strain daily)
  end.

(** What [for record in whoop.get(stream, [])] iterates over. *)
Definition stream_records (whoop : pyval) (stream : string) : res (list pyval) :=
  records ← py_get whoop stream (VList []); py_iter records.

Definition fold_stream (step : pydict -> pyval -> res pydict) (whoop : pyval)
  (stream : string) (daily : pydict) : res pydict :=
  items ← stream_records whoop stream; foldM step daily items.

Definition process_whoop_data (whoop : pyval) : res pydict :=
  daily ← fold_stream recovery_step whoop "recovery" [];
  daily ← fold_stream sleep_step whoop "sleep" daily;
  fold_stream workout_step whoop "workout" daily.

(** ** Daily merger *)

(** [set(a.keys()) | set(b.keys()) | set(c.keys())] *)
Definition all_dates (garmin_daily glucose_daily whoop_daily : pydict)
  : gset string :=
  list_to_set (keys garmin_daily) ∪ list_to_set (keys glucose_daily)
    ∪ list_to_set (keys whoop_daily).

(** [sorted(s)] on strings: ascending in the order of their characters.
    A set is iterated in no particular order; [elements] stands for it. *)
Definition sorted (s : gset string) : list string :=
  merge_sort String.le (elements s).

(** [daily.get(date, {}).get(ns, {})] *)
Definition sub_record (ns date : string) (daily : pydict) : res pyval :=
  py_get (dict_get date (VDict []) daily) ns (VDict []).

Definition merge_record (garmin_daily glucose_daily whoop_daily : pydict)
  (date : string) : res pyval :=
  garmin ← sub_record "garmin" date garmin_daily;
  whoop ← sub_record "whoop" date whoop_daily;
  glucose ← sub_record "glucose" date glucose_daily;
  Ok (VDict [("date", VStr date); ("garmin", garmin); ("whoop", whoop);
             ("glucose", glucose)]).

Definition merge_daily_data (garmin_daily glucose_daily whoop_daily : pydict)
  : res (list pyval) :=
  mapM (merge_record garmin_daily glucose_daily whoop_daily)
    (sorted (all_dates garmin_daily glucose_daily whoop_daily)).

(** ** Correlation engine *)

Abbreviation pairs := (list (pyval * pyval)).

Record pair_lists := {
  steps_sleep : pairs;
  steps_glucose : pairs;
  sleep_glucose : pairs;
  exercise_glucose : pairs;
  sleep_recovery : pairs;
  hrv_sleep : pairs;
  steps_recovery : pairs
}.

Definition no_pairs : pair_lists :=
  {| steps_sleep := []; steps_glucose := []; sleep_glucose := [];
     exercise_glucose := []; sleep_recovery := []; hrv_sleep := [];
     steps_recovery := [] |}.

(** [if x and y: l.append((x, y))] *)
Definition append_if (x y : pyval) (l : pairs) : pairs :=
  if truthy x && truthy y then l ++ [(x, y)] else l.

(** [if d and y: l.append((d / 60, y))] *)
Definition append_minutes_if (d y : pyval) (l : pairs) : res pairs :=
  if truthy d && truthy y then m ← py_div d (VInt 60); Ok (l ++ [(m, y)])
  else Ok l.

Definition collect_step (acc : pair_lists) (record : pyval) : res pair_lists :=
  garmin ← py_get record "garmin" (VDict []);
  whoop ← py_get record "whoop" (VDict []);
  glucose ← py_get record "glucose" (VDict []);
  steps ← py_get garmin "steps" VNone;
  sleep_hours ← py_get whoop "sleepHours" VNone;
  recovery_score ← py_get whoop "recoveryScore" VNone;
  hrv ← py_get whoop "hrvMs" VNone;
  glucose_avg ← py_get glucose "average" VNone;
  activity_duration ← py_get garmin "totalActivityDuration" VNone;
  exercise ← append_minutes_if activity_duration glucose_avg (exercise_glucose acc);
  Ok {| steps_sleep := append_if steps sleep_hours (steps_sleep acc);
        steps_glucose := append_if steps glucose_avg (steps_glucose acc);
        sleep_glucose := append_if sleep_hours glucose_avg (sleep_glucose acc);
        exercise_glucose := exercise;
        sleep_recovery := append_if sleep_hours recovery_score (sleep_recovery acc);
        hrv_sleep := append_if hrv sleep_hours (hrv_sleep acc);
        steps_recovery := append_if steps recovery_score (steps_recovery acc) |}.

Definition collect_pairs (daily_data : list pyval) : res pair_lists :=
  foldM collect_step no_pairs daily_data.

(** [l[i]] *)
Definition py_nth (l : list pyval) (i : nat) : res pyval :=
  match l !! i with
  | Some v => Ok v
  | None => Raise IndexError
  end.

(** [(a - mean) ** 2] *)
Definition squared_deviation {L : Libm} (mean a : pyval) : res pyval :=
  d ← py_sub a mean; py_pow2 d.

Definition pearson_correlation {L : Libm} (ps : pairs) : res pyval :=
  if (length ps <? 3)%nat then Ok VNone
  else
    let n := length ps in
    let x := map fst ps in
    let y := map snd ps in
    sum_x ← py_sum x;
    mean_x ← py_div sum_x (py_len ps);
    sum_y ← py_sum y;
    mean_y ← py_div sum_y (py_len ps);
    numerator ←
      py_sum_gen (fun i =>
                    xi ← py_nth x i; dx ← py_sub xi mean_x;
                    yi ← py_nth y i; dy ← py_sub yi mean_y;
                    py_mul dx dy)
                 (seq 0 n);
    squares_x ← py_sum_gen (squared_deviation mean_x) x;
    denom_x ← py_pow_half squares_x;
    squares_y ← py_sum_gen (squared_deviation mean_y) y;
    denom_y ← py_pow_half squares_y;
    if py_is_zero denom_x || py_is_zero denom_y then Ok VNone
    else
      denominator ← py_mul denom_x denom_y;
      r ← py_div numerator denominator;
      py_round 3 r.

Definition correlation_entry {L : Libm} (ps : pairs) (description : string) : res pyval :=
  correlation ← pearson_correlation ps;
  Ok (VDict [("correlation", correlation); ("dataPoints", py_len ps);
             ("description", VStr description)]).

Definition calculate_correlations {L : Libm} (daily_data : list pyval) : res pyval :=
  acc ← collect_pairs daily_data;
  e1 ← correlation_entry (steps_sleep acc)
         "Correlation between daily steps and sleep duration";
  e2 ← correlation_entry (steps_glucose acc)
         "Correlation between daily steps and average glucose";
  e3 ← correlation_entry (sleep_glucose acc)
         "Correlation between sleep duration and average glucose";
  e4 ← correlation_entry (exercise_glucose acc)
         "Correlation between exercise duration (minutes) and average glucose";
  e5 ← correlation_entry (sleep_recovery acc)
         "Correlation between sleep duration and Whoop recovery score";
  e6 ← correlation_entry (hrv_sleep acc)
         "Correlation between HRV and sleep duration";
  e7 ← correlation_entry (steps_recovery acc)
         "Correlation between daily steps and Whoop recovery score";
  Ok (VDict [("steps_vs_sleep", e1); ("steps_vs_glucose", e2);
             ("sleep_vs_glucose", e3); ("exercise_vs_glucose", e4);
             ("sleep_vs_recovery", e5); ("hrv_vs_sleep", e6);
             ("steps_vs_recovery", e7)]).

(** ** Summary aggregator *)

(** [[d[ns].get(k) for d in daily_data if d[ns].get(k)]]; the element
    expression repeats the lookup of the condition. *)
Definition metric_step (ns k : string) (acc : list pyval) (d : pyval)
  : res (list pyval) :=
  sub ← py_index d ns;
  v ← py_get sub k VNone;
  if truthy v then Ok (acc ++ [v]) else Ok acc.

Definition metric_values (ns k : string) (daily_data : list pyval)
  : res (list pyval) :=
  foldM (metric_step ns k) [] daily_data.

(** [[d["date"] for d in daily_data if d.get("date")]] *)
Definition date_step (acc : list pyval) (d : pyval) : res (list pyval) :=
  v ← py_get d "date" VNone;
  if truthy v then v' ← py_index d "date"; Ok (acc ++ [v']) else Ok acc.

(** [e if l else None] *)
Definition if_any (l : list pyval) (e : res pyval) : res pyval :=
  match l with
  | [] => Ok VNone
  | _ => e
  end.

(** [sum(l) / len(l)] *)
Definition mean (l : list pyval) : res pyval :=
  s ← py_sum l; py_div s (py_len l).

(** Statistics with the mean rounded to an integer and raw extremes. *)
Definition stats_int (l : list pyval) (source : string) : res pyval :=
  average ← if_any l (m ← mean l; py_round_int m);
  lo ← if_any l (py_min l);
  hi ← if_any l (py_max l);
  Ok (VDict [("average", average); ("min", lo); ("max", hi);
             ("daysWithData", py_len l); ("source", VStr source)]).

(** Statistics with the mean rounded to one decimal and raw extremes. *)
Definition stats_raw (l : list pyval) (source : string) : res pyval :=
  average ← if_any l (m ← mean l; py_round 1 m);
  lo ← if_any l (py_min l);
  hi ← if_any l (py_max l);
  Ok (VDict [("average", average); ("min", lo); ("max", hi);
             ("daysWithData", py_len l); ("source", VStr source)]).

(** Statistics with mean and extremes all rounded to one decimal, under
    the given keys. *)
Definition stats_rounded (kavg kmin kmax : string) (l : list pyval)
  (source : string) : res pyval :=
  average ← if_any l (m ← mean l; py_round 1 m);
  lo ← if_any l (m ← py_min l; py_round 1 m);
  hi ← if_any l (m ← py_max l; py_round 1 m);
  Ok (VDict [(kavg, average); (kmin, lo); (kmax, hi);
             ("daysWithData", py_len l); ("source", VStr source)]).

(** What a [set] can hold, and when it takes two values for one. *)
Definition hashable (v : pyval) : bool :=
  match v with
  | VList _ | VDict _ => false
  | _ => true
  end.

Definition same_key (a b : pyval) : bool :=
  match a, b with
  | VNone, VNone => true
  | VStr s, VStr t => String.eqb s t
  | _, _ =>
      match as_num a, as_num b with
      | Some x, Some y => Num.eqb x y
      | _, _ => false
      end
  end.

(** [list(set(l))]: each value once; the order is not specified, the
    order of first occurrence stands for it. *)
Fixpoint distinct (l : list pyval) : list pyval :=
  match l with
  | [] => []
  | v :: l' => v :: filter (fun w => Is_true (negb (same_key v w))) (distinct l')
  end.

Definition category_of (b : pyval) : res pyval :=
  c ← py_index b "category";
  if hashable c then Ok c else Raise TypeError.

Definition biomarker_summary (biomarkers : list pyval) : res pyval :=
  categories ← mapM category_of biomarkers;
  latest ← if_any biomarkers
             (ds ← mapM (fun b => py_index b "date") biomarkers; py_max ds);
  Ok (VDict [("totalResults", py_len biomarkers);
             ("categories", VList (distinct categories));
             ("latestDate", latest); ("source", VStr "Lab Tests")]).

Definition generate_summary_stats (daily_data biomarkers : list pyval)
  : res pyval :=
  dates ← foldM date_step [] daily_data;
  steps ← metric_values "garmin" "steps" daily_data;
  sleep_hours ← metric_values "whoop" "sleepHours" daily_data;
  hrv_values ← metric_values "whoop" "hrvMs" daily_data;
  recovery_scores ← metric_values "whoop" "recoveryScore" daily_data;
  resting_hr ← metric_values "whoop" "restingHeartRate" daily_data;
  strain_values ← metric_values "whoop" "strain" daily_data;
  glucose_avgs ← metric_values "glucose" "average" daily_data;
  first ← if_any dates (py_min dates);
  last ← if_any dates (py_max dates);
  s_steps ← stats_int steps "Garmin";
  s_sleep ← stats_rounded "averageHours" "minHours" "maxHours" sleep_hours "Whoop";
  s_hrv ← stats_rounded "averageMs" "minMs" "maxMs" hrv_values "Whoop";
  s_recovery ← stats_raw recovery_scores "Whoop";
  s_resting ← stats_int resting_hr "Whoop";
  s_strain ← stats_rounded "average" "min" "max" strain_values "Whoop";
  glucose_mean ← if_any glucose_avgs (m ← mean glucose_avgs; py_round 1 m);
  s_biomarkers ← biomarker_summary biomarkers;
  Ok (VDict [("dateRange",
              VDict [("start", first); ("end", last);
                     ("totalDays", py_len dates)]);
             ("steps", s_steps);
             ("sleep", s_sleep);
             ("hrv", s_hrv);
             ("recovery", s_recovery);
             ("restingHeartRate", s_resting);
             ("strain", s_strain);
             ("glucose",
              VDict [("averageOfDailyAverages", glucose_mean);
                     ("daysWithData", py_len glucose_avgs);
                     ("source", VStr "Lingo CGM")]);
             ("biomarkers", s_biomarkers)]).

(** ** Biomarker normaliser *)

(** *** The strings of an optimal range *)

(** [s.replace(" ", "")] *)
Fixpoint remove_spaces (s : string) : string :=
  match s with
  | "" => ""
  | String c s' =>
      if Ascii.eqb c " " then remove_spaces s' else String c (remove_spaces s')
  end.

(** [s.split(sep)] for a separator of one character. *)
Fixpoint split_on (sep : ascii) (s : string) : list string :=
  match s with
  | "" => [""]
  | String c s' =>
      if Ascii.eqb c sep then "" :: split_on sep s'
      else
        match split_on sep s' with
        | [] => [String c ""]
        | p :: ps => String c p :: ps
        end
  end.

Fixpoint has_char (c : ascii) (s : string) : bool :=
  match s with
  | "" => false
  | String c' s' => Ascii.eqb c c' || has_char c s'
  end.

(** ["-" in v]: a substring of a string, an item of a list, a key of a
    dictionary; nothing else is a container. *)
Definition has_dash (v : pyval) : res bool :=
  match v with
  | VStr s => Ok (has_char "-" s)
  | VList l => Ok (existsb (same_key (VStr "-")) l)
  | VDict d => Ok (existsb (String.eqb "-") (keys d))
  | _ => Raise TypeError
  end.

(** *** [float(s)]

    The text of a float: white space at both ends, a sign, then [inf],
    [infinity] or [nan] in any case, or decimal digits with an optional
    fraction and exponent; a single underscore may separate two digits.
    What is stripped from the ends is the white space of ASCII (tab to
    carriage return, and the blank; not the separators 28 to 31), after
    the white space beyond ASCII, the next-line control 133 and the
    no-break space 160, has been read as a blank.  Below 256 only the
    ASCII digits are decimal digits.  [None] is [ValueError]. *)

Definition is_digit (c : ascii) : bool :=
  (48 <=? nat_of_ascii c)%nat && (nat_of_ascii c <=? 57)%nat.

Definition digit_value (c : ascii) : Z := Z.of_nat (nat_of_ascii c) - 48.

Definition is_space (c : ascii) : bool :=
  let n := nat_of_ascii c in
  ((9 <=? n)%nat && (n <=? 13)%nat) || (n =? 32)%nat.

Definition blank (c : ascii) : ascii :=
  let n := nat_of_ascii c in
  if (n =? 133)%nat || (n =? 160)%nat then " "%char else c.

Definition lower (c : ascii) : ascii :=
  let n := nat_of_ascii c in
  if (65 <=? n)%nat && (n <=? 90)%nat then ascii_of_nat (n + 32) else c.

Fixpoint drop_spaces (l : list ascii) : list ascii :=
  match l with
  | c :: l' => if is_space c then drop_spaces l' else l
  | [] => []
  end.

Definition strip (l : list ascii) : list ascii :=
  rev (drop_spaces (rev (drop_spaces l))).

(** A run of digits: its value on top of [acc], how many digits were
    read, and the rest of the text. *)
Fixpoint digits (l : list ascii) (acc : Z) (n : nat) : Z * nat * list ascii :=
  match l with
  | c :: l' =>
      if is_digit c then digits l' (acc * 10 + digit_value c) (S n)
      else if Ascii.eqb c "_" && negb (n =? 0)%nat
                && match l' with d :: _ => is_digit d | [] => false end
           then digits l' acc n
           else (acc, n, l)
  | [] => (acc, n, [])
  end.

Definition take_sign (l : list ascii) : bool * list ascii :=
  match l with
  | c :: l' =>
      if Ascii.eqb c "-" then (true, l')
      else if Ascii.eqb c "+" then (false, l')
      else (false, l)
  | [] => (false, [])
  end.

(** The float nearest to [m * 10^e]. *)
Definition decimal_value (neg : bool) (m e : Z) : spec_float :=
  if m =? 0 then S754_zero neg
  else if 0 <=? e then Float64.of_Z (Float64.signed neg (m * 10 ^ e))
       else Float64.of_quot (Float64.signed neg m) (10 ^ (- e)).

Definition parse_number (neg : bool) (l : list ascii) : option spec_float :=
  let '(ip, ni, l1) := digits l 0 0 in
  let '(m, nf, l2) :=
    match l1 with
    | c :: l1' => if Ascii.eqb c "." then digits l1' ip 0 else (ip, 0%nat, l1)
    | [] => (ip, 0%nat, l1)
    end in
  if (ni + nf =? 0)%nat then None
  else
    match l2 with
    | [] => Some (decimal_value neg m (- Z.of_nat nf))
    | c :: l3 =>
        if Ascii.eqb (lower c) "e" then
          let '(eneg, l4) := take_sign l3 in
          match digits l4 0 0 with
          | (ev, S _, []) =>
              Some (decimal_value neg m (Float64.signed eneg ev - Z.of_nat nf))
          | _ => None
          end
        else None
    end.

Definition float_of_string (s : string) : option spec_float :=
  let '(neg, l) := take_sign (strip (map blank (list_ascii_of_string s))) in
  let word := string_of_list_ascii (map lower l) in
  if String.eqb word "inf" || String.eqb word "infinity"
  then Some (S754_infinity neg)
  else if String.eqb word "nan" then Some S754_nan
       else parse_number neg l.

(** [float(p) if p else None]; [None] when [float] raises. *)
Definition bound_of (p : string) : option pyval :=
  if String.eqb p "" then Some VNone
  else match float_of_string p with
       | Some f => Some (VFloat f)
       | None => None
       end.

(** The body of the [try]: both names start as [None], and an exception
    leaves them as they are at that point. *)
Definition parse_parts (parts : list string) : pyval * pyval :=
  match parts with
  | [p0; p1] =>
      match bound_of p0 with
      | None => (VNone, VNone)
      | Some optimal_min =>
          match bound_of p1 with
          | None => (optimal_min, VNone)
          | Some optimal_max => (optimal_min, optimal_max)
          end
      end
  | _ => (VNone, VNone)
  end.

(** From [optimal_min = None] to the end of the [try] statement. *)
Definition parse_optimal_range (optimal_range : pyval) : res (pyval * pyval) :=
  if truthy optimal_range then
    dash ← has_dash optimal_range;
    if dash : bool then
      match optimal_range with
      | VStr s => Ok (parse_parts (split_on "-" (remove_spaces s)))
      | _ => Ok (VNone, VNone)
      end
    else Ok (VNone, VNone)
  else Ok (VNone, VNone).

(** [in_range], from [in_range = None] on. *)
Definition in_range_flag (optimal_min optimal_max value : pyval) : res pyval :=
  if negb (is_none optimal_min) && negb (is_none optimal_max) then
    b ← py_between optimal_min value optimal_max; Ok (VBool b)
  else Ok VNone.

Definition measurement_step
  (category_name biomarker_name unit optimal_range optimal_min optimal_max : pyval)
  (results : list pyval) (measurement : pyval) : res (list pyval) :=
  value ← py_get measurement "value" VNone;
  if is_none value then Ok results
  else
    in_range ← in_range_flag optimal_min optimal_max value;
    date ← py_get measurement "date" VNone;
    provider ← py_get measurement "provider" VNone;
    Ok (results ++
          [VDict [("date", date); ("category", category_name);
                  ("biomarker", biomarker_name); ("value", value);
                  ("unit", unit); ("optimalRange", optimal_range);
                  ("optimalMin", optimal_min); ("optimalMax", optimal_max);
                  ("inRange", in_range); ("provider", provider)]]).

Definition biomarker_step (category_name : pyval) (results : list pyval)
  (biomarker : pyval) : res (list pyval) :=
  biomarker_name ← py_get biomarker "name" VNone;
  unit ← py_get biomarker "unit" VNone;
  optimal_range ← py_get biomarker "optimalRange" (VStr "");
  '(optimal_min, optimal_max) ← parse_optimal_range optimal_range;
  measured ← py_get biomarker "measurements" (VList []);
  measurements ← (if truthy measured then Ok measured
                  else py_get biomarker "results" (VList []));
  items ← py_iter measurements;
  foldM (measurement_step category_name biomarker_name unit optimal_range
           optimal_min optimal_max) results items.

Definition category_step (results : list pyval) (category : pyval)
  : res (list pyval) :=
  category_name ← py_get category "name" VNone;
  biomarkers ← py_get category "biomarkers" (VList []);
  items ← py_iter biomarkers;
  foldM (biomarker_step category_name) results items.

Definition process_biomarkers (biomarkers : pyval) : res (list pyval) :=
  categories ← py_get biomarkers "categories" (VList []);
  items ← py_iter categories;
  foldM category_step [] items.

(** ** Vocabulary of the specification

    What the statements below speak about: which values are well formed
    inputs, and the quantities the specification names. *)

Definition is_dict (v : pyval) : Prop :=
  match v with VDict _ => True | _ => False end.

(** A per-source mapping as a normaliser returns it: every date is mapped
    to a dictionary. *)
Definition daily_mapping (daily : pydict) : Prop :=
  Forall (fun kv => is_dict (snd kv)) daily.

(** The sub-record a source holds for a date: the namespace of its entry,
    and the empty object when the date (or the namespace) is not there. *)
Definition source_sub_record (ns date : string) (daily : pydict) : pyval :=
  match dict_lookup date daily with
  | Some (VDict e) =>
      match dict_lookup ns e with Some v => v | None => VDict [] end
  | _ => VDict []
  end.

(** The daily record of a date: the date and the three namespaces. *)
Definition merged_record (garmin_daily glucose_daily whoop_daily : pydict)
  (date : string) : pyval :=
  VDict [("date", VStr date);
         ("garmin", source_sub_record "garmin" date garmin_daily);
         ("whoop", source_sub_record "whoop" date whoop_daily);
         ("glucose", source_sub_record "glucose" date glucose_daily)].

(** Strictly increasing, in the order of the characters. *)
Definition increasing (l : list string) : Prop :=
  StronglySorted (fun s t => (s <? t)%string = true) l.

(** The metric [k] a normaliser holds for a date in the namespace [ns],
    if it holds one. *)
Definition metric (ns date k : string) (daily : pydict) : option pyval :=
  dict_lookup k (day_metrics ns date daily).

(** The strain one workout record offers for a date: the value
    [workout_step] compares with the strain so far (0 for a missing, null
    or zero strain), and nothing when the record is skipped or is of
    another date. *)
Definition strain_on (date : string) (record : pyval) : list pyval :=
  match dated_score record with
  | Ok (Some (VStr d, score)) =>
      if String.eqb d date then
        match event_strain score with Ok s => [s] | Raise _ => [] end
      else []
  | _ => []
  end.

(** The per-event strains of a date, in the order of the records. *)
Definition strains_on (date : string) (records : list pyval) : list pyval :=
  flat_map (strain_on date) records.

(** [r] is a maximum of [l]: one of its items, and no item is greater. *)
Definition maximum_of (r : pyval) (l : list pyval) : Prop :=
  r ∈ l /\ forall s, s ∈ l -> py_gt s r = Ok false.

(** The strain of a date after further events, from the strain so far:
    each event replaces it by [max(strain so far or 0, event)]. *)
Definition strain_after (current : option pyval) (events : list pyval)
  : res (option pyval) :=
  foldM (fun cur s => m ← py_max [default (VInt 0) cur; s]; Ok (Some m))
    current events.

(** [record.get(ns, {}).get(k)]: the value a daily record holds for a
    metric, [None] when it holds none. *)
Definition value_of (ns k : string) (record : pyval) : pyval :=
  match py_get record ns (VDict []) ≫= (fun sub => py_get sub k VNone) with
  | Ok v => v
  | Raise _ => VNone
  end.

(** The pairs of two metrics: one pair for every record, in order, in
    which both values are present and true. *)
Definition pairs_of (fx fy : pyval -> pyval) (daily_data : list pyval) : pairs :=
  flat_map (fun r => if truthy (fx r) && truthy (fy r) then [(fx r, fy r)] else [])
    daily_data.

(** A stored duration divided by 60. *)
Definition minutes (duration : pyval) : pyval :=
  match py_div duration (VInt 60) with
  | Ok m => m
  | Raise _ => VNone
  end.

(** The pairs of the activity duration, in minutes, and the glucose mean. *)
Definition exercise_pairs (daily_data : list pyval) : pairs :=
  flat_map (fun r =>
              let d := value_of "garmin" "totalActivityDuration" r in
              let g := value_of "glucose" "average" r in
              if truthy d && truthy g then [(minutes d, g)] else [])
    daily_data.

(** [result[name]["dataPoints"]] *)
Definition data_points (result : pyval) (name : string) : res pyval :=
  e ← py_index result name; py_index e "dataPoints".

(** The values of a metric over the daily records, in order, that are
    present and true. *)
Definition truthy_values (ns k : string) (daily_data : list pyval) : list pyval :=
  filter (fun v => Is_true (truthy v)) (map (value_of ns k) daily_data).

(** The number of daily records in which a metric is present (not null). *)
Definition days_present (ns k : string) (daily_data : list pyval) : nat :=
  length (filter (fun v => Is_true (negb (is_none v)))
            (map (value_of ns k) daily_data)).

(** A block of the summary over the values [vs]: the mean rounded by
    [round_mean], the extremes passed through [round_extreme], all three
    [None] when there is no value, and the number of values. *)
Definition stats_block (block : pyval) (kavg kmin kmax : string)
  (vs : list pyval) (round_mean round_extreme : pyval -> res pyval)
  (source : string) : Prop :=
  exists average lo hi,
    block = VDict [(kavg, average); (kmin, lo); (kmax, hi);
                   ("daysWithData", py_len vs); ("source", VStr source)]
    /\ if_any vs (mean vs ≫= round_mean) = Ok average
    /\ if_any vs (py_min vs ≫= round_extreme) = Ok lo
    /\ if_any vs (py_max vs ≫= round_extreme) = Ok hi.

(** The segments of an optimal range: the text without its spaces, cut at
    every dash. *)
Definition segments (s : string) : list string :=
  split_on "-" (remove_spaces s).

(** An entry of the flat biomarker list: the bounds are those parsed from
    its range text and the flag is the one computed from them. *)
Definition biomarker_result (r : pyval) : Prop :=
  exists date category name value unit range lo hi flag provider,
    r = VDict [("date", date); ("category", category); ("biomarker", name);
               ("value", value); ("unit", unit); ("optimalRange", range);
               ("optimalMin", lo); ("optimalMax", hi); ("inRange", flag);
               ("provider", provider)]
    /\ parse_optimal_range range = Ok (lo, hi)
    /\ in_range_flag lo hi value = Ok flag.

(** The numerator of the coefficient: the sum over the pairs of
    [(x - mean_x) * (y - mean_y)]. *)
Definition centered_product (mean_x mean_y : pyval) (p : pyval * pyval)
  : res pyval :=
  dx ← py_sub (fst p) mean_x; dy ← py_sub (snd p) mean_y; py_mul dx dy.

Definition centered_products (mean_x mean_y : pyval) (ps : pairs) : res pyval :=
  py_sum_gen (centered_product mean_x mean_y) ps.

(** A factor of the denominator: the square root of the sum over the
    values of [(a - mean_a) ** 2]. *)
Definition root_sum_squares {L : Libm} (mean_a : pyval) (l : list pyval)
  : res pyval :=
  s ← py_sum_gen (fun a => d ← py_sub a mean_a; py_pow2 d) l; py_pow_half s.

(** The quotient of numerator and denominator, rounded to 3 decimals. *)
Definition rounded_quotient (numerator denom_x denom_y : pyval) : res pyval :=
  d ← py_mul denom_x denom_y; q ← py_div numerator d; py_round 3 q.

(** A number: an int, a float or a boolean. *)
Definition number (v : pyval) : Prop :=
  match v with
  | VBool _ | VNum _ => True
  | _ => False
  end.

(** Paired observations: both members of every pair are numbers. *)
Definition observations (ps : pairs) : Prop :=
  Forall (fun p => number (fst p) /\ number (snd p)) ps.

(** [(x, y)] becomes [(y, x)]. *)
Definition swap (p : pyval * pyval) : pyval * pyval := (snd p, fst p).

(** A computation that returns a float or raises [OverflowError]. *)
Definition float_or_overflow (m : res pyval) : Prop :=
  match m with
  | Ok v => exists f, v = VFloat f
  | Raise e => e = OverflowError
  end.

(** A float that is not a negative finite number. *)
Definition not_negative (f : spec_float) : Prop :=
  match f with
  | S754_finite true _ _ => False
  | _ => True
  end.

(** A running sum of floats: the int 0 it starts from, or a float with
    the property [P]. *)
Definition sum_so_far (P : spec_float -> Prop) (v : pyval) : Prop :=
  v = VInt 0 \/ exists f, v = VFloat f /\ P f.

(** *** What the proofs ask of the platform's [pow]

    A square is not a negative number. *)
Definition squares_not_negative (L : Libm) : Prop :=
  forall x, not_negative (libm_pow2 x).

(** A finite float on the grid of binary64: its exponent is not below
    that of the smallest positive double, 2^-1074. *)
Definition on_grid (f : spec_float) : Prop :=
  match f with
  | S754_finite _ _ e => -1074 <= e
  | _ => True
  end.

(** A finite float of magnitude 2^-537 or more; 2^-537 is the square
    root of the smallest positive double. *)
Definition not_tiny (f : spec_float) : Prop :=
  match f with
  | S754_finite _ m e => -536 <= Zpos (digits2_pos m) + e
  | _ => True
  end.

(** The library returns doubles, the square of a number is not negative
    and the root of a positive double is zero or not below 2^-537, the
    root of the smallest one. *)
Definition plausible (L : Libm) : Prop :=
  squares_not_negative L
  /\ (forall x, on_grid (libm_pow2 x))
  /\ (forall m e, -1074 <= e -> not_tiny (libm_pow_half (S754_finite false m e))).

(** ** Sample documents *)

(** The scenario of the specification: steps on 2024-01-01..03, glucose
    on 2024-01-02..04. *)
Definition scenario_garmin : pydict :=
  [("2024-01-01", VDict [("date", VStr "2024-01-01"); ("garmin", VDict [("steps", VInt 4000)])]);
   ("2024-01-02", VDict [("date", VStr "2024-01-02"); ("garmin", VDict [("steps", VInt 5000)])]);
   ("2024-01-03", VDict [("date", VStr "2024-01-03"); ("garmin", VDict [("steps", VInt 6000)])])].

Definition scenario_glucose : pydict :=
  [("2024-01-04", VDict [("date", VStr "2024-01-04"); ("glucose", VDict [("average", VInt 104)])]);
   ("2024-01-02", VDict [("date", VStr "2024-01-02"); ("glucose", VDict [("average", VInt 102)])]);
   ("2024-01-03", VDict [("date", VStr "2024-01-03"); ("glucose", VDict [("average", VInt 103)])])].


(** A glucose reading as [data/lingo.json] holds it. *)
Definition reading (timestamp : string) (value : pyval) : pyval :=
  VDict [("timestamp", VStr timestamp); ("value", value)].

(** One day with a reading whose value is null between two good ones. *)
Definition history_with_null : pyval :=
  VDict [("history",
          VList [reading "2024-01-02T08:00:00" (VInt 100);
                 reading "2024-01-02T09:00:00" VNone;
                 reading "2024-01-02T10:00:00" (VInt 120)])].

(** The same day without the null reading. *)
Definition history_without_null : pyval :=
  VDict [("history",
          VList [reading "2024-01-02T08:00:00" (VInt 100);
                 reading "2024-01-02T10:00:00" (VInt 120)])].

(** A reading without a timestamp among the readings of the
    specification's example day. *)
Definition history_with_undated : pyval :=
  VDict [("history",
          VList [reading "2024-01-02T08:00:00" (VInt 100);
                 VDict [("value", VInt 300)];
                 reading "2024-01-02T09:00:00" (VInt 120);
                 reading "" (VInt 300);
                 reading "2024-01-02T10:00:00" (VInt 150);
                 reading "2024-01-02T11:00:00" (VInt 90)])].

(** A recovery record with one score object. *)
Definition recovery_record (created_at : string) (score : pydict) : pyval :=
  VDict [("created_at", VStr created_at); ("score", VDict score)].

(** The two records of the specification: HRV in milliseconds and HRV in
    seconds. *)
Definition recovery_ms : pyval :=
  VDict [("recovery",
          VList [recovery_record "2024-01-02T06:30:00.000Z"
                   [("recovery_score", VInt 66);
                    ("hrv_rmssd_milli", VFloat (Float64.dec 452 1));
                    ("resting_heart_rate", VInt 52)]])].

Definition recovery_seconds : pyval :=
  VDict [("recovery",
          VList [recovery_record "2024-01-02T06:30:00.000Z"
                   [("recovery_score", VInt 66);
                    ("hrv_rmssd_milli", VFloat (Float64.dec 452 4));
                    ("resting_heart_rate", VInt 52)]])].

(** A workout record. *)
Definition workout_record (created_at : string) (score : pydict) : pyval :=
  VDict [("created_at", VStr created_at); ("score", VDict score)].

(** Two workouts on one day with strain 5.0 and 8.3. *)
Definition two_workouts : pyval :=
  VDict [("workout",
          VList [workout_record "2024-01-02T07:00:00.000Z"
                   [("strain", VFloat (Float64.dec 50 1))];
                 workout_record "2024-01-02T18:00:00.000Z"
                   [("strain", VFloat (Float64.dec 83 1))]])].

(** Two workouts on one day whose strains are both below zero. *)
Definition negative_workouts : list pyval :=
  [workout_record "2024-01-02T07:00:00.000Z"
     [("strain", VFloat (Float64.dec (-15) 1))];
   workout_record "2024-01-02T18:00:00.000Z"
     [("strain", VFloat (Float64.dec (-20) 1))]].

Definition two_negative_workouts : pyval :=
  VDict [("workout", VList negative_workouts)].

(** Three merged days: the second has no steps and the third a step count
    of zero. *)
Definition three_days : list pyval :=
  [VDict [("date", VStr "2024-01-01");
          ("garmin", VDict [("steps", VInt 8000); ("totalActivityDuration", VInt 1800)]);
          ("whoop", VDict [("sleepHours", VFloat (Float64.dec 71 1))]);
          ("glucose", VDict [("average", VFloat (Float64.dec 1012 1))])];
   VDict [("date", VStr "2024-01-02");
          ("garmin", VDict []);
          ("whoop", VDict [("sleepHours", VFloat (Float64.dec 65 1))]);
          ("glucose", VDict [])];
   VDict [("date", VStr "2024-01-03");
          ("garmin", VDict [("steps", VInt 0)]);
          ("whoop", VDict [("sleepHours", VFloat (Float64.dec 80 1))]);
          ("glucose", VDict [("average", VFloat (Float64.dec 990 1))])]].

(** The pair lists and the summary of [three_days], computed. *)
Definition three_days_pairs : pair_lists :=
  Eval vm_compute in
    match collect_pairs three_days with Ok a => a | Raise _ => no_pairs end.

Definition three_days_summary : pyval :=
  Eval vm_compute in
    match generate_summary_stats three_days [] with
    | Ok s => s
    | Raise _ => VNone
    end.

(** A biomarker document with one measurement. *)
Definition one_biomarker (optimal_range : string) (value : pyval) : pyval :=
  VDict [("categories",
          VList [VDict [("name", VStr "Metabolic");
                        ("biomarkers",
                         VList [VDict [("name", VStr "Glucose");
                                       ("unit", VStr "mg/dL");
                                       ("optimalRange", VStr optimal_range);
                                       ("measurements",
                                        VList [VDict [("date", VStr "2024-01-01");
                                                      ("value", value);
                                                      ("provider", VStr "Lab")]])]])]])].

(** The entry [process_biomarkers] makes of [one_biomarker]. *)
Definition one_result (optimal_range : string) (value lo hi flag : pyval) : pyval :=
  VDict [("date", VStr "2024-01-01"); ("category", VStr "Metabolic");
         ("biomarker", VStr "Glucose"); ("value", value);
         ("unit", VStr "mg/dL"); ("optimalRange", VStr optimal_range);
         ("optimalMin", lo); ("optimalMax", hi); ("inRange", flag);
         ("provider", VStr "Lab")].





(** A step count too large for a float, and floats whose squared
    deviations are. *)
Definition overflow_pairs : pairs :=
  [(VInt (10 ^ 400), VFloat (Float64.dec 10 1));
   (VInt 1, VFloat (Float64.dec 20 1));
   (VInt 2, VFloat (Float64.dec 30 1))].


(** Three days of steps and sleep hours. *)
Definition steps_and_sleep : pairs :=
  [(VInt 5000, VFloat (Float64.dec 65 1));
   (VInt 8000, VFloat (Float64.dec 71 1));
   (VInt 12000, VFloat (Float64.dec 80 1))].

(** A constant step count. *)
Definition constant_steps : pairs :=
  [(VInt 5000, VInt 7); (VInt 5000, VInt 8); (VInt 5000, VInt 6)].

(** ** Activity-tracker normaliser

    [process_garmin_data] stores what the activity tracker's document holds
    for a date under that date.  Its three loops over daily summaries,
    sleep records and weights have one shape: the date of the record, and
    under [if date:] the date and a fixed list of fields. *)

(** [daily[date]["garmin"][k] = record.get(k)] for each key, in order. *)
Definition copy_fields (date : string) (record : pyval) (ks : list string)
  (daily : pydict) : res pydict :=
  foldM (fun daily k =>
           v ← py_get record k VNone; Ok (set_metric "garmin" date k v daily))
    daily ks.

(** The fields taken from a daily summary; its [restingHeartRate] is not
    among them. *)
Definition summary_fields : list string :=
  ["steps"; "calories"; "activeCalories"; "distance"; "floors";
   "averageStress"; "bodyBattery"].

Definition sleep_fields : list string :=
  ["sleepSeconds"; "deepSleepSeconds"; "lightSleepSeconds"; "remSleepSeconds";
   "sleepScore"].

Definition weight_fields : list string :=
  ["weight"; "bodyFat"; "muscleMass"; "bmi"].

Definition garmin_step (fields : list string) (daily : pydict)
  (record : pyval) : res pydict :=
  date ← py_get record "date" VNone;
  if truthy date then
    date ← as_key date;
    copy_fields date record fields (set_date "garmin" date daily)
  else Ok daily.

(** The dictionary appended for one activity. *)
Definition activity_entry (activity : pyval) : res pyval :=
  name ← py_get activity "name" VNone;
  type ← py_get activity "type" VNone;
  duration ← py_get activity "duration" VNone;
  distance ← py_get activity "distance" VNone;
  calories ← py_get activity "calories" VNone;
  average_hr ← py_get activity "averageHR" VNone;
  max_hr ← py_get activity "maxHR" VNone;
  Ok (VDict [("name", name); ("type", type); ("duration", duration);
             ("distance", distance); ("calories", calories);
             ("averageHR", average_hr); ("maxHR", max_hr)]).

(** [activities_by_date[date].append({...})] under [if date:]. *)
Definition activity_step (activities_by_date : list (string * list pyval))
  (activity : pyval) : res (list (string * list pyval)) :=
  date ← py_get activity "date" VNone;
  if truthy date then
    date ← as_key date;
    entry ← activity_entry activity;
    Ok (group_append date entry activities_by_date)
  else Ok activities_by_date.

(** [a.get(k, 0) or 0] *)
Definition amount (k : string) (a : pyval) : res pyval :=
  v ← py_get a k (VInt 0); Ok (py_or v (VInt 0)).

(** The body of [for date, acts in activities_by_date.items()]. *)
Definition totals_step (daily : pydict) (day : string * list pyval)
  : res pydict :=
  let '(date, acts) := day in
  let daily := set_date "garmin" date daily in
  let daily := set_metric "garmin" date "activities" (VList acts) daily in
  let daily := set_metric "garmin" date "activityCount" (py_len acts) daily in
  duration ← py_sum_gen (amount "duration") acts;
  let daily := set_metric "garmin" date "totalActivityDuration" duration daily in
  calories ← py_sum_gen (amount "calories") acts;
  Ok (set_metric "garmin" date "totalActivityCalories" calories daily).

Definition garmin_daily (garmin : pyval) : res pydict :=
  daily ← fold_stream (garmin_step summary_fields) garmin "dailySummaries" [];
  daily ← fold_stream (garmin_step sleep_fields) garmin "sleepData" daily;
  activities ← stream_records garmin "activities";
  activities_by_date ← foldM activity_step [] activities;
  daily ← foldM totals_step daily activities_by_date;
  fold_stream (garmin_step weight_fields) garmin "weight" daily.

(** The activity tracker's dates are used as dictionary keys as the
    document gives them.  A string is the date format of the pipeline; a
    list or a dictionary is not hashable ([TypeError], as [as_key] has
    it); a number other than zero or [True] would be accepted by Python as
    a key of its own kind, which a dictionary with string keys cannot
    hold.  Documents with such a date are left out of the model:
    [process_garmin_data] is [None] on them. *)
Definition key_in_model (date : pyval) : bool :=
  match date with
  | VBool _ | VNum _ => negb (truthy date)
  | _ => true
  end.

Definition date_in_model (record : pyval) : bool :=
  match py_get record "date" VNone with
  | Ok date => key_in_model date
  | Raise _ => true
  end.

(** The records of a stream, none when the stream cannot be read. *)
Definition stream_items (document : pyval) (stream : string) : list pyval :=
  match stream_records document stream with
  | Ok records => records
  | Raise _ => []
  end.

Definition garmin_streams : list string :=
  ["dailySummaries"; "sleepData"; "activities"; "weight"].

Definition dates_in_model (garmin : pyval) : bool :=
  forallb (fun stream => forallb date_in_model (stream_items garmin stream))
    garmin_streams.

Definition process_garmin_data (garmin : pyval) : option (res pydict) :=
  if dates_in_model garmin then Some (garmin_daily garmin) else None.

(** ** The consolidation

    [main] from the loaded documents to the dictionary it writes.  The two
    files are given as [load_json] returned them ([None] for a missing or
    unreadable file), the recovery-tracker and biomarker documents as the
    two fetches returned them (an empty dictionary without a server), and
    [generated_at] is the time stamp of the run. *)

(** [len(v)], for its exception only: the length is printed. *)
Definition py_len_of (v : pyval) : res pyval :=
  match v with
  | VStr s => Ok (VInt (Z.of_nat (String.length s)))
  | VList l => Ok (py_len l)
  | VDict d => Ok (py_len d)
  | _ => Raise TypeError
  end.

(** [len(document.get(k, []))] *)
Definition count_of (document : pyval) (k : string) : res pyval :=
  v ← py_get document k (VList []); py_len_of v.

(** [f(x) if x else empty] *)
Definition if_loaded {A : Type} (x : pyval) (f : res A) (empty : A) : res A :=
  if truthy x then f else Ok empty.

Definition main_output {L : Libm} (generated_at : string)
  (garmin_file lingo_file whoop biomarkers_raw : pyval) : option (res pyval) :=
  let garmin := py_or garmin_file (VDict []) in
  let lingo := py_or lingo_file (VDict []) in
  match (if truthy garmin then process_garmin_data garmin else Some (Ok [])) with
  | None => None
  | Some garmin_processed =>
      Some (_ ← count_of garmin "dailySummaries";
            _ ← count_of lingo "history";
            garmin_daily ← garmin_processed;
            whoop_daily ← if_loaded whoop (process_whoop_data whoop) [];
            glucose_daily ← if_loaded lingo (process_lingo_data lingo) [];
            biomarkers ← if_loaded biomarkers_raw
                           (process_biomarkers biomarkers_raw) [];
            daily_data ← merge_daily_data garmin_daily glucose_daily whoop_daily;
            correlations ← calculate_correlations daily_data;
            summary ← generate_summary_stats daily_data biomarkers;
            recovery ← py_get whoop "recovery" VNone;
            sleep ← (if truthy recovery then Ok recovery
                     else py_get whoop "sleep" VNone);
            Ok (VDict [("generatedAt", VStr generated_at);
                       ("summary", summary);
                       ("correlations", correlations);
                       ("dailyData", VList daily_data);
                       ("biomarkers", VList biomarkers);
                       ("metadata",
                        VDict [("sources",
                                VDict [("garmin", VBool (truthy garmin));
                                       ("whoop", VBool (truthy sleep));
                                       ("lingo", VBool (truthy lingo));
                                       ("biomarkers",
                                        VBool (truthy biomarkers_raw))]);
                               ("version", VStr "1.0")])]))
  end.

(** ** Vocabulary of the normalisers

    What the further statements speak about: the shape of a per-source
    mapping, the records of a date, and the groups of a day. *)

(** An entry of a per-source mapping as a normaliser leaves it: a
    dictionary that holds its own date under ["date"] and a dictionary
    under the namespace of the source. *)
Definition dated_entry (ns : string) (kv : string * pyval) : Prop :=
  fst kv <> ""
  /\ exists e m, snd kv = VDict e
       /\ dict_lookup "date" e = Some (VStr (fst kv))
       /\ dict_lookup ns e = Some (VDict m).

(** A per-source mapping: no date twice, no empty date, every entry a
    [dated_entry]. *)
Definition normalised (ns : string) (daily : pydict) : Prop :=
  NoDup (keys daily) /\ Forall (dated_entry ns) daily.

(** What the body of a loop does to the mapping for one date: it stores
    the date and then stores metrics, or the whole namespace, of that
    date. *)
Inductive day_update (ns date : string) (daily : pydict) : pydict -> Prop :=
| update_date : day_update ns date daily (set_date ns date daily)
| update_metric (daily' : pydict) (k : string) (v : pyval) :
    day_update ns date daily daily' ->
    day_update ns date daily (set_metric ns date k v daily')
| update_namespace (daily' : pydict) (m : pydict) :
    day_update ns date daily daily' ->
    day_update ns date daily (set_namespace ns date (VDict m) daily').

(** A record of the activity tracker carries the date [d]. *)
Definition has_date (d : string) (record : pyval) : bool :=
  match py_get record "date" VNone with
  | Ok (VStr s) => String.eqb s d && negb (String.eqb s "")
  | _ => false
  end.

(** The records of a date, in the order of the document. *)
Definition records_on (d : string) (records : list pyval) : list pyval :=
  filter (fun r => Is_true (has_date d r)) records.

(** The values grouped under a date, none when the date has no group. *)
Fixpoint group_of (d : string) (g : list (string * list pyval)) : list pyval :=
  match g with
  | [] => []
  | (d', vs) :: g' => if String.eqb d d' then vs else group_of d g'
  end.

(** The metrics the activity-tracker normaliser writes. *)
Definition activity_totals : list string :=
  ["activities"; "activityCount"; "totalActivityDuration";
   "totalActivityCalories"].

Definition garmin_metrics : list string :=
  summary_fields ++ sleep_fields ++ activity_totals ++ weight_fields.

(** What one record adds to the group of the date [d], when [E] gives the
    date and the value a record is grouped by. *)
Definition contribution {A : Type} (E : A -> option (string * pyval))
  (d : string) (r : A) : list pyval :=
  match E r with
  | Some (d', v) => if String.eqb d d' then [v] else []
  | None => []
  end.

(** The group of a date: the values of its records, in order. *)
Definition grouped {A : Type} (E : A -> option (string * pyval))
  (d : string) (rs : list A) : list pyval :=
  flat_map (contribution E d) rs.

(** Groups as a [defaultdict(list)] holds them after appends: no date
    twice and no empty group. *)
Definition groups_ok (g : list (string * list pyval)) : Prop :=
  NoDup (map fst g) /\ Forall (fun kv => snd kv <> []) g.

(** The dictionary kept for an activity. *)
Definition activity_dict (activity : pyval) : pyval :=
  match activity_entry activity with
  | Ok entry => entry
  | Raise _ => VNone
  end.

(** The date an activity is grouped by and the dictionary kept for it. *)
Definition dated_activity (activity : pyval) : option (string * pyval) :=
  match py_get activity "date" VNone with
  | Ok (VStr s) => if String.eqb s "" then None else Some (s, activity_dict activity)
  | _ => None
  end.

(** ** Further sample documents *)

(** An activity-tracker document: two summaries of one day, a summary
    without a date, two activities on one day (one without a duration),
    an activity without a date and a weight. *)
Definition sample_garmin : pyval :=
  VDict [("dailySummaries",
          VList [VDict [("date", VStr "2024-01-01"); ("steps", VInt 4000);
                        ("restingHeartRate", VInt 130)];
                 VDict [("steps", VInt 99)];
                 VDict [("date", VStr "2024-01-01"); ("steps", VInt 8000);
                        ("calories", VInt 2100)]]);
         ("sleepData",
          VList [VDict [("date", VStr "2024-01-02"); ("sleepSeconds", VInt 25200)]]);
         ("activities",
          VList [VDict [("date", VStr "2024-01-02"); ("name", VStr "Run");
                        ("duration", VInt 1800); ("calories", VInt 300)];
                 VDict [("name", VStr "Walk"); ("duration", VInt 600)];
                 VDict [("date", VStr "2024-01-02"); ("name", VStr "Yoga");
                        ("calories", VInt 90)]]);
         ("weight",
          VList [VDict [("date", VStr "2024-01-03");
                        ("weight", VFloat (Float64.dec 705 1))]])].

Definition sample_garmin_daily : pydict :=
  Eval vm_compute in
    match process_garmin_data sample_garmin with
    | Some (Ok daily) => daily
    | _ => []
    end.

(** The streams of dated records and the fields taken from their records. *)
Definition garmin_fields : list (string * list string) :=
  [("dailySummaries", summary_fields); ("sleepData", sleep_fields);
   ("weight", weight_fields)].

(** The date a glucose reading is grouped by, and its value: a reading
    without a timestamp has none. *)
Definition dated_value (reading : pyval) : option (string * pyval) :=
  match py_get reading "timestamp" (VStr "") with
  | Ok (VStr ts) =>
      if String.eqb ts "" then None
      else match py_get reading "value" VNone with
           | Ok v => Some (str_take 10 ts, v)
           | Raise _ => None
           end
  | _ => None
  end.

(** The values of the readings of a date, in the order of the history. *)
Definition values_on (d : string) (readings : list pyval) : list pyval :=
  grouped dated_value d readings.

(** A reading without a timestamp: a dictionary whose [timestamp] is
    missing, null, empty or false in another way. *)
Definition undated (reading : pyval) : bool :=
  match reading with
  | VDict r => negb (truthy (dict_get "timestamp" (VStr "") r))
  | _ => false
  end.

(** The glucose document without the undated readings of its history. *)
Definition without_undated (lingo : pydict) : pydict :=
  match dict_lookup "history" lingo with
  | Some (VList readings) =>
      dict_set "history"
        (VList (filter (fun r => Is_true (negb (undated r))) readings)) lingo
  | _ => lingo
  end.

(** [r] is a minimum of [l]: one of its items, and no item is smaller. *)
Definition minimum_of (r : pyval) (l : list pyval) : Prop :=
  r ∈ l /\ forall s, s ∈ l -> py_lt s r = Ok false.

Definition sample_glucose_daily : pydict :=
  Eval vm_compute in
    match process_lingo_data history_with_undated with
    | Ok daily => daily
    | Raise _ => []
    end.

(** A record of the recovery tracker counts for the date [d]: its
    [created_at] is a text that starts with [d], and its score is neither
    missing nor empty. *)
Definition scored_on (d : string) (record : pyval) : bool :=
  match record with
  | VDict r =>
      match dict_get "created_at" (VStr "") r with
      | VStr ts =>
          negb (String.eqb ts "") && String.eqb (str_take 10 ts) d
          && truthy (dict_get "score" VNone r)
      | _ => false
      end
  | _ => false
  end.

Definition whoop_streams : list string := ["recovery"; "sleep"; "workout"].

(** A recovery-tracker document: a recovery and a sleep record of one
    day, a sleep record without stage durations, a record without a score
    and two workouts of the next day. *)
Definition sample_whoop : pyval :=
  VDict [("recovery",
          VList [recovery_record "2024-01-02T06:30:00.000Z"
                   [("recovery_score", VInt 66);
                    ("hrv_rmssd_milli", VFloat (Float64.dec 452 1));
                    ("resting_heart_rate", VInt 52)];
                 VDict [("created_at", VStr "2024-01-05T06:30:00.000Z")]]);
         ("sleep",
          VList [recovery_record "2024-01-02T07:00:00.000Z"
                   [("stage_summary",
                     VDict [("total_light_sleep_time_milli", VInt 14400000);
                            ("total_slow_wave_sleep_time_milli", VInt 5400000);
                            ("total_rem_sleep_time_milli", VInt 6300000)]);
                    ("sleep_performance_percentage", VInt 88)];
                 recovery_record "2024-01-04T07:00:00.000Z"
                   [("sleep_performance_percentage", VInt 40)]]);
         ("workout",
          VList [workout_record "2024-01-03T07:00:00.000Z"
                   [("strain", VFloat (Float64.dec 50 1))];
                 workout_record "2024-01-03T18:00:00.000Z"
                   [("strain", VFloat (Float64.dec 83 1))]])].

Definition sample_whoop_daily : pydict :=
  Eval vm_compute in
    match process_whoop_data sample_whoop with
    | Ok daily => daily
    | Raise _ => []
    end.

(** A float whose sign bit is clear, or NaN: it does not compare below
    zero. *)
Definition sign_clear (f : spec_float) : Prop :=
  match f with
  | S754_zero s | S754_infinity s | S754_finite s _ _ => s = false
  | S754_nan => True
  end.

(** The durations a sleep record stores besides [sleepHours]. *)
Definition stage_hours : list string :=
  ["deepSleepHours"; "remSleepHours"; "lightSleepHours"].

(** The sleep durations of a date are stored together or not at all, and
    a stored [sleepHours] is a float whose sign bit is clear. *)
Definition sleep_durations_ok (d : string) (daily : pydict) : Prop :=
  (forall k, k ∈ stage_hours ->
     (metric "whoop" d k daily = None <-> metric "whoop" d "sleepHours" daily = None))
  /\ (forall v, metric "whoop" d "sleepHours" daily = Some v ->
        exists f, v = VFloat f /\ sign_clear f).

(** The date range of the summary over the dates of the daily records. *)
Definition date_range (dates : list string) : pyval :=
  VDict [("start", from_option VStr VNone (head dates));
         ("end", from_option VStr VNone (last dates));
         ("totalDays", py_len dates)].

(** The consolidation of the three sample documents, no biomarkers, with
    the correctly rounded library. *)
Definition sample_output : pyval :=
  Eval vm_compute in
    match main_output (L := correctly_rounded) "2024-01-05T12:00:00"
            sample_garmin history_with_undated
            sample_whoop (VDict []) with
    | Some (Ok out) => out
    | _ => VNone
    end.

(** The measurements of a biomarker: what it holds under [measurements],
    or under [results] when that is missing or empty. *)
Definition measurements_of (biomarker : pyval) : list pyval :=
  match (measured ← py_get biomarker "measurements" (VList []);
         measurements ← (if truthy measured then Ok measured
                         else py_get biomarker "results" (VList []));
         py_iter measurements) with
  | Ok items => items
  | Raise _ => []
  end.

(** A measurement that has a value. *)
Definition valued (measurement : pyval) : bool :=
  match py_get measurement "value" VNone with
  | Ok v => negb (is_none v)
  | Raise _ => false
  end.

(** The measurements of a document that have a value, each with its
    category and its biomarker, in the order of the document. *)
Definition valued_measurements (document : pyval) : list (pyval * pyval * pyval) :=
  flat_map (fun c =>
              flat_map (fun b =>
                          flat_map (fun m => if valued m then [(c, b, m)] else [])
                            (measurements_of b))
                (stream_items c "biomarkers"))
    (stream_items document "categories").

(** What an entry of the flat list shows of a measurement, its biomarker
    and its category. *)
Definition entry_of (r : pyval) (cbm : pyval * pyval * pyval) : Prop :=
  py_index r "category" = py_get (fst (fst cbm)) "name" VNone
  /\ py_index r "biomarker" = py_get (snd (fst cbm)) "name" VNone
  /\ py_index r "unit" = py_get (snd (fst cbm)) "unit" VNone
  /\ py_index r "optimalRange" = py_get (snd (fst cbm)) "optimalRange" (VStr "")
  /\ py_index r "value" = py_get (snd cbm) "value" VNone
  /\ py_index r "date" = py_get (snd cbm) "date" VNone
  /\ py_index r "provider" = py_get (snd cbm) "provider" VNone.

(** A biomarker document with two biomarkers: the first has a measurement
    without a value between two with one, the second keeps its
    measurements under [results]. *)
Definition sample_biomarkers : pyval :=
  VDict [("categories",
          VList [VDict [("name", VStr "Metabolic");
                        ("biomarkers",
                         VList [VDict [("name", VStr "Glucose");
                                       ("unit", VStr "mg/dL");
                                       ("optimalRange", VStr "70-99");
                                       ("measurements",
                                        VList [VDict [("date", VStr "2024-01-01");
                                                      ("value", VInt 85)];
                                               VDict [("date", VStr "2024-02-01")];
                                               VDict [("date", VStr "2024-03-01");
                                                      ("value", VInt 0)]])];
                                VDict [("name", VStr "Insulin");
                                       ("measurements", VList []);
                                       ("results",
                                        VList [VDict [("date", VStr "2024-01-01");
                                                      ("value", VFloat (Float64.dec 52 1))]])]])]])].

Definition sample_results : list pyval :=
  Eval vm_compute in
    match process_biomarkers sample_biomarkers with
    | Ok results => results
    | Raise _ => []
    end.

(** The same document with a value given as text. *)
Definition textual_biomarkers : pyval :=
  VDict [("categories",
          VList [VDict [("name", VStr "Hormones");
                        ("biomarkers",
                         VList [VDict [("name", VStr "TSH");
                                       ("optimalRange", VStr "0.5 - 2.5");
                                       ("measurements",
                                        VList [VDict [("date", VStr "2024-01-01");
                                                      ("value", VStr "<0.1")]])]])]])].

(** The names of the seven correlations. *)
Definition correlation_names : list string :=
  ["steps_vs_sleep"; "steps_vs_glucose"; "sleep_vs_glucose";
   "exercise_vs_glucose"; "sleep_vs_recovery"; "hrv_vs_sleep";
   "steps_vs_recovery"].

(** [result[name]["correlation"]] *)
Definition correlation_of (result : pyval) (name : string) : res pyval :=
  e ← py_index result name; py_index e "correlation".

(** The correlations of [three_days], computed. *)
Definition three_days_correlations : pyval :=
  Eval vm_compute in
    match calculate_correlations (L := correctly_rounded) three_days with
    | Ok result => result
    | Raise _ => VNone
    end.

(** Two results of the biomarker normaliser, the second from a
    measurement without a date. *)
Definition undated_results : list pyval :=
  Eval vm_compute in
    match process_biomarkers
            (VDict [("categories",
                     VList [VDict [("name", VStr "Lipids");
                                   ("biomarkers",
                                    VList [VDict [("name", VStr "LDL");
                                                  ("measurements",
                                                   VList [VDict [("date", VStr "2024-01-01");
                                                                 ("value", VInt 90)];
                                                          VDict [("value", VInt 95)]])]])]])])
    with
    | Ok results => results
    | Raise _ => []
    end.

(** The records of a stream that count for a date, in order. *)
Definition scored_records (d : string) (records : list pyval) : list pyval :=
  filter (fun r => Is_true (scored_on d r)) records.

(** Two recovery records of one day: the later one has neither a recovery
    score nor an HRV. *)
Definition two_recoveries : pyval :=
  VDict [("recovery",
          VList [recovery_record "2024-01-02T06:30:00.000Z"
                   [("recovery_score", VInt 66);
                    ("hrv_rmssd_milli", VFloat (Float64.dec 452 1));
                    ("resting_heart_rate", VInt 52)];
                 recovery_record "2024-01-02T09:00:00.000Z"
                   [("resting_heart_rate", VInt 55)]])].

Definition two_recoveries_daily : pydict :=
  Eval vm_compute in
    match process_whoop_data two_recoveries with
    | Ok daily => daily
    | Raise _ => []
    end.

(** A computation that raises nothing but the exceptions of [P]. *)
Definition raises_only {A : Type} (P : exn -> Prop) (m : res A) : Prop :=
  forall e, m = Raise e -> P e.

(** The exceptions of a value of the wrong kind or out of range. *)
Definition value_fault (e : exn) : Prop :=
  e = TypeError \/ e = ValueError \/ e = OverflowError.

(** A biomarker document whose two measurements have a value and no date,
    and the flat list made from it. *)
Definition undated_document : pyval :=
  VDict [("categories",
          VList [VDict [("name", VStr "Lipids");
                        ("biomarkers",
                         VList [VDict [("name", VStr "LDL");
                                       ("measurements",
                                        VList [VDict [("value", VInt 90)];
                                               VDict [("value", VInt 95)]])]])]])].

Definition undated_document_results : list pyval :=
  Eval vm_compute in
    match process_biomarkers undated_document with
    | Ok results => results
    | Raise _ => []
    end.

(** The merged sequence of the three sample documents. *)
Definition sample_daily_data : list pyval :=
  Eval vm_compute in
    match merge_daily_data sample_garmin_daily sample_glucose_daily
            sample_whoop_daily with
    | Ok daily_data => daily_data
    | Raise _ => []
    end.

(** * Properties *)

(** ** The exception monad and dictionaries *)

Lemma mapM_map {A B : Type} (f : A -> res B) (g : A -> B) (l : list A) :
  (forall x, x ∈ l -> f x = Ok (g x)) -> mapM f l = Ok (map g l).
Proof.
  induction l as [|x l IH]; intros Hf; simpl; [reflexivity|].
  rewrite (Hf x) by left. simpl.
  rewrite IH by (intros y Hy; apply Hf; right; exact Hy).
  reflexivity.
Qed.

Lemma dict_lookup_None (k : string) (d : pydict) :
  dict_lookup k d = None <-> k ∉ keys d.
Proof.
  induction d as [|[k' v] d IH]; simpl.
  - split; [intros _; apply not_elem_of_nil | reflexivity].
  - destruct (String.eqb_spec k k') as [->|Hne].
    + split; [discriminate|]. intros H. exfalso. apply H. left.
    + rewrite IH. rewrite not_elem_of_cons. tauto.
Qed.

Lemma dict_lookup_Some_elem (k : string) (v : pyval) (d : pydict) :
  dict_lookup k d = Some v -> (k, v) ∈ d.
Proof.
  induction d as [|[k' v'] d IH]; simpl; [discriminate|].
  destruct (String.eqb_spec k k') as [->|Hne].
  - intros [= ->]. left.
  - intros H. right. auto.
Qed.

Lemma dict_lookup_set (k k' : string) (v : pyval) (d : pydict) :
  dict_lookup k (dict_set k' v d)
  = if String.eqb k k' then Some v else dict_lookup k d.
Proof.
  induction d as [|[k0 v0] d IH]; simpl.
  - destruct (String.eqb k k'); reflexivity.
  - destruct (String.eqb_spec k' k0) as [->|Hne]; simpl.
    + destruct (String.eqb k k0); reflexivity.
    + destruct (String.eqb_spec k k0) as [->|Hne'].
      * destruct (String.eqb_spec k0 k') as [->|_]; [contradiction|reflexivity].
      * exact IH.
Qed.

(** ** The per-date accumulator *)

Lemma day_entry_set (ns d d' : string) (e : pydict) (daily : pydict) :
  day_entry ns d (dict_set d' (VDict e) daily)
  = if String.eqb d d' then e else day_entry ns d daily.
Proof.
  unfold day_entry. rewrite dict_lookup_set.
  destruct (String.eqb d d'); reflexivity.
Qed.

Lemma day_metrics_set_date (ns d d' : string) (daily : pydict) :
  ns <> "date" ->
  day_metrics ns d (set_date ns d' daily) = day_metrics ns d daily.
Proof.
  intros Hns. unfold day_metrics, set_date. rewrite day_entry_set.
  destruct (String.eqb_spec d d') as [->|_]; [|reflexivity].
  rewrite dict_lookup_set.
  destruct (String.eqb_spec ns "date") as [->|_]; [contradiction|reflexivity].
Qed.

Lemma day_metrics_set_metric (ns d d' k : string) (v : pyval) (daily : pydict) :
  day_metrics ns d (set_metric ns d' k v daily)
  = if String.eqb d d' then dict_set k v (day_metrics ns d daily)
    else day_metrics ns d daily.
Proof.
  unfold set_metric, set_namespace, day_metrics at 1. rewrite day_entry_set.
  destruct (String.eqb_spec d d') as [->|_]; [|reflexivity].
  rewrite dict_lookup_set, String.eqb_refl. reflexivity.
Qed.

Lemma metric_set_date (ns d d' k : string) (daily : pydict) :
  ns <> "date" ->
  metric ns d k (set_date ns d' daily) = metric ns d k daily.
Proof. intros H. unfold metric. rewrite day_metrics_set_date by exact H. reflexivity. Qed.

Lemma metric_set_metric (ns d d' k k' : string) (v : pyval) (daily : pydict) :
  metric ns d k (set_metric ns d' k' v daily)
  = if String.eqb d d' && String.eqb k k' then Some v else metric ns d k daily.
Proof.
  unfold metric. rewrite day_metrics_set_metric.
  destruct (String.eqb d d'); simpl; [|reflexivity].
  apply dict_lookup_set.
Qed.

(** ** Order of the numbers *)

Lemma dyadic_compare_scaled (m1 e1 m2 e2 e0 : Z) :
  e0 <= e1 -> e0 <= e2 ->
  Num.dyadic_compare m1 e1 m2 e2
  = (m1 * 2 ^ (e1 - e0) ?= m2 * 2 ^ (e2 - e0)).
Proof.
  intros H1 H2. unfold Num.dyadic_compare.
  set (e := Z.min e1 e2).
  assert (He : e0 <= e) by (unfold e; lia).
  assert (He1 : e <= e1) by (unfold e; lia).
  assert (He2 : e <= e2) by (unfold e; lia).
  replace (e1 - e0) with ((e1 - e) + (e - e0)) by lia.
  replace (e2 - e0) with ((e2 - e) + (e - e0)) by lia.
  rewrite !Z.pow_add_r by lia.
  rewrite !Z.mul_assoc.
  symmetry. rewrite <- Zmult_compare_compat_r; [reflexivity|].
  apply Z.lt_gt. apply Z.pow_pos_nonneg; lia.
Qed.

Lemma dyadic_compare_antisym (m1 e1 m2 e2 : Z) :
  Num.dyadic_compare m2 e2 m1 e1 = CompOpp (Num.dyadic_compare m1 e1 m2 e2).
Proof.
  unfold Num.dyadic_compare. rewrite (Z.min_comm e2 e1).
  apply Z.compare_antisym.
Qed.

Lemma dyadic_compare_refl (m e : Z) : Num.dyadic_compare m e m e = Eq.
Proof. unfold Num.dyadic_compare. apply Z.compare_refl. Qed.

Lemma dyadic_lt_trans (m1 e1 m2 e2 m3 e3 : Z) :
  Num.dyadic_compare m1 e1 m2 e2 = Lt ->
  Num.dyadic_compare m2 e2 m3 e3 = Lt ->
  Num.dyadic_compare m1 e1 m3 e3 = Lt.
Proof.
  set (e0 := Z.min e1 (Z.min e2 e3)).
  rewrite (dyadic_compare_scaled m1 e1 m2 e2 e0) by (unfold e0; lia).
  rewrite (dyadic_compare_scaled m2 e2 m3 e3 e0) by (unfold e0; lia).
  rewrite (dyadic_compare_scaled m1 e1 m3 e3 e0) by (unfold e0; lia).
  rewrite !Z.compare_lt_iff. lia.
Qed.

Lemma xcompare_antisym (a b : Num.xreal) :
  Num.xcompare b a = option_map CompOpp (Num.xcompare a b).
Proof.
  destruct a as [|s1|m1 e1], b as [|s2|m2 e2]; simpl; try reflexivity.
  - destruct s1, s2; reflexivity.
  - destruct s1; reflexivity.
  - destruct s2; reflexivity.
  - rewrite dyadic_compare_antisym. reflexivity.
Qed.

Lemma xcompare_lt_trans (a b c : Num.xreal) :
  Num.xcompare a b = Some Lt -> Num.xcompare b c = Some Lt ->
  Num.xcompare a c = Some Lt.
Proof.
  destruct a as [|s1|m1 e1], b as [|s2|m2 e2], c as [|s3|m3 e3]; simpl;
    try discriminate; try (destruct s1); try (destruct s2); try (destruct s3);
    try discriminate; try reflexivity.
  intros [= H1] [= H2]. f_equal. exact (dyadic_lt_trans _ _ _ _ _ _ H1 H2).
Qed.

Lemma num_ltb_trans (a b c : pynum) :
  Num.ltb a b = true -> Num.ltb b c = true -> Num.ltb a c = true.
Proof.
  unfold Num.ltb, Num.compare. intros H1 H2.
  destruct (Num.xcompare (Num.xreal_of a) (Num.xreal_of b)) as [[]|] eqn:E1;
    try discriminate.
  destruct (Num.xcompare (Num.xreal_of b) (Num.xreal_of c)) as [[]|] eqn:E2;
    try discriminate.
  rewrite (xcompare_lt_trans _ _ _ E1 E2). reflexivity.
Qed.

Lemma num_ltb_irrefl (a : pynum) : Num.ltb a a = false.
Proof.
  unfold Num.ltb, Num.compare.
  destruct (Num.xreal_of a) as [|s|m e]; simpl; try reflexivity.
  - destruct s; reflexivity.
  - rewrite dyadic_compare_refl. reflexivity.
Qed.

(** [a <= b] excludes [a > b]. *)
Lemma num_leb_not_gtb (a b : pynum) :
  Num.leb a b = true -> Num.gtb a b = false.
Proof.
  unfold Num.leb, Num.gtb, Num.ltb, Num.compare.
  rewrite (xcompare_antisym (Num.xreal_of a) (Num.xreal_of b)).
  destruct (Num.xcompare (Num.xreal_of a) (Num.xreal_of b)) as [[]|];
    simpl; intros H; try discriminate; reflexivity.
Qed.

(** ** Reading a successful run backwards *)

Lemma bind_Ok {A B : Type} (m : res A) (f : A -> res B) (b : B) :
  (m ≫= f) = Ok b -> exists a, m = Ok a /\ f a = Ok b.
Proof. destruct m as [a|e]; simpl; [eauto | discriminate]. Qed.

(** Splits a hypothesis [x ← m; k = Ok r] into [m = Ok x] and
    [k = Ok r], as often as it can, deciding conditionals on the way. *)
Ltac run H :=
  repeat first
    [ match type of H with
      | (_ ≫= _) = Ok _ =>
          let a := fresh "v" in
          let E := fresh "E" in
          apply bind_Ok in H as (a & E & H);
          try (match type of E with
               | (_ ≫= _) = Ok _ => run E
               | (if _ then _ else _) = Ok _ => run E
               end)
      | (if ?c then _ else _) = Ok _ => let C := fresh "C" in destruct c eqn:C
      | (match ?o with Some _ => _ | None => _ end) = Ok _ =>
          let C := fresh "C" in destruct o eqn:C
      | (let '(_, _) := ?p in _) = Ok _ => destruct p
      | Ok _ = Ok _ => injection H as H
      | Raise _ = Ok _ => discriminate H
      end ].

Lemma metric_set_metric_ne (ns d d' k k' : string) (v : pyval) (daily : pydict) :
  k <> k' ->
  metric ns d k (set_metric ns d' k' v daily) = metric ns d k daily.
Proof.
  intros Hne. rewrite metric_set_metric.
  destruct (String.eqb_spec k k') as [->|_]; [contradiction|].
  rewrite andb_false_r. reflexivity.
Qed.

Lemma whoop_not_date : "whoop" <> "date".
Proof. discriminate. Qed.

(** ** Recovery-tracker records *)

(** Each stream writes its own metrics and leaves the others alone. *)
Lemma recovery_step_keeps (daily daily' : pydict) (record : pyval)
  (d k : string) :
  recovery_step daily record = Ok daily' ->
  k <> "recoveryScore" -> k <> "hrvMs" -> k <> "restingHeartRate" ->
  metric "whoop" d k daily' = metric "whoop" d k daily.
Proof.
  intros H H1 H2 H3. unfold recovery_step in H. run H; subst;
    rewrite ?metric_set_metric_ne by assumption;
    rewrite ?metric_set_date by exact whoop_not_date; reflexivity.
Qed.

Lemma sleep_step_keeps (daily daily' : pydict) (record : pyval)
  (d k : string) :
  sleep_step daily record = Ok daily' ->
  k <> "sleepHours" -> k <> "deepSleepHours" -> k <> "remSleepHours" ->
  k <> "lightSleepHours" -> k <> "sleepPerformance" -> k <> "sleepEfficiency" ->
  metric "whoop" d k daily' = metric "whoop" d k daily.
Proof.
  intros H H1 H2 H3 H4 H5 H6. unfold sleep_step in H. run H; subst;
    rewrite ?metric_set_metric_ne by assumption;
    rewrite ?metric_set_date by exact whoop_not_date; reflexivity.
Qed.

Lemma workout_step_keeps (daily daily' : pydict) (record : pyval)
  (d k : string) :
  workout_step daily record = Ok daily' ->
  k <> "strain" ->
  metric "whoop" d k daily' = metric "whoop" d k daily.
Proof.
  intros H H1. unfold workout_step in H. run H; subst;
    rewrite ?metric_set_metric_ne by assumption;
    rewrite ?metric_set_date by exact whoop_not_date; reflexivity.
Qed.

Lemma foldM_keeps (step : pydict -> pyval -> res pydict) (d k : string) :
  (forall daily daily' r, step daily r = Ok daily' ->
     metric "whoop" d k daily' = metric "whoop" d k daily) ->
  forall rs daily daily', foldM step daily rs = Ok daily' ->
    metric "whoop" d k daily' = metric "whoop" d k daily.
Proof.
  intros Hstep. induction rs as [|r rs IH]; intros daily daily' H; simpl in H.
  - injection H as <-. reflexivity.
  - run H. rewrite (IH _ _ H). eapply Hstep. eassumption.
Qed.

Lemma fold_stream_keeps (step : pydict -> pyval -> res pydict) (d k : string)
  (whoop : pyval) (stream : string) (daily daily' : pydict) :
  (forall daily daily' r, step daily r = Ok daily' ->
     metric "whoop" d k daily' = metric "whoop" d k daily) ->
  fold_stream step whoop stream daily = Ok daily' ->
  metric "whoop" d k daily' = metric "whoop" d k daily.
Proof.
  intros Hstep H. unfold fold_stream in H.
  destruct (stream_records whoop stream) as [items|e]; [|discriminate].
  simpl in H. eapply foldM_keeps; eassumption.
Qed.

(** ** Values of the daily records *)

Lemma value_of_get (ns k : string) (record sub v : pyval) :
  py_get record ns (VDict []) = Ok sub -> py_get sub k VNone = Ok v ->
  value_of ns k record = v.
Proof. intros H1 H2. unfold value_of. rewrite H1. simpl. rewrite H2. reflexivity. Qed.

Lemma minutes_div (d m : pyval) : py_div d (VInt 60) = Ok m -> minutes d = m.
Proof. intros H. unfold minutes. rewrite H. reflexivity. Qed.

Lemma bind_ret {A : Type} (m : res A) : (m ≫= Ok) = m.
Proof. destruct m; reflexivity. Qed.

Lemma foldM_invariant {A S : Type} (step : S -> A -> res S) (P : S -> Prop) :
  (forall acc x acc', step acc x = Ok acc' -> P acc -> P acc') ->
  forall l acc r, foldM step acc l = Ok r -> P acc -> P r.
Proof.
  intros Hstep. induction l as [|x l IH]; intros acc r H HP; simpl in H.
  - injection H as <-. exact HP.
  - destruct (step acc x) as [acc1|e] eqn:E; [|discriminate].
    simpl in H. eapply IH; [exact H|]. eapply Hstep; eassumption.
Qed.

(** ** Magnitudes of rounded floats

    What the rounding of [SpecFloat] keeps of the size of a number: a
    mantissa of [d] digits at exponent [e] is at least [2^(d+e-1)], and
    rounding it to binary64 does not take it below that when
    [d + e >= -1073], that is from the smallest positive double on. *)

Lemma digits2_bounds (p : positive) :
  2 ^ (Zpos (digits2_pos p) - 1) <= Zpos p < 2 ^ Zpos (digits2_pos p).
Proof.
  induction p as [p IH|p IH|]; simpl digits2_pos.
  - rewrite Pos2Z.inj_succ. change (Zpos p~1) with (2 * Zpos p + 1).
    replace (Z.succ (Zpos (digits2_pos p)) - 1) with (Z.succ (Zpos (digits2_pos p) - 1))
      by lia.
    rewrite !Z.pow_succ_r by lia. lia.
  - rewrite Pos2Z.inj_succ. change (Zpos p~0) with (2 * Zpos p).
    replace (Z.succ (Zpos (digits2_pos p)) - 1) with (Z.succ (Zpos (digits2_pos p) - 1))
      by lia.
    rewrite !Z.pow_succ_r by lia. lia.
  - change (1 <= 1 < 2). lia.
Qed.

Lemma digits2_ge (p : positive) (k : Z) :
  0 <= k -> 2 ^ k <= Zpos p -> k + 1 <= Zpos (digits2_pos p).
Proof.
  intros Hk Hp. destruct (digits2_bounds p) as [_ Hlt].
  assert (H : 2 ^ k < 2 ^ Zpos (digits2_pos p)) by lia.
  apply Z.pow_lt_mono_r_iff in H; lia.
Qed.

Lemma shr_1_half (r : shr_record) :
  0 <= shr_m r -> shr_m (shr_1 r) = shr_m r / 2.
Proof.
  destruct r as [m rb sb]. simpl. intros Hm.
  destruct m as [|p|p]; [reflexivity| |lia].
  destruct p as [p|p|]; simpl.
  - change (Zpos p~1) with (2 * Zpos p + 1).
    apply Z.div_unique with (r := 1); lia.
  - change (Zpos p~0) with (2 * Zpos p).
    apply Z.div_unique with (r := 0); lia.
  - reflexivity.
Qed.

Lemma shr_m_iter (p : positive) (r : shr_record) :
  0 <= shr_m r -> shr_m (SpecFloat.iter_pos shr_1 p r) = shr_m r / 2 ^ Zpos p.
Proof.
  revert r. induction p as [p IH|p IH|]; intros r Hr; simpl SpecFloat.iter_pos.
  - assert (H1 : 0 <= shr_m (shr_1 r)).
    { rewrite shr_1_half by exact Hr. apply Z.div_pos; lia. }
    assert (H2 : 0 <= shr_m (SpecFloat.iter_pos shr_1 p (shr_1 r))).
    { rewrite IH by exact H1. apply Z.div_pos; [exact H1|]. apply Z.pow_pos_nonneg; lia. }
    rewrite (IH _ H2), (IH _ H1), shr_1_half by exact Hr.
    rewrite !Z.div_div by (try apply Z.pow_pos_nonneg; lia).
    f_equal. change (Zpos p~1) with (2 * Zpos p + 1).
    replace (2 * Zpos p + 1) with (1 + Zpos p + Zpos p) by lia.
    rewrite !Z.pow_add_r by lia. change (2 ^ 1) with 2. lia.
  - assert (H2 : 0 <= shr_m (SpecFloat.iter_pos shr_1 p r)).
    { rewrite IH by exact Hr. apply Z.div_pos; [exact Hr|]. apply Z.pow_pos_nonneg; lia. }
    rewrite (IH _ H2), (IH _ Hr).
    rewrite Z.div_div by (try apply Z.pow_pos_nonneg; lia).
    f_equal. change (Zpos p~0) with (2 * Zpos p).
    replace (2 * Zpos p) with (Zpos p + Zpos p) by lia.
    rewrite Z.pow_add_r by lia. lia.
  - rewrite shr_1_half by exact Hr. reflexivity.
Qed.

Lemma shr_m_of_loc (m : Z) (l : location) : shr_m (shr_record_of_loc m l) = m.
Proof. destruct l as [|[| |]]; reflexivity. Qed.

Lemma fexp_ge (x : Z) : -1074 <= fexp Float64.prec Float64.emax x.
Proof. unfold fexp, emin, Float64.prec, Float64.emax. lia. Qed.

Lemma fexp_cases (x : Z) :
  fexp Float64.prec Float64.emax x = x - 53
  \/ fexp Float64.prec Float64.emax x = -1074.
Proof. unfold fexp, emin, Float64.prec, Float64.emax. lia. Qed.

(** The exponent a shift ends at is on the grid whatever goes in. *)
Lemma shr_fexp_on_grid (m e : Z) (l : location) :
  -1074 <= snd (shr_fexp Float64.prec Float64.emax m e l).
Proof.
  unfold shr_fexp, shr.
  pose proof (fexp_ge (Zdigits2 m + e)) as H.
  destruct (fexp Float64.prec Float64.emax (Zdigits2 m + e) - e) eqn:E; simpl; lia.
Qed.

(** A mantissa of at least [K - e] digits keeps them, counted with the
    exponent, through a shift. *)
Lemma shr_fexp_magnitude (p : positive) (e : Z) (l : location) (K : Z) :
  -1073 <= K -> K <= Zpos (digits2_pos p) + e ->
  exists q e',
    shr_m (fst (shr_fexp Float64.prec Float64.emax (Zpos p) e l)) = Zpos q
    /\ snd (shr_fexp Float64.prec Float64.emax (Zpos p) e l) = e'
    /\ K <= Zpos (digits2_pos q) + e'.
Proof.
  intros HK Hd. unfold shr_fexp, shr. simpl Zdigits2.
  set (d := Zpos (digits2_pos p)) in *.
  destruct (fexp Float64.prec Float64.emax (d + e) - e) as [|n|n] eqn:E; simpl.
  - rewrite shr_m_of_loc. exists p, e. auto.
  - rewrite shr_m_iter by (rewrite shr_m_of_loc; lia). rewrite shr_m_of_loc.
    assert (Hn : Zpos n <= d - 1) by (destruct (fexp_cases (d + e)); lia).
    destruct (digits2_bounds p) as [Hlo _]. fold d in Hlo.
    assert (Hq : 2 ^ (d - 1 - Zpos n) <= Zpos p / 2 ^ Zpos n).
    { apply Z.div_le_lower_bound; [apply Z.pow_pos_nonneg; lia|].
      rewrite <- Z.pow_add_r by lia.
      replace (Zpos n + (d - 1 - Zpos n)) with (d - 1) by lia. exact Hlo. }
    assert (Hpos : 0 < Zpos p / 2 ^ Zpos n).
    { pose proof (Z.pow_pos_nonneg 2 (d - 1 - Zpos n)). lia. }
    destruct (Zpos p / 2 ^ Zpos n) as [|q|q] eqn:Eq; try lia.
    exists q, (e + Zpos n). split; [reflexivity|]. split; [reflexivity|].
    pose proof (digits2_ge q (d - 1 - Zpos n)). lia.
  - rewrite shr_m_of_loc. exists p, e. auto.
Qed.

Lemma round_nearest_even_ge (m : Z) (l : location) :
  m <= round_nearest_even m l <= m + 1.
Proof.
  unfold round_nearest_even. destruct l as [|[| |]]; try lia.
  destruct (Z.even m); lia.
Qed.

(** Rounding to binary64 gives a double, and one not smaller in digits
    and exponent than what went in, when that is at least 2^-1074. *)
Lemma round_aux_magnitude (s : bool) (p : positive) (e : Z) (l : location) (K : Z) :
  -1073 <= K -> K <= Zpos (digits2_pos p) + e ->
  match binary_round_aux Float64.prec Float64.emax s (Zpos p) e l with
  | S754_finite _ m' e' => K <= Zpos (digits2_pos m') + e' /\ -1074 <= e'
  | S754_infinity _ => True
  | _ => False
  end.
Proof.
  intros HK Hd. unfold binary_round_aux.
  destruct (shr_fexp_magnitude p e l K HK Hd) as (q & e1 & Hq & He1 & Hk1).
  destruct (shr_fexp Float64.prec Float64.emax (Zpos p) e l) as [mrs1 e1'].
  simpl in Hq, He1. subst e1'.
  pose proof (round_nearest_even_ge (shr_m mrs1) (loc_of_shr_record mrs1)) as Hr.
  rewrite Hq in *.
  destruct (round_nearest_even (Zpos q) (loc_of_shr_record mrs1)) as [|q'|q'] eqn:Er;
    try lia.
  assert (Hk2 : K <= Zpos (digits2_pos q') + e1).
  { destruct (digits2_bounds q) as [Hlo _].
    pose proof (digits2_ge q' (Zpos (digits2_pos q) - 1)). lia. }
  destruct (shr_fexp_magnitude q' e1 loc_Exact K HK Hk2) as (q2 & e2 & Hq2 & He2 & Hk3).
  pose proof (shr_fexp_on_grid (Zpos q') e1 loc_Exact) as Hg.
  destruct (shr_fexp Float64.prec Float64.emax (Zpos q') e1 loc_Exact) as [mrs2 e2'].
  simpl in Hq2, He2, Hg. subst e2'. rewrite Hq2.
  destruct (e2 <=? Float64.emax - Float64.prec); [split; assumption | exact I].
Qed.

Lemma round_aux_on_grid (s : bool) (m e : Z) (l : location) :
  on_grid (binary_round_aux Float64.prec Float64.emax s m e l).
Proof.
  unfold binary_round_aux.
  destruct (shr_fexp Float64.prec Float64.emax m e l) as [mrs1 e1].
  pose proof (shr_fexp_on_grid
                (round_nearest_even (shr_m mrs1) (loc_of_shr_record mrs1)) e1 loc_Exact)
    as Hg.
  destruct (shr_fexp Float64.prec Float64.emax _ e1 loc_Exact) as [mrs2 e2].
  simpl in Hg. destruct (shr_m mrs2); simpl; try exact I.
  destruct (e2 <=? Float64.emax - Float64.prec); simpl; [exact Hg | exact I].
Qed.

Lemma mul_on_grid (a b : spec_float) : on_grid (Float64.mul a b).
Proof.
  unfold Float64.mul, SFmul.
  destruct a as [sa|sa| |sa ma ea], b as [sb|sb| |sb mb eb]; try exact I.
  apply round_aux_on_grid.
Qed.



(** *** The correctly rounded library *)

Lemma sqrt_not_tiny (m : positive) (e : Z) :
  -1074 <= e -> not_tiny (Float64.sqrt (S754_finite false m e)).
Proof.
  intros He. unfold Float64.sqrt, SFsqrt, SFsqrt_core_binary.
  set (e' := Z.min _ _).
  assert (He' : 2 * e' <= e).
  { subst e'. rewrite Z.div2_div.
    pose proof (Z.div_mod e 2 ltac:(lia)). pose proof (Z.mod_pos_bound e 2 ltac:(lia)).
    lia. }
  set (s := e - 2 * e') in *.
  assert (Hm' : exists p', match s with
                           | Z0 => Zpos m | Zpos _ => Z.shiftl (Zpos m) s | Zneg _ => 0
                           end = Zpos p' /\ 2 ^ s <= Zpos p').
  { destruct s as [|n|n] eqn:Es; [exists m; simpl; lia| |lia].
    rewrite Z.shiftl_mul_pow2 by lia.
    pose proof (Z.pow_pos_nonneg 2 (Zpos n) ltac:(lia) ltac:(lia)).
    destruct (Zpos m * 2 ^ Zpos n) as [|p'|p'] eqn:Ep; try nia.
    exists p'. split; [reflexivity|]. nia. }
  destruct Hm' as (p' & -> & Hp').
  pose proof (Z.sqrtrem_spec (Zpos p') ltac:(lia)) as Hs.
  destruct (Z.sqrtrem (Zpos p')) as [q r]. destruct Hs as [Hqr Hr].
  destruct q as [|q|q]; try lia.
  assert (Hq : -536 <= Zpos (digits2_pos q) + e').
  { assert (Ht : 2 ^ (s / 2) <= Zpos q).
    { assert (H2 : 2 ^ (s / 2) * 2 ^ (s / 2) <= 2 ^ s).
      { rewrite <- Z.pow_add_r by (apply Z.div_pos; lia).
        apply Z.pow_le_mono_r; [lia|].
        pose proof (Z.div_mod s 2 ltac:(lia)).
        pose proof (Z.mod_pos_bound s 2 ltac:(lia)). lia. }
      pose proof (Z.pow_pos_nonneg 2 (s / 2) ltac:(lia) ltac:(apply Z.div_pos; lia)).
      nia. }
    pose proof (digits2_ge q (s / 2) ltac:(apply Z.div_pos; lia) Ht) as Hd.
    assert (Hs2 : -537 - e' <= s / 2).
    { apply Z.div_le_lower_bound; lia. }
    lia. }
  pose proof (round_aux_magnitude false q e'
                (if r =? 0 then loc_Exact
                 else loc_Inexact (if r <=? Zpos q then Lt else Gt))
                (-536) ltac:(lia) Hq) as H.
  destruct (binary_round_aux _ _ _ _ _ _); simpl; try exact I; try contradiction.
  destruct H as [H _]. exact H.
Qed.

Lemma mul_not_negative (d : spec_float) : not_negative (Float64.mul d d).
Proof.
  unfold Float64.mul, SFmul. destruct d as [s|s| |s m e]; simpl; try exact I.
  rewrite xorb_nilpotent. unfold binary_round_aux.
  destruct (shr_fexp _ _ _ _ _) as [mrs' e'].
  destruct (shr_fexp _ _ _ e' loc_Exact) as [mrs'' e''].
  destruct (shr_m mrs''); simpl; try exact I.
  destruct (Z.leb _ _); exact I.
Qed.

Lemma correctly_rounded_plausible : plausible correctly_rounded.
Proof.
  split; [|split].
  - intros x. apply mul_not_negative.
  - intros x. apply mul_on_grid.
  - intros m e He. apply (sqrt_not_tiny m e He).
Qed.

(** ** Glucose readings *)

Lemma py_add_None (acc : pyval) : py_add acc VNone = Raise TypeError.
Proof.
  destruct acc as [| b | n | s | l | d]; reflexivity.
Qed.

Lemma foldM_sum_None (l : list pyval) (acc : pyval) :
  VNone ∈ l ->
  exists e, foldM (fun acc a => t ← Ok a; py_add acc t) acc l = Raise e.
Proof.
  revert acc. induction l as [|v l IH]; intros acc Hin.
  - apply elem_of_nil in Hin. contradiction.
  - apply elem_of_cons in Hin as [<-|Hin]; simpl.
    + rewrite py_add_None. simpl. eauto.
    + destruct (py_add acc v) as [acc'|e]; simpl; eauto.
Qed.

(** A null value among the values of a day makes the day's statistics
    raise: [sum] cannot add [None]. *)
Lemma glucose_summary_None (values : list pyval) :
  VNone ∈ values -> exists e, glucose_summary values = Raise e.
Proof.
  intros Hin. unfold glucose_summary, py_sum, py_sum_gen.
  destruct (foldM_sum_None values (VInt 0) Hin) as [e ->].
  simpl. eauto.
Qed.

Lemma group_append_keeps (d d' : string) (v v' : pyval) (vs : list pyval)
  (g : list (string * list pyval)) :
  (d, vs) ∈ g -> v ∈ vs ->
  exists vs', (d, vs') ∈ group_append d' v' g /\ v ∈ vs'.
Proof.
  induction g as [|[k ws] g IH]; intros Hin Hv.
  - apply elem_of_nil in Hin. contradiction.
  - simpl. apply elem_of_cons in Hin as [[= <- <-]|Hin].
    + destruct (String.eqb d' d).
      * exists (vs ++ [v']). split; [left|]. apply elem_of_app. left. exact Hv.
      * exists vs. split; [left | exact Hv].
    + destruct (String.eqb d' k).
      * exists vs. split; [right; exact Hin | exact Hv].
      * destruct (IH Hin Hv) as (vs' & H1 & H2).
        exists vs'. split; [right; exact H1 | exact H2].
Qed.

Lemma group_append_adds (d : string) (v : pyval)
  (g : list (string * list pyval)) :
  exists vs, (d, vs) ∈ group_append d v g /\ v ∈ vs.
Proof.
  induction g as [|[k ws] g IH]; simpl.
  - exists [v]. split; left.
  - destruct (String.eqb_spec d k) as [->|Hne].
    + exists (ws ++ [v]). split; [left|]. apply elem_of_app. right. left.
    + destruct IH as (vs & H1 & H2). exists vs. split; [right; exact H1 | exact H2].
Qed.

(** A null value, once grouped, stays in its group while later readings
    are added. *)
Lemma readings_keep_None (rs : list pyval) (g g' : list (string * list pyval)) :
  (exists d vs, (d, vs) ∈ g /\ VNone ∈ vs) ->
  foldM lingo_reading_step g rs = Ok g' ->
  exists d vs, (d, vs) ∈ g' /\ VNone ∈ vs.
Proof.
  revert g. induction rs as [|r rs IH]; intros g Hg Hfold; simpl in Hfold.
  - injection Hfold as <-. exact Hg.
  - destruct (lingo_reading_step g r) as [g1|e] eqn:Hstep; [|discriminate].
    simpl in Hfold. apply (IH g1); [|exact Hfold].
    destruct Hg as (d & vs & Hin & Hv).
    unfold lingo_reading_step in Hstep.
    destruct (py_get r "timestamp" (VStr "")) as [ts|e]; [|discriminate].
    simpl in Hstep. destruct (truthy ts).
    + destruct (slice10 ts) as [dt|e]; [|discriminate]. simpl in Hstep.
      destruct (as_key dt) as [k|e]; [|discriminate]. simpl in Hstep.
      destruct (py_get r "value" VNone) as [val|e]; [|discriminate].
      simpl in Hstep. injection Hstep as <-.
      destruct (group_append_keeps d k VNone val vs g Hin Hv) as (vs' & H1 & H2).
      eauto.
    + injection Hstep as <-. eauto.
Qed.

(** Every reading with a timestamp and a null (or missing) value puts
    [None] into the values of its day. *)
Lemma readings_group_None (rs : list pyval) (g g' : list (string * list pyval))
  (r : pyval) (ts : string) :
  r ∈ rs ->
  py_get r "timestamp" (VStr "") = Ok (VStr ts) -> ts <> "" ->
  py_get r "value" VNone = Ok VNone ->
  foldM lingo_reading_step g rs = Ok g' ->
  exists d vs, (d, vs) ∈ g' /\ VNone ∈ vs.
Proof.
  intros Hin Hts Hne Hval. revert g.
  induction rs as [|r' rs IH]; intros g Hfold.
  - apply elem_of_nil in Hin. contradiction.
  - simpl in Hfold.
    destruct (lingo_reading_step g r') as [g1|e] eqn:Hstep; [|discriminate].
    simpl in Hfold. apply elem_of_cons in Hin as [<-|Hin].
    + apply (readings_keep_None rs g1); [|exact Hfold].
      unfold lingo_reading_step in Hstep. rewrite Hts in Hstep. simpl in Hstep.
      destruct (String.eqb_spec ts "") as [->|_]; [contradiction|].
      simpl in Hstep. rewrite Hval in Hstep. simpl in Hstep.
      injection Hstep as <-.
      destruct (group_append_adds (str_take 10 ts) VNone g) as (vs & H1 & H2).
      eauto.
    + apply (IH Hin g1 Hfold).
Qed.

Lemma days_raise_on_None (g : list (string * list pyval)) (daily : pydict) :
  (exists d vs, (d, vs) ∈ g /\ VNone ∈ vs) ->
  exists e, foldM lingo_day_step daily g = Raise e.
Proof.
  revert daily. induction g as [|[k ws] g IH]; intros daily (d & vs & Hin & Hv).
  - apply elem_of_nil in Hin. contradiction.
  - simpl. apply elem_of_cons in Hin as [[= <- <-]|Hin].
    + destruct vs as [|v vs]; [apply elem_of_nil in Hv; contradiction|].
      destruct (glucose_summary_None (v :: vs) Hv) as [e He].
      rewrite He. simpl. eauto.
    + destruct ws as [|w ws]; simpl.
      * apply IH. eauto.
      * destruct (glucose_summary (w :: ws)) as [s|e]; simpl; [|eauto].
        apply IH. eauto.
Qed.

(** Whatever else the document holds: one reading with a timestamp and a
    null value, and the normaliser raises instead of returning. *)
Lemma process_lingo_data_aborts_on_null (lingo : pyval) (rs : list pyval)
  (r : pyval) (ts : string) :
  py_get lingo "history" (VList []) = Ok (VList rs) ->
  r ∈ rs ->
  py_get r "timestamp" (VStr "") = Ok (VStr ts) -> ts <> "" ->
  py_get r "value" VNone = Ok VNone ->
  exists e, process_lingo_data lingo = Raise e.
Proof.
  intros Hh Hin Hts Hne Hval. unfold process_lingo_data.
  rewrite Hh. simpl.
  destruct (foldM lingo_reading_step [] rs) as [g|e] eqn:Hfold; simpl; [|eauto].
  apply days_raise_on_None.
  apply (readings_group_None rs [] g r ts Hin Hts Hne Hval Hfold).
Qed.

(** C1 as stated fails on the reading it names.  The day of
    [history_with_null] has two good readings and one whose value is
    null: the normaliser raises [TypeError] and returns no statistics
    for any day, while the same day without the null reading is
    summarised with the average 110.0. *)
Lemma process_lingo_data_null_value_counterexample :
  process_lingo_data history_with_null = Raise TypeError
  /\ process_lingo_data history_without_null
     = Ok [("2024-01-02",
            VDict [("date", VStr "2024-01-02");
                   ("glucose",
                    VDict [("average", VFloat (Float64.dec 1100 1));
                           ("min", VInt 100); ("max", VInt 120);
                           ("readings", VInt 2); ("inRange", VInt 2);
                           ("timeInRangePercent", VFloat (Float64.dec 1000 1))])])].
Proof. vm_compute. split; reflexivity. Qed.

(** Readings without a timestamp are skipped, and the readings
    [100, 120, 150, 90] of the specification give average 115.0, min 90,
    max 150, three readings in range and 75.0 percent. *)
Example process_lingo_data_skips_undated :
  process_lingo_data history_with_undated
  = Ok [("2024-01-02",
         VDict [("date", VStr "2024-01-02");
                ("glucose",
                 VDict [("average", VFloat (Float64.dec 1150 1));
                        ("min", VInt 90); ("max", VInt 150);
                        ("readings", VInt 4); ("inRange", VInt 3);
                        ("timeInRangePercent", VFloat (Float64.dec 750 1))])])].
Proof. vm_compute. reflexivity. Qed.

(** ** The daily merger *)

Lemma sub_record_ok (ns date : string) (daily : pydict) :
  daily_mapping daily ->
  sub_record ns date daily = Ok (source_sub_record ns date daily).
Proof.
  intros Hd. unfold sub_record, source_sub_record, dict_get.
  destruct (dict_lookup date daily) as [v|] eqn:E; [|reflexivity].
  apply dict_lookup_Some_elem in E.
  unfold daily_mapping in Hd. rewrite Forall_forall in Hd.
  specialize (Hd _ E). simpl in Hd.
  destruct v; try contradiction. reflexivity.
Qed.

Lemma merge_record_ok (g gl w : pydict) (date : string) :
  daily_mapping g -> daily_mapping gl -> daily_mapping w ->
  merge_record g gl w date = Ok (merged_record g gl w date).
Proof.
  intros Hg Hgl Hw. unfold merge_record.
  rewrite !sub_record_ok by assumption. reflexivity.
Qed.

Lemma source_sub_record_absent (ns date : string) (daily : pydict) :
  date ∉ keys daily -> source_sub_record ns date daily = VDict [].
Proof.
  intros H. apply dict_lookup_None in H.
  unfold source_sub_record. rewrite H. reflexivity.
Qed.

Lemma elem_of_all_dates (g gl w : pydict) (d : string) :
  d ∈ all_dates g gl w <-> d ∈ keys g \/ d ∈ keys gl \/ d ∈ keys w.
Proof.
  unfold all_dates. rewrite !elem_of_union, !elem_of_list_to_set. tauto.
Qed.

Lemma elem_of_sorted (s : gset string) (d : string) : d ∈ sorted s <-> d ∈ s.
Proof.
  unfold sorted. rewrite merge_sort_Permutation. apply elem_of_elements.
Qed.

Lemma NoDup_sorted (s : gset string) : NoDup (sorted s).
Proof.
  unfold sorted. rewrite merge_sort_Permutation. apply NoDup_elements.
Qed.

Lemma ltb_of_le_ne (s t : string) :
  String.le s t -> s <> t -> (s <? t)%string = true.
Proof.
  unfold String.le, String.leb, String.ltb. intros Hle Hne.
  destruct (s ?= t)%string eqn:E; try reflexivity.
  - apply String.compare_eq_iff in E. contradiction.
  - simpl in Hle. contradiction.
Qed.

Lemma increasing_sorted (s : gset string) : increasing (sorted s).
Proof.
  unfold increasing.
  pose proof (NoDup_sorted s) as Hnd.
  assert (Hs : StronglySorted String.le (sorted s))
    by (apply StronglySorted_merge_sort; apply _).
  induction Hs as [|x l Hl IH Hx]; [constructor|].
  apply NoDup_cons in Hnd as [Hnotin Hnd].
  constructor; [apply IH; exact Hnd|].
  rewrite Forall_forall in Hx |- *. intros y Hy.
  apply ltb_of_le_ne; [apply Hx; exact Hy|].
  intros ->. apply Hnotin. exact Hy.
Qed.

(** C2.  For per-source mappings (every date mapped to a dictionary) the
    merger returns one record per date of a list [dates] that holds
    exactly the dates of the three key sets, is strictly increasing in the
    order of the characters and has no date twice.  Each record carries
    the date and all three namespaces; a namespace is the source's
    sub-record for that date, and the empty object when the source has
    no entry for the date. *)
Theorem merge_daily_data_union_sorted (g gl w : pydict) :
  daily_mapping g -> daily_mapping gl -> daily_mapping w ->
  exists dates : list string,
    merge_daily_data g gl w = Ok (map (merged_record g gl w) dates)
    /\ (forall d, d ∈ dates <-> d ∈ keys g \/ d ∈ keys gl \/ d ∈ keys w)
    /\ increasing dates
    /\ NoDup dates
    /\ (forall d e, dict_lookup d g = Some (VDict e) ->
          source_sub_record "garmin" d g = dict_get "garmin" (VDict []) e)
    /\ (forall d e, dict_lookup d w = Some (VDict e) ->
          source_sub_record "whoop" d w = dict_get "whoop" (VDict []) e)
    /\ (forall d e, dict_lookup d gl = Some (VDict e) ->
          source_sub_record "glucose" d gl = dict_get "glucose" (VDict []) e)
    /\ (forall d, d ∉ keys g -> source_sub_record "garmin" d g = VDict [])
    /\ (forall d, d ∉ keys w -> source_sub_record "whoop" d w = VDict [])
    /\ (forall d, d ∉ keys gl -> source_sub_record "glucose" d gl = VDict []).
Proof.
  intros Hg Hgl Hw. exists (sorted (all_dates g gl w)).
  repeat split.
  - unfold merge_daily_data. apply mapM_map.
    intros d _. apply merge_record_ok; assumption.
  - rewrite elem_of_sorted. apply elem_of_all_dates.
  - rewrite elem_of_sorted. apply elem_of_all_dates.
  - apply increasing_sorted.
  - apply NoDup_sorted.
  - intros d e E. unfold source_sub_record, dict_get. rewrite E. reflexivity.
  - intros d e E. unfold source_sub_record, dict_get. rewrite E. reflexivity.
  - intros d e E. unfold source_sub_record, dict_get. rewrite E. reflexivity.
  - intros d. apply source_sub_record_absent.
  - intros d. apply source_sub_record_absent.
  - intros d. apply source_sub_record_absent.
Qed.

Lemma merge_daily_data_union_sorted_witness :
  exists dates : list string,
    merge_daily_data scenario_garmin scenario_glucose []
    = Ok (map (merged_record scenario_garmin scenario_glucose []) dates)
    /\ (forall d, d ∈ dates <->
          d ∈ keys scenario_garmin \/ d ∈ keys scenario_glucose \/ d ∈ keys ([] : pydict))
    /\ increasing dates
    /\ NoDup dates
    /\ (forall d e, dict_lookup d scenario_garmin = Some (VDict e) ->
          source_sub_record "garmin" d scenario_garmin = dict_get "garmin" (VDict []) e)
    /\ (forall d e, dict_lookup d ([] : pydict) = Some (VDict e) ->
          source_sub_record "whoop" d [] = dict_get "whoop" (VDict []) e)
    /\ (forall d e, dict_lookup d scenario_glucose = Some (VDict e) ->
          source_sub_record "glucose" d scenario_glucose = dict_get "glucose" (VDict []) e)
    /\ (forall d, d ∉ keys scenario_garmin ->
          source_sub_record "garmin" d scenario_garmin = VDict [])
    /\ (forall d, d ∉ keys ([] : pydict) -> source_sub_record "whoop" d [] = VDict [])
    /\ (forall d, d ∉ keys scenario_glucose ->
          source_sub_record "glucose" d scenario_glucose = VDict []).
Proof.
  apply (merge_daily_data_union_sorted scenario_garmin scenario_glucose []);
    unfold daily_mapping; repeat constructor.
Defined.

Example merge_scenario :
  merge_daily_data scenario_garmin scenario_glucose []
  = Ok [VDict [("date", VStr "2024-01-01");
               ("garmin", VDict [("steps", VInt 4000)]);
               ("whoop", VDict []); ("glucose", VDict [])];
        VDict [("date", VStr "2024-01-02");
               ("garmin", VDict [("steps", VInt 5000)]);
               ("whoop", VDict []);
               ("glucose", VDict [("average", VInt 102)])];
        VDict [("date", VStr "2024-01-03");
               ("garmin", VDict [("steps", VInt 6000)]);
               ("whoop", VDict []);
               ("glucose", VDict [("average", VInt 103)])];
        VDict [("date", VStr "2024-01-04");
               ("garmin", VDict []); ("whoop", VDict []);
               ("glucose", VDict [("average", VInt 104)])]].
Proof. vm_compute. reflexivity. Qed.

(** ** The correlation coefficient *)

Lemma lookup_map_middle {A B : Type} (f : A -> B) (pre l : list A) (a : A) :
  map f (pre ++ a :: l) !! length pre = Some (f a).
Proof.
  rewrite map_app. simpl.
  rewrite lookup_app_r by (rewrite length_map; lia).
  rewrite length_map, Nat.sub_diag. reflexivity.
Qed.

Lemma py_nth_middle {A : Type} (f : A -> pyval) (pre l : list A) (a : A) :
  py_nth (map f (pre ++ a :: l)) (length pre) = Ok (f a).
Proof. unfold py_nth. rewrite lookup_map_middle. reflexivity. Qed.

Lemma indexed_term_is_centered_product (mean_x mean_y : pyval)
  (pre ps : pairs) (p : pyval * pyval) :
  (xi ← py_nth (map fst (pre ++ p :: ps)) (length pre); dx ← py_sub xi mean_x;
   yi ← py_nth (map snd (pre ++ p :: ps)) (length pre); dy ← py_sub yi mean_y;
   py_mul dx dy)
  = centered_product mean_x mean_y p.
Proof.
  unfold centered_product. rewrite (py_nth_middle fst). simpl.
  destruct (py_sub (fst p) mean_x) as [dx|e]; simpl; [|reflexivity].
  rewrite (py_nth_middle snd). reflexivity.
Qed.

(** The sum over the indices [range(n)] of the two lists is the sum over
    the pairs. *)
Lemma indexed_sum_is_sum_over_pairs (mean_x mean_y : pyval) (ps pre : pairs)
  (acc : pyval) :
  foldM (fun acc i =>
           t ← (xi ← py_nth (map fst (pre ++ ps)) i; dx ← py_sub xi mean_x;
                yi ← py_nth (map snd (pre ++ ps)) i; dy ← py_sub yi mean_y;
                py_mul dx dy);
           py_add acc t)
        acc (seq (length pre) (length ps))
  = foldM (fun acc p => t ← centered_product mean_x mean_y p; py_add acc t)
      acc ps.
Proof.
  revert pre acc. induction ps as [|p ps IH]; intros pre acc; [reflexivity|].
  simpl. rewrite indexed_term_is_centered_product.
  destruct (centered_product mean_x mean_y p) as [t|e]; simpl; [|reflexivity].
  destruct (py_add acc t) as [acc'|e]; simpl; [|reflexivity].
  specialize (IH (pre ++ [p]) acc').
  rewrite <- app_assoc, length_app in IH. simpl in IH.
  rewrite Nat.add_1_r in IH. exact IH.
Qed.

Lemma numerator_is_centered_products (mean_x mean_y : pyval) (ps : pairs) :
  py_sum_gen (fun i =>
                xi ← py_nth (map fst ps) i; dx ← py_sub xi mean_x;
                yi ← py_nth (map snd ps) i; dy ← py_sub yi mean_y;
                py_mul dx dy)
             (seq 0 (length ps))
  = centered_products mean_x mean_y ps.
Proof.
  unfold centered_products, py_sum_gen.
  exact (indexed_sum_is_sum_over_pairs mean_x mean_y ps [] (VInt 0)).
Qed.

(** The routine, phase by phase. *)
Lemma pearson_correlation_unfold {L : Libm} (ps : pairs) :
  pearson_correlation ps
  = if (length ps <? 3)%nat then Ok VNone
    else
      mean_x ← mean (map fst ps);
      mean_y ← mean (map snd ps);
      numerator ← centered_products mean_x mean_y ps;
      denom_x ← root_sum_squares mean_x (map fst ps);
      denom_y ← root_sum_squares mean_y (map snd ps);
      if py_is_zero denom_x || py_is_zero denom_y then Ok VNone
      else rounded_quotient numerator denom_x denom_y.
Proof.
  unfold pearson_correlation.
  destruct (length ps <? 3)%nat; [reflexivity|].
  unfold mean, root_sum_squares, rounded_quotient.
  unfold py_len. rewrite !length_map.
  destruct (py_sum (map fst ps)) as [sx|e]; simpl; [|reflexivity].
  destruct (py_div sx (VInt (Z.of_nat (length ps)))) as [mx|e]; simpl; [|reflexivity].
  destruct (py_sum (map snd ps)) as [sy|e]; simpl; [|reflexivity].
  destruct (py_div sy (VInt (Z.of_nat (length ps)))) as [my|e]; simpl; [|reflexivity].
  rewrite numerator_is_centered_products.
  destruct (centered_products mx my ps) as [num|e]; simpl; [|reflexivity].
  change (squared_deviation mx) with (fun a => d ← py_sub a mx; py_pow2 d).
  change (squared_deviation my) with (fun a => d ← py_sub a my; py_pow2 d).
  destruct (py_sum_gen (fun a => d ← py_sub a mx; py_pow2 d) (map fst ps))
    as [ssx|e]; simpl; [|reflexivity].
  destruct (py_pow_half ssx) as [dx|e]; simpl; [|reflexivity].
  destruct (py_sum_gen (fun a => d ← py_sub a my; py_pow2 d) (map snd ps))
    as [ssy|e]; simpl; [|reflexivity].
  destruct (py_pow_half ssy) as [dy|e]; simpl; reflexivity.
Qed.


(** *** The shape of the phases *)

Lemma bind_ext {A B : Type} (a : res A) (k k' : A -> res B) :
  (forall x, a = Ok x -> k x = k' x) -> (a ≫= k) = (a ≫= k').
Proof. intros H. destruct a as [x|e]; simpl; [apply H|]; reflexivity. Qed.

(** Two computations that can only fail in the same way may change
    places. *)
Lemma bind_swap (a b : res pyval) {C : Type} (k : pyval -> pyval -> res C) :
  float_or_overflow a -> float_or_overflow b ->
  (x ← a; y ← b; k x y) = (y ← b; x ← a; k x y).
Proof.
  destruct a as [x|ea], b as [y|eb]; simpl; try reflexivity.
  intros -> ->. reflexivity.
Qed.

Lemma py_mul_floats (a b : spec_float) :
  py_mul (VFloat a) (VFloat b) = Ok (VFloat (Float64.mul a b)).
Proof. reflexivity. Qed.

Lemma as_num_number (v : pyval) : number v -> exists n, as_num v = Some n.
Proof. destruct v; simpl; try contradiction; eauto. Qed.

Lemma to_float_overflow (n : pynum) (e : exn) :
  Num.to_float n = Raise e -> e = OverflowError.
Proof.
  destruct n as [z|f]; simpl; [|discriminate].
  unfold Num.float_of_int. destruct (Float64.is_inf _); [|discriminate].
  intros [= <-]. reflexivity.
Qed.

(** A number minus a float. *)
Lemma py_sub_float (a : pyval) (fm : spec_float) :
  number a -> float_or_overflow (py_sub a (VFloat fm)).
Proof.
  intros Ha. destruct (as_num_number a Ha) as [n Hn].
  unfold py_sub, num_op. rewrite Hn. simpl.
  destruct n as [z|f]; simpl; unfold Num.float_op; simpl.
  - destruct (Num.float_of_int z) as [fz|e] eqn:E; simpl; [eauto|].
    apply (to_float_overflow (PInt z)). exact E.
  - eauto.
Qed.

Lemma ret_bind {A B : Type} (a : A) (k : A -> res B) : (Ok a ≫= k) = k a.
Proof. reflexivity. Qed.

Lemma foldM_cons {A S : Type} (step : S -> A -> res S) (acc : S) (x : A)
  (l : list A) :
  foldM step acc (x :: l) = (acc' ← step acc x; foldM step acc' l).
Proof. reflexivity. Qed.

(** The sum of numbers is a number, unless an int is too large for the
    float it has to become. *)
Lemma sum_of_numbers (l : list pyval) (n : pynum) :
  Forall number l ->
  match foldM (fun acc a => t ← Ok a; py_add acc t) (VNum n) l with
  | Ok v => exists m, v = VNum m
  | Raise e => e = OverflowError
  end.
Proof.
  intros HF. revert n. induction HF as [|a l Ha HF IH]; intros n; [simpl; eauto|].
  destruct (as_num_number a Ha) as [na Hna].
  assert (Hadd : py_add (VNum n) a = (r ← Num.add n na; Ok (VNum r))).
  { destruct a; simpl in Ha; try contradiction; simpl in Hna;
      injection Hna as <-; reflexivity. }
  rewrite foldM_cons, ret_bind, Hadd.
  destruct (Num.add n na) as [r|e] eqn:E; simpl; [apply IH|].
  unfold Num.add in E.
  destruct n as [x|fx], na as [y|fy]; try discriminate E;
    unfold Num.float_op in E; simpl in E.
  - destruct (Num.float_of_int x) as [f|e'] eqn:E'; simpl in E; [discriminate|].
    injection E as <-. exact (to_float_overflow (PInt x) _ E').
  - destruct (Num.float_of_int y) as [f|e'] eqn:E'; simpl in E; [discriminate|].
    injection E as <-. exact (to_float_overflow (PInt y) _ E').
Qed.

Lemma mean_float_or_overflow (l : list pyval) :
  Forall number l -> l <> [] -> float_or_overflow (mean l).
Proof.
  intros HF Hne. unfold mean, py_sum, py_sum_gen.
  pose proof (sum_of_numbers l (PInt 0) HF) as Hs. fold (VInt 0) in Hs.
  destruct (foldM _ (VInt 0) l) as [s|e]; simpl; [|exact Hs].
  destruct Hs as [m ->].
  unfold py_div, num_op, py_len. simpl.
  assert (Hlen : (Z.of_nat (length l) =? 0) = false).
  { apply Z.eqb_neq. destruct l; [contradiction | simpl; lia]. }
  unfold Num.div. destruct m as [x|fx]; simpl.
  - rewrite Hlen. destruct (Float64.is_inf _); simpl; eauto.
  - rewrite Hlen.
    destruct (Num.float_of_int (Z.of_nat (length l))) as [f|e] eqn:E; simpl; [eauto|].
    exact (to_float_overflow (PInt _) _ E).
Qed.

Lemma round_aux_not_negative (m e : Z) (l : location) :
  not_negative (binary_round_aux Float64.prec Float64.emax false m e l).
Proof.
  unfold binary_round_aux.
  destruct (shr_fexp _ _ m e l) as [mrs' e'].
  destruct (shr_fexp _ _ _ e' loc_Exact) as [mrs'' e''].
  destruct (shr_m mrs''); simpl; try exact I.
  destruct (Z.leb _ _); exact I.
Qed.

Lemma add_not_negative (a b : spec_float) :
  not_negative a -> not_negative b -> not_negative (Float64.add a b).
Proof.
  unfold Float64.add, SFadd.
  destruct a as [sa|sa| |sa ma ea], b as [sb|sb| |sb mb eb]; simpl;
    try (intros; exact I); try (destruct sa, sb; intros; exact I);
    try (destruct sa; intros; assumption); try (destruct sb; intros; assumption).
  destruct sa, sb; try contradiction. intros _ _.
  unfold binary_normalize. simpl.
  unfold binary_round.
  destruct (shl_align _ _ _) as [mz ez]. apply round_aux_not_negative.
Qed.

(** [d ** 2] on a float: a float the library vouches for, one of the
    special values of Python, or an overflow. *)
Lemma py_pow2_float {L : Libm} (P : spec_float -> Prop) (fd : spec_float) :
  (forall x, P (libm_pow2 x)) ->
  P S754_nan -> P (S754_infinity false) -> P (S754_zero false) -> P Float64.one ->
  match py_pow2 (VFloat fd) with
  | Ok v => exists f, v = VFloat f /\ P f
  | Raise e => e = OverflowError
  end.
Proof.
  intros HL Hnan Hinf Hzero Hone. unfold py_pow2, num_fun. simpl.
  destruct fd as [s|s| |s m e]; simpl; eauto.
  destruct (Float64.is_one m e); simpl; [eauto|].
  destruct (Float64.is_inf (libm_pow2 (S754_finite false m e))); simpl; eauto.
Qed.

(** The sum of the squared deviations of numbers from a float mean, as
    far as it has come: the int 0 or a float with every property that
    the squares have and sums keep. *)
Lemma sum_of_squares_shape {L : Libm} (P : spec_float -> Prop) (fm : spec_float)
  (l : list pyval) (acc : pyval) :
  (forall x, P (libm_pow2 x)) ->
  P S754_nan -> P (S754_infinity false) -> P (S754_zero false) -> P Float64.one ->
  (forall a b, P a -> P b -> P (Float64.add a b)) ->
  Forall number l -> sum_so_far P acc ->
  match foldM (fun acc a => t ← (d ← py_sub a (VFloat fm); py_pow2 d); py_add acc t)
          acc l with
  | Ok v => sum_so_far P v
  | Raise e => e = OverflowError
  end.
Proof.
  intros HL Hnan Hinf Hzero Hone Hadd HF. revert acc.
  induction HF as [|a l Ha HF IH]; intros acc Hacc; [exact Hacc|].
  rewrite foldM_cons.
  pose proof (py_sub_float a fm Ha) as Hd.
  destruct (py_sub a (VFloat fm)) as [d|e]; simpl in *; [|exact Hd].
  destruct Hd as [fd ->].
  pose proof (py_pow2_float P fd HL Hnan Hinf Hzero Hone) as Ht.
  destruct (py_pow2 (VFloat fd)) as [t|e]; simpl in *; [|exact Ht].
  destruct Ht as (ft & -> & Hft).
  assert (Hsum : exists f, py_add acc (VFloat ft) = Ok (VFloat f) /\ P f).
  { destruct Hacc as [-> | (fa & -> & Hfa)].
    - exists (Float64.add (S754_zero false) ft). split; [reflexivity|].
      apply Hadd; assumption.
    - exists (Float64.add fa ft). split; [reflexivity|]. apply Hadd; assumption. }
  destruct Hsum as (f & -> & Hf). simpl.
  apply IH. right. eauto.
Qed.

Lemma sum_of_squares_not_negative {L : Libm} (fm : spec_float) (l : list pyval) :
  squares_not_negative L -> Forall number l ->
  match py_sum_gen (fun a => d ← py_sub a (VFloat fm); py_pow2 d) l with
  | Ok v => sum_so_far not_negative v
  | Raise e => e = OverflowError
  end.
Proof.
  intros HL HF. unfold py_sum_gen.
  apply (sum_of_squares_shape not_negative fm l (VInt 0) HL I I I I
           add_not_negative HF).
  left. reflexivity.
Qed.


(** [s ** 0.5] on a sum of squares. *)
Lemma py_pow_half_shape {L : Libm} (s : pyval) :
  sum_so_far not_negative s -> float_or_overflow (py_pow_half s).
Proof.
  intros [-> | (f & -> & Hf)]; [vm_compute; eauto|].
  unfold py_pow_half, num_fun, Num.pow_half. simpl.
  destruct f as [sf|sf| |sf m e]; simpl; eauto.
  destruct sf; [contradiction|].
  destruct (Float64.is_one m e); simpl; [eauto|].
  destruct (Float64.is_inf (libm_pow_half (S754_finite false m e))); simpl; eauto.
Qed.


Lemma sum_so_far_weaken (P Q : spec_float -> Prop) (v : pyval) :
  (forall f, P f -> Q f) -> sum_so_far P v -> sum_so_far Q v.
Proof. intros H [-> | (f & -> & Hf)]; [left | right]; eauto. Qed.

Lemma root_sum_squares_float_or_overflow {L : Libm} (fm : spec_float)
  (l : list pyval) :
  squares_not_negative L -> Forall number l ->
  float_or_overflow (root_sum_squares (VFloat fm) l).
Proof.
  intros HL HF. unfold root_sum_squares.
  pose proof (sum_of_squares_not_negative fm l HL HF) as Hs.
  destruct (py_sum_gen _ l) as [s|e]; simpl; [|exact Hs].
  apply py_pow_half_shape, Hs.
Qed.





Lemma observations_fst (ps : pairs) : observations ps -> Forall number (map fst ps).
Proof.
  intros H. apply Forall_forall. intros v Hv.
  apply list_elem_of_In, in_map_iff in Hv as (p & <- & Hp).
  unfold observations in H. rewrite Forall_forall in H.
  apply (H p). apply list_elem_of_In. exact Hp.
Qed.

Lemma observations_snd (ps : pairs) : observations ps -> Forall number (map snd ps).
Proof.
  intros H. apply Forall_forall. intros v Hv.
  apply list_elem_of_In, in_map_iff in Hv as (p & <- & Hp).
  unfold observations in H. rewrite Forall_forall in H.
  apply (H p). apply list_elem_of_In. exact Hp.
Qed.






(** Whatever the library, a step count of 10^400 is too large. *)
Remark overflow_pairs_raise {L : Libm} :
  pearson_correlation overflow_pairs = Raise OverflowError.
Proof. vm_compute. reflexivity. Qed.

(** Three days of steps and sleep: a coefficient; a constant step count:
    null, without a division; two pairs: null.  The values are those of
    the correctly rounded library. *)
Example pearson_correlation_steps_and_sleep :
  pearson_correlation (L := correctly_rounded) steps_and_sleep
  = Ok (VFloat (Float64.dec 999 3))
  /\ pearson_correlation (L := correctly_rounded) constant_steps = Ok VNone
  /\ pearson_correlation (L := correctly_rounded) [(VInt 1, VInt 2); (VInt 2, VInt 4)]
     = Ok VNone.
Proof. vm_compute. repeat split; reflexivity. Qed.








(** A step count of 5000 on each of three days: the mean is computed
    exactly and the coefficient is null. *)
Example constant_steps_null :
  Forall (fun p => fst p = VInt 5000) constant_steps
  /\ (m ← mean (map fst constant_steps); d ← py_sub (VInt 5000) m; Ok (py_is_zero d))
     = Ok true
  /\ pearson_correlation (L := correctly_rounded) constant_steps = Ok VNone.
Proof.
  split; [repeat constructor|]. split; vm_compute; reflexivity.
Qed.


(** *** Symmetry *)

Lemma float_mul_comm (a b : spec_float) : Float64.mul a b = Float64.mul b a.
Proof.
  unfold Float64.mul, SFmul.
  destruct a as [sa|sa| |sa ma ea], b as [sb|sb| |sb mb eb];
    try reflexivity; try (rewrite (xorb_comm sa sb); reflexivity).
  rewrite (xorb_comm sa sb), (Pos.mul_comm ma mb), (Z.add_comm ea eb).
  reflexivity.
Qed.

Lemma centered_product_swap (fx fy : spec_float) (p : pyval * pyval) :
  number (fst p) -> number (snd p) ->
  centered_product (VFloat fy) (VFloat fx) (swap p)
  = centered_product (VFloat fx) (VFloat fy) p.
Proof.
  intros Hx Hy. unfold centered_product, swap. simpl.
  pose proof (py_sub_float (fst p) fx Hx) as Fx.
  pose proof (py_sub_float (snd p) fy Hy) as Fy.
  destruct (py_sub (fst p) (VFloat fx)) as [dx|ex],
    (py_sub (snd p) (VFloat fy)) as [dy|ey]; simpl in *; subst; try reflexivity.
  destruct Fx as [a ->], Fy as [b ->].
  rewrite !py_mul_floats, float_mul_comm. reflexivity.
Qed.

Lemma foldM_map {A B S : Type} (step : S -> B -> res S) (g : A -> B)
  (l : list A) (acc : S) :
  foldM step acc (map g l) = foldM (fun acc x => step acc (g x)) acc l.
Proof.
  revert acc. induction l as [|x l IH]; intros acc; simpl; [reflexivity|].
  destruct (step acc (g x)); simpl; [apply IH | reflexivity].
Qed.

Lemma foldM_ext_Forall {A S : Type} (step step' : S -> A -> res S)
  (P : A -> Prop) (l : list A) (acc : S) :
  (forall acc x, P x -> step acc x = step' acc x) ->
  Forall P l -> foldM step acc l = foldM step' acc l.
Proof.
  intros Hext HF. revert acc. induction HF as [|x l Hx HF IH]; intros acc;
    simpl; [reflexivity|].
  rewrite (Hext acc x Hx). destruct (step' acc x); simpl; [apply IH | reflexivity].
Qed.

Lemma centered_products_swap (fx fy : spec_float) (ps : pairs) :
  observations ps ->
  centered_products (VFloat fy) (VFloat fx) (map swap ps)
  = centered_products (VFloat fx) (VFloat fy) ps.
Proof.
  intros Hobs. unfold centered_products, py_sum_gen. rewrite foldM_map.
  apply (foldM_ext_Forall _ _ _ _ _ (fun acc p Hp =>
    f_equal (fun t => t ≫= _) (centered_product_swap fx fy p (proj1 Hp) (proj2 Hp)))
    Hobs).
Qed.

Lemma map_fst_swap (ps : pairs) : map fst (map swap ps) = map snd ps.
Proof. rewrite map_map. reflexivity. Qed.

Lemma map_snd_swap (ps : pairs) : map snd (map swap ps) = map fst ps.
Proof. rewrite map_map. reflexivity. Qed.

(** C10.  On paired observations (numbers) the routine gives the same
    result, the same coefficient, the same null or the same exception,
    when the members of every pair change places; this with every
    library whose squares are not negative. *)
Theorem pearson_correlation_symmetric {L : Libm} (ps : pairs) :
  squares_not_negative L -> observations ps ->
  pearson_correlation (map swap ps) = pearson_correlation ps.
Proof.
  intros HL Hobs. rewrite !pearson_correlation_unfold.
  rewrite length_map, map_fst_swap, map_snd_swap.
  destruct (length ps <? 3)%nat eqn:Hn; [reflexivity|].
  assert (Hne : ps <> []) by (intros ->; discriminate Hn).
  pose proof (observations_fst ps Hobs) as Hx.
  pose proof (observations_snd ps Hobs) as Hy.
  pose proof (mean_float_or_overflow (map fst ps) Hx) as Mx.
  pose proof (mean_float_or_overflow (map snd ps) Hy) as My.
  assert (Hnx : map fst ps <> []) by (destruct ps; [contradiction | discriminate]).
  assert (Hny : map snd ps <> []) by (destruct ps; [contradiction | discriminate]).
  specialize (Mx Hnx). specialize (My Hny).
  rewrite (bind_swap (mean (map snd ps)) (mean (map fst ps))) by assumption.
  apply bind_ext. intros mx Emx. apply bind_ext. intros my Emy.
  rewrite Emx in Mx. rewrite Emy in My. simpl in Mx, My.
  destruct Mx as [fx ->], My as [fy ->].
  rewrite (centered_products_swap fx fy ps Hobs).
  apply bind_ext. intros num _.
  rewrite (bind_swap (root_sum_squares (VFloat fy) (map snd ps))
             (root_sum_squares (VFloat fx) (map fst ps)))
    by (apply root_sum_squares_float_or_overflow; assumption).
  pose proof (root_sum_squares_float_or_overflow fx (map fst ps) HL Hx) as Dx.
  pose proof (root_sum_squares_float_or_overflow fy (map snd ps) HL Hy) as Dy.
  apply bind_ext. intros dx Edx. apply bind_ext. intros dy Edy.
  rewrite Edx in Dx. rewrite Edy in Dy. simpl in Dx, Dy.
  destruct Dx as [a ->], Dy as [b ->].
  rewrite (orb_comm (py_is_zero (VFloat b))).
  unfold rounded_quotient. rewrite !py_mul_floats, (float_mul_comm b a).
  reflexivity.
Qed.

Lemma pearson_correlation_symmetric_witness :
  squares_not_negative correctly_rounded /\ observations steps_and_sleep
  /\ pearson_correlation (L := correctly_rounded) (map swap steps_and_sleep)
     = pearson_correlation (L := correctly_rounded) steps_and_sleep.
Proof.
  assert (H : observations steps_and_sleep)
    by (unfold observations, steps_and_sleep; repeat constructor).
  split; [exact (proj1 correctly_rounded_plausible)|]. split; [exact H|].
  apply (pearson_correlation_symmetric (L := correctly_rounded) steps_and_sleep
           (proj1 correctly_rounded_plausible) H).
Defined.

(** ** Pair collection *)

(** What one record adds to the seven lists. *)
Lemma collect_step_spec (acc acc' : pair_lists) (r : pyval) :
  collect_step acc r = Ok acc' ->
  steps_sleep acc'
    = steps_sleep acc ++ pairs_of (value_of "garmin" "steps") (value_of "whoop" "sleepHours") [r]
  /\ steps_glucose acc'
    = steps_glucose acc ++ pairs_of (value_of "garmin" "steps") (value_of "glucose" "average") [r]
  /\ sleep_glucose acc'
    = sleep_glucose acc ++ pairs_of (value_of "whoop" "sleepHours") (value_of "glucose" "average") [r]
  /\ exercise_glucose acc' = exercise_glucose acc ++ exercise_pairs [r]
  /\ sleep_recovery acc'
    = sleep_recovery acc ++ pairs_of (value_of "whoop" "sleepHours") (value_of "whoop" "recoveryScore") [r]
  /\ hrv_sleep acc'
    = hrv_sleep acc ++ pairs_of (value_of "whoop" "hrvMs") (value_of "whoop" "sleepHours") [r]
  /\ steps_recovery acc'
    = steps_recovery acc ++ pairs_of (value_of "garmin" "steps") (value_of "whoop" "recoveryScore") [r].
Proof.
  intros H. unfold collect_step in H.
  destruct (py_get r "garmin" (VDict [])) as [garmin|e] eqn:Hg; [|discriminate].
  destruct (py_get r "whoop" (VDict [])) as [whoop|e] eqn:Hw; [|discriminate].
  destruct (py_get r "glucose" (VDict [])) as [glucose|e] eqn:Hgl; [|discriminate].
  simpl in H.
  destruct (py_get garmin "steps" VNone) as [steps|e] eqn:H1; [|discriminate].
  destruct (py_get whoop "sleepHours" VNone) as [sleep|e] eqn:H2; [|discriminate].
  destruct (py_get whoop "recoveryScore" VNone) as [rec|e] eqn:H3; [|discriminate].
  destruct (py_get whoop "hrvMs" VNone) as [hrv|e] eqn:H4; [|discriminate].
  destruct (py_get glucose "average" VNone) as [avg|e] eqn:H5; [|discriminate].
  destruct (py_get garmin "totalActivityDuration" VNone) as [dur|e] eqn:H6;
    [|discriminate].
  simpl in H.
  destruct (append_minutes_if dur avg (exercise_glucose acc)) as [ex|e] eqn:H7;
    [|discriminate].
  simpl in H. injection H as <-. simpl.
  unfold pairs_of, exercise_pairs. simpl.
  rewrite (value_of_get _ _ _ _ _ Hg H1), (value_of_get _ _ _ _ _ Hw H2),
    (value_of_get _ _ _ _ _ Hw H3), (value_of_get _ _ _ _ _ Hw H4),
    (value_of_get _ _ _ _ _ Hgl H5), (value_of_get _ _ _ _ _ Hg H6).
  unfold append_if. unfold append_minutes_if in H7.
  repeat split;
    try (match goal with
         | |- context [truthy ?a && truthy ?b] =>
             destruct (truthy a && truthy b); simpl;
             rewrite ?app_nil_r; reflexivity
         end).
  destruct (truthy dur && truthy avg); simpl.
  - destruct (py_div dur (VInt 60)) as [m|e] eqn:Hm; [|discriminate].
    simpl in H7. injection H7 as <-. rewrite (minutes_div _ _ Hm). reflexivity.
  - injection H7 as <-. rewrite app_nil_r. reflexivity.
Qed.

Lemma pairs_of_cons (fx fy : pyval -> pyval) (r : pyval) (l : list pyval) :
  pairs_of fx fy (r :: l) = pairs_of fx fy [r] ++ pairs_of fx fy l.
Proof. unfold pairs_of. simpl. rewrite app_nil_r. reflexivity. Qed.

Lemma exercise_pairs_cons (r : pyval) (l : list pyval) :
  exercise_pairs (r :: l) = exercise_pairs [r] ++ exercise_pairs l.
Proof. unfold exercise_pairs. simpl. rewrite app_nil_r. reflexivity. Qed.

Lemma collect_fold_spec (l : list pyval) (acc acc' : pair_lists) :
  foldM collect_step acc l = Ok acc' ->
  steps_sleep acc'
    = steps_sleep acc ++ pairs_of (value_of "garmin" "steps") (value_of "whoop" "sleepHours") l
  /\ steps_glucose acc'
    = steps_glucose acc ++ pairs_of (value_of "garmin" "steps") (value_of "glucose" "average") l
  /\ sleep_glucose acc'
    = sleep_glucose acc ++ pairs_of (value_of "whoop" "sleepHours") (value_of "glucose" "average") l
  /\ exercise_glucose acc' = exercise_glucose acc ++ exercise_pairs l
  /\ sleep_recovery acc'
    = sleep_recovery acc ++ pairs_of (value_of "whoop" "sleepHours") (value_of "whoop" "recoveryScore") l
  /\ hrv_sleep acc'
    = hrv_sleep acc ++ pairs_of (value_of "whoop" "hrvMs") (value_of "whoop" "sleepHours") l
  /\ steps_recovery acc'
    = steps_recovery acc ++ pairs_of (value_of "garmin" "steps") (value_of "whoop" "recoveryScore") l.
Proof.
  revert acc. induction l as [|r l IH]; intros acc H; simpl in H.
  - injection H as <-. unfold pairs_of, exercise_pairs. simpl.
    rewrite !app_nil_r. repeat split; reflexivity.
  - destruct (collect_step acc r) as [acc1|e] eqn:Hstep; [|discriminate].
    simpl in H.
    destruct (collect_step_spec _ _ _ Hstep) as (S1 & S2 & S3 & S4 & S5 & S6 & S7).
    destruct (IH _ H) as (F1 & F2 & F3 & F4 & F5 & F6 & F7).
    rewrite F1, F2, F3, F4, F5, F6, F7, S1, S2, S3, S4, S5, S6, S7.
    rewrite (exercise_pairs_cons r l).
    rewrite !(pairs_of_cons _ _ r l), <- !app_assoc.
    repeat split; reflexivity.
Qed.

(** A value that compares equal to 0 is not true. *)
Lemma zero_is_not_true (v : pyval) : py_is_zero v = true -> truthy v = false.
Proof.
  unfold py_is_zero. destruct v as [|b|n|s|l|d]; simpl; try discriminate.
  - destruct b; [discriminate | reflexivity].
  - unfold Num.truthy, Num.eqb, Num.compare. destruct n as [z|f]; simpl.
    + unfold Num.dyadic_compare. simpl. rewrite Z.mul_1_r.
      destruct z; simpl; intros; try discriminate; reflexivity.
    + destruct f as [s|s| |s m e]; simpl; try reflexivity; try discriminate.
      * destruct s; discriminate.
      * unfold Num.dyadic_compare.
        assert (Hp : 0 < Zpos m * 2 ^ (e - Z.min e 0)).
        { apply Z.mul_pos_pos; [lia|]. apply Z.pow_pos_nonneg; lia. }
        set (k := 2 ^ (e - Z.min e 0)) in *.
        rewrite Z.mul_0_l.
        destruct s; simpl.
        -- destruct (- Zpos m * k ?= 0) eqn:E; intros; try discriminate.
           apply Z.compare_eq in E. rewrite Z.mul_opp_l in E. lia.
        -- destruct (Zpos m * k ?= 0) eqn:E; intros; try discriminate.
           apply Z.compare_eq in E. lia.
Qed.

Lemma correlation_entry_points {L : Libm} (ps : pairs) (description : string) (e : pyval) :
  correlation_entry ps description = Ok e ->
  py_index e "dataPoints" = Ok (py_len ps).
Proof.
  unfold correlation_entry.
  destruct (pearson_correlation ps) as [c|x]; [|discriminate].
  simpl. intros [= <-]. reflexivity.
Qed.

(** C5.  When the engine returns, each of the seven lists holds, in the
    order of the daily records, exactly the pairs of the records in which
    both values are present and true; a value that compares equal to 0
    is not true, so such a record gives no pair; the activity duration
    is divided by 60 before it is paired; and every [dataPoints] is the
    length of its list. *)
Theorem collected_pairs_are_the_truthy_pairs {L : Libm} (daily_data : list pyval)
  (acc : pair_lists) :
  collect_pairs daily_data = Ok acc ->
  steps_sleep acc
    = pairs_of (value_of "garmin" "steps") (value_of "whoop" "sleepHours") daily_data
  /\ steps_glucose acc
    = pairs_of (value_of "garmin" "steps") (value_of "glucose" "average") daily_data
  /\ sleep_glucose acc
    = pairs_of (value_of "whoop" "sleepHours") (value_of "glucose" "average") daily_data
  /\ exercise_glucose acc = exercise_pairs daily_data
  /\ sleep_recovery acc
    = pairs_of (value_of "whoop" "sleepHours") (value_of "whoop" "recoveryScore") daily_data
  /\ hrv_sleep acc
    = pairs_of (value_of "whoop" "hrvMs") (value_of "whoop" "sleepHours") daily_data
  /\ steps_recovery acc
    = pairs_of (value_of "garmin" "steps") (value_of "whoop" "recoveryScore") daily_data
  /\ (forall r, r ∈ daily_data ->
        truthy (value_of "garmin" "totalActivityDuration" r)
          && truthy (value_of "glucose" "average" r) = true ->
        py_div (value_of "garmin" "totalActivityDuration" r) (VInt 60)
        = Ok (minutes (value_of "garmin" "totalActivityDuration" r)))
  /\ (forall v, py_is_zero v = true -> truthy v = false)
  /\ (forall result, calculate_correlations daily_data = Ok result ->
        data_points result "steps_vs_sleep" = Ok (py_len (steps_sleep acc))
        /\ data_points result "steps_vs_glucose" = Ok (py_len (steps_glucose acc))
        /\ data_points result "sleep_vs_glucose" = Ok (py_len (sleep_glucose acc))
        /\ data_points result "exercise_vs_glucose" = Ok (py_len (exercise_glucose acc))
        /\ data_points result "sleep_vs_recovery" = Ok (py_len (sleep_recovery acc))
        /\ data_points result "hrv_vs_sleep" = Ok (py_len (hrv_sleep acc))
        /\ data_points result "steps_vs_recovery" = Ok (py_len (steps_recovery acc))).
Proof.
  intros H.
  destruct (collect_fold_spec daily_data no_pairs acc H)
    as (F1 & F2 & F3 & F4 & F5 & F6 & F7).
  simpl in F1, F2, F3, F4, F5, F6, F7.
  repeat (split; [assumption|]).
  split; [|split; [exact zero_is_not_true|]].
  - clear F1 F2 F3 F4 F5 F6 F7. unfold collect_pairs in H.
    revert H. generalize no_pairs. revert acc.
    induction daily_data as [|r l IH]; intros acc acc0 H r0 Hin Ht.
    + apply elem_of_nil in Hin. contradiction.
    + simpl in H.
      destruct (collect_step acc0 r) as [acc1|e] eqn:Hstep; [|discriminate].
      simpl in H. apply elem_of_cons in Hin as [->|Hin]; [|eapply IH; eassumption].
      clear IH H. unfold collect_step in Hstep.
      destruct (py_get r "garmin" (VDict [])) as [garmin|e] eqn:Hg; [|discriminate].
      destruct (py_get r "whoop" (VDict [])) as [whoop|e] eqn:Hw; [|discriminate].
      destruct (py_get r "glucose" (VDict [])) as [glucose|e] eqn:Hgl; [|discriminate].
      simpl in Hstep.
      destruct (py_get garmin "steps" VNone) as [steps|e]; [|discriminate].
      destruct (py_get whoop "sleepHours" VNone) as [sleep|e]; [|discriminate].
      destruct (py_get whoop "recoveryScore" VNone) as [rec|e]; [|discriminate].
      destruct (py_get whoop "hrvMs" VNone) as [hrv|e]; [|discriminate].
      destruct (py_get glucose "average" VNone) as [avg|e] eqn:H5; [|discriminate].
      destruct (py_get garmin "totalActivityDuration" VNone) as [dur|e] eqn:H6;
        [|discriminate].
      simpl in Hstep.
      rewrite (value_of_get _ _ _ _ _ Hg H6) in Ht |- *.
      rewrite (value_of_get _ _ _ _ _ Hgl H5) in Ht.
      unfold append_minutes_if in Hstep. rewrite Ht in Hstep.
      destruct (py_div dur (VInt 60)) as [m|e] eqn:Hm; [|discriminate].
      rewrite (minutes_div _ _ Hm). reflexivity.
  - intros result Hres. unfold calculate_correlations in Hres.
    fold (collect_pairs daily_data) in Hres. rewrite H in Hres. simpl in Hres.
    destruct (correlation_entry (steps_sleep acc) _) as [e1|x] eqn:E1; [|discriminate].
    destruct (correlation_entry (steps_glucose acc) _) as [e2|x] eqn:E2; [|discriminate].
    destruct (correlation_entry (sleep_glucose acc) _) as [e3|x] eqn:E3; [|discriminate].
    destruct (correlation_entry (exercise_glucose acc) _) as [e4|x] eqn:E4; [|discriminate].
    destruct (correlation_entry (sleep_recovery acc) _) as [e5|x] eqn:E5; [|discriminate].
    destruct (correlation_entry (hrv_sleep acc) _) as [e6|x] eqn:E6; [|discriminate].
    destruct (correlation_entry (steps_recovery acc) _) as [e7|x] eqn:E7; [|discriminate].
    simpl in Hres. injection Hres as <-.
    unfold data_points. simpl.
    rewrite (correlation_entry_points _ _ _ E1), (correlation_entry_points _ _ _ E2),
      (correlation_entry_points _ _ _ E3), (correlation_entry_points _ _ _ E4),
      (correlation_entry_points _ _ _ E5), (correlation_entry_points _ _ _ E6),
      (correlation_entry_points _ _ _ E7).
    repeat split; reflexivity.
Qed.

Lemma collected_pairs_are_the_truthy_pairs_witness :
  collect_pairs three_days = Ok three_days_pairs
  /\ steps_sleep three_days_pairs
     = pairs_of (value_of "garmin" "steps") (value_of "whoop" "sleepHours") three_days.
Proof.
  split; [vm_compute; reflexivity|].
  apply (collected_pairs_are_the_truthy_pairs (L := correctly_rounded) three_days
           three_days_pairs).
  vm_compute. reflexivity.
Defined.

(** On [three_days] only the first day has steps and sleep both true: the
    third day's step count of 0 gives no pair; its 1800 seconds of
    activity are paired as 30.0 minutes. *)
Example three_days_collected :
  steps_sleep three_days_pairs = [(VInt 8000, VFloat (Float64.dec 71 1))]
  /\ sleep_glucose three_days_pairs
     = [(VFloat (Float64.dec 71 1), VFloat (Float64.dec 1012 1));
        (VFloat (Float64.dec 80 1), VFloat (Float64.dec 990 1))]
  /\ exercise_glucose three_days_pairs
     = [(VFloat (Float64.dec 300 1), VFloat (Float64.dec 1012 1))].
Proof. vm_compute. repeat split; reflexivity. Qed.

(** ** Summary statistics *)

Lemma py_index_get (d sub : pyval) (ns : string) :
  py_index d ns = Ok sub -> py_get d ns (VDict []) = Ok sub.
Proof.
  destruct d as [| | | | |dd]; simpl; try discriminate.
  unfold dict_get. destruct (dict_lookup ns dd); [|discriminate].
  intros [= ->]. reflexivity.
Qed.

Lemma metric_step_spec (ns k : string) (acc acc' : list pyval) (d : pyval) :
  metric_step ns k acc d = Ok acc' ->
  acc' = acc ++ truthy_values ns k [d].
Proof.
  unfold metric_step. intros H.
  destruct (py_index d ns) as [sub|e] eqn:Hs; [|discriminate]. simpl in H.
  destruct (py_get sub k VNone) as [v|e] eqn:Hv; [|discriminate]. simpl in H.
  unfold truthy_values. simpl.
  rewrite (value_of_get ns k d sub v (py_index_get _ _ _ Hs) Hv).
  destruct (truthy v) eqn:T; injection H as <-.
  - rewrite filter_cons_True by (rewrite T; exact I). reflexivity.
  - rewrite filter_cons_False by (rewrite T; exact id). rewrite app_nil_r. reflexivity.
Qed.

(** The list a metric is summarised over holds exactly the values of the
    daily records that are present and true. *)
Lemma metric_values_spec (ns k : string) (daily_data l : list pyval) :
  metric_values ns k daily_data = Ok l -> l = truthy_values ns k daily_data.
Proof.
  unfold metric_values.
  assert (G : forall acc, foldM (metric_step ns k) acc daily_data = Ok l ->
                          l = acc ++ truthy_values ns k daily_data).
  { induction daily_data as [|d ds IH]; intros acc H; simpl in H.
    - injection H as <-. unfold truthy_values. simpl. rewrite app_nil_r. reflexivity.
    - destruct (metric_step ns k acc d) as [acc1|e] eqn:Hstep; [|discriminate].
      simpl in H. rewrite (IH _ H), (metric_step_spec _ _ _ _ _ Hstep).
      rewrite <- app_assoc. f_equal.
      unfold truthy_values. simpl.
      destruct (decide (Is_true (truthy (value_of ns k d)))) as [T|T].
      + rewrite !filter_cons_True by exact T. reflexivity.
      + rewrite !filter_cons_False by exact T. reflexivity. }
  intros H. apply (G [] H).
Qed.

Lemma if_any_bind_ret (l : list pyval) (e : res pyval) :
  if_any l (e ≫= Ok) = if_any l e.
Proof. destruct l; simpl; [reflexivity | apply bind_ret]. Qed.

Lemma stats_int_block (l : list pyval) (source : string) (b : pyval) :
  stats_int l source = Ok b ->
  stats_block b "average" "min" "max" l py_round_int Ok source.
Proof.
  unfold stats_int. intros H.
  destruct (if_any l (mean l ≫= py_round_int)) as [average|e] eqn:Ha; [|discriminate].
  destruct (if_any l (py_min l)) as [lo|e] eqn:Hl; [|discriminate].
  destruct (if_any l (py_max l)) as [hi|e] eqn:Hh; [|discriminate].
  simpl in H. injection H as <-.
  exists average, lo, hi. rewrite !if_any_bind_ret. auto.
Qed.

Lemma stats_raw_block (l : list pyval) (source : string) (b : pyval) :
  stats_raw l source = Ok b ->
  stats_block b "average" "min" "max" l (py_round 1) Ok source.
Proof.
  unfold stats_raw. intros H.
  destruct (if_any l (mean l ≫= py_round 1)) as [average|e] eqn:Ha; [|discriminate].
  destruct (if_any l (py_min l)) as [lo|e] eqn:Hl; [|discriminate].
  destruct (if_any l (py_max l)) as [hi|e] eqn:Hh; [|discriminate].
  simpl in H. injection H as <-.
  exists average, lo, hi. rewrite !if_any_bind_ret. auto.
Qed.

Lemma stats_rounded_block (kavg kmin kmax : string) (l : list pyval)
  (source : string) (b : pyval) :
  stats_rounded kavg kmin kmax l source = Ok b ->
  stats_block b kavg kmin kmax l (py_round 1) (py_round 1) source.
Proof.
  unfold stats_rounded. intros H.
  destruct (if_any l (mean l ≫= py_round 1)) as [average|e] eqn:Ha; [|discriminate].
  destruct (if_any l (py_min l ≫= py_round 1)) as [lo|e] eqn:Hl; [|discriminate].
  destruct (if_any l (py_max l ≫= py_round 1)) as [hi|e] eqn:Hh; [|discriminate].
  simpl in H. injection H as <-.
  exists average, lo, hi. auto.
Qed.

(** C6 (as amended).  When the aggregator returns, the block of each
    metric is computed over the values of the daily records in which the
    metric is present and true (a value of 0 is passed over like a
    missing one): [daysWithData] is their number; the mean is rounded to
    an integer for the steps and the resting heart rate and to one
    decimal for the others; minimum and maximum are reported as they are
    for steps, recovery score and resting heart rate and rounded to one
    decimal for sleep hours, HRV and strain; the glucose block reports
    the mean and the number of days only. *)
Theorem summary_over_truthy_values (daily_data biomarkers : list pyval)
  (summary : pyval) :
  generate_summary_stats daily_data biomarkers = Ok summary ->
  (exists b, py_index summary "steps" = Ok b
     /\ stats_block b "average" "min" "max"
          (truthy_values "garmin" "steps" daily_data) py_round_int Ok "Garmin")
  /\ (exists b, py_index summary "sleep" = Ok b
     /\ stats_block b "averageHours" "minHours" "maxHours"
          (truthy_values "whoop" "sleepHours" daily_data)
          (py_round 1) (py_round 1) "Whoop")
  /\ (exists b, py_index summary "hrv" = Ok b
     /\ stats_block b "averageMs" "minMs" "maxMs"
          (truthy_values "whoop" "hrvMs" daily_data)
          (py_round 1) (py_round 1) "Whoop")
  /\ (exists b, py_index summary "recovery" = Ok b
     /\ stats_block b "average" "min" "max"
          (truthy_values "whoop" "recoveryScore" daily_data) (py_round 1) Ok "Whoop")
  /\ (exists b, py_index summary "restingHeartRate" = Ok b
     /\ stats_block b "average" "min" "max"
          (truthy_values "whoop" "restingHeartRate" daily_data)
          py_round_int Ok "Whoop")
  /\ (exists b, py_index summary "strain" = Ok b
     /\ stats_block b "average" "min" "max"
          (truthy_values "whoop" "strain" daily_data)
          (py_round 1) (py_round 1) "Whoop")
  /\ (exists average,
        py_index summary "glucose"
        = Ok (VDict [("averageOfDailyAverages", average);
                     ("daysWithData",
                      py_len (truthy_values "glucose" "average" daily_data));
                     ("source", VStr "Lingo CGM")])
        /\ if_any (truthy_values "glucose" "average" daily_data)
             (mean (truthy_values "glucose" "average" daily_data) ≫= py_round 1)
           = Ok average).
Proof.
  intros H. unfold generate_summary_stats in H.
  destruct (foldM date_step [] daily_data) as [dates|e]; [|discriminate].
  destruct (metric_values "garmin" "steps" daily_data) as [steps|e] eqn:M1; [|discriminate].
  destruct (metric_values "whoop" "sleepHours" daily_data) as [sleep|e] eqn:M2; [|discriminate].
  destruct (metric_values "whoop" "hrvMs" daily_data) as [hrv|e] eqn:M3; [|discriminate].
  destruct (metric_values "whoop" "recoveryScore" daily_data) as [rec|e] eqn:M4; [|discriminate].
  destruct (metric_values "whoop" "restingHeartRate" daily_data) as [rhr|e] eqn:M5; [|discriminate].
  destruct (metric_values "whoop" "strain" daily_data) as [strain|e] eqn:M6; [|discriminate].
  destruct (metric_values "glucose" "average" daily_data) as [glu|e] eqn:M7; [|discriminate].
  apply metric_values_spec in M1, M2, M3, M4, M5, M6, M7. subst.
  simpl in H.
  destruct (if_any dates (py_min dates)) as [first|e]; [|discriminate].
  destruct (if_any dates (py_max dates)) as [last|e]; [|discriminate].
  simpl in H.
  destruct (stats_int (truthy_values "garmin" "steps" daily_data) "Garmin")
    as [b1|e] eqn:B1; [|discriminate].
  destruct (stats_rounded "averageHours" "minHours" "maxHours" _ "Whoop")
    as [b2|e] eqn:B2; [|discriminate].
  destruct (stats_rounded "averageMs" "minMs" "maxMs" _ "Whoop")
    as [b3|e] eqn:B3; [|discriminate].
  destruct (stats_raw _ "Whoop") as [b4|e] eqn:B4; [|discriminate].
  destruct (stats_int (truthy_values "whoop" "restingHeartRate" daily_data) "Whoop")
    as [b5|e] eqn:B5; [|discriminate].
  destruct (stats_rounded "average" "min" "max" _ "Whoop")
    as [b6|e] eqn:B6; [|discriminate].
  simpl in H.
  destruct (if_any (truthy_values "glucose" "average" daily_data) _)
    as [gm|e] eqn:B7; [|discriminate].
  destruct (biomarker_summary biomarkers) as [bs|e]; [|discriminate].
  simpl in H. injection H as <-. simpl.
  split; [|split; [|split; [|split; [|split; [|split]]]]].
  - exists b1. split; [reflexivity | apply stats_int_block; exact B1].
  - exists b2. split; [reflexivity | apply stats_rounded_block; exact B2].
  - exists b3. split; [reflexivity | apply stats_rounded_block; exact B3].
  - exists b4. split; [reflexivity | apply stats_raw_block; exact B4].
  - exists b5. split; [reflexivity | apply stats_int_block; exact B5].
  - exists b6. split; [reflexivity | apply stats_rounded_block; exact B6].
  - exists gm. split; reflexivity.
Qed.

Lemma summary_over_truthy_values_witness :
  generate_summary_stats three_days [] = Ok three_days_summary
  /\ exists b, py_index three_days_summary "steps" = Ok b
       /\ stats_block b "average" "min" "max"
            (truthy_values "garmin" "steps" three_days) py_round_int Ok "Garmin".
Proof.
  split; [vm_compute; reflexivity|].
  apply (summary_over_truthy_values three_days [] three_days_summary).
  vm_compute. reflexivity.
Defined.

(** C6 as stated fails on [three_days]: the steps are present on two days
    (8000 and 0) and [daysWithData] is 1, the day with 0 steps being
    passed over; and the glucose block has no minimum (nor maximum). *)
Lemma summary_passes_over_zero_counterexample :
  days_present "garmin" "steps" three_days = 2%nat
  /\ (exists n,
        (s ← generate_summary_stats three_days [];
         b ← py_index s "steps"; py_index b "daysWithData") = Ok (VInt n)
        /\ n <> Z.of_nat (days_present "garmin" "steps" three_days))
  /\ (s ← generate_summary_stats three_days [];
      b ← py_index s "glucose"; py_index b "min") = Raise KeyError.
Proof.
  split; [vm_compute; reflexivity|]. split.
  - exists 1. split; [vm_compute; reflexivity|]. vm_compute. discriminate.
  - vm_compute. reflexivity.
Qed.

(** ** Strain *)

Lemma py_gt_nums (a b : pyval) (na nb : pynum) :
  as_num a = Some na -> as_num b = Some nb ->
  py_gt a b = Ok (Num.ltb nb na).
Proof.
  destruct a, b; simpl; intros [= <-] [= <-]; reflexivity.
Qed.

Lemma py_gt_num_r (a x : pyval) (nx : pynum) (b : bool) :
  as_num x = Some nx -> py_gt a x = Ok b ->
  exists na, as_num a = Some na /\ b = Num.ltb nx na.
Proof.
  destruct a, x; simpl; intros [= <-] [= <-]; eauto.
Qed.

(** The fold of [max] from a number returns a maximum of what it saw. *)
Lemma foldM_max_spec (l : list pyval) (x m : pyval) (nx : pynum) :
  as_num x = Some nx ->
  foldM max_step x l = Ok m ->
  exists nm, as_num m = Some nm
    /\ (m = x \/ Num.ltb nx nm = true)
    /\ maximum_of m (x :: l).
Proof.
  revert x nx. induction l as [|a l IH]; intros x nx Hx H; simpl in H.
  - injection H as <-. exists nx. split; [exact Hx|]. split; [left; reflexivity|].
    split; [left|]. intros s Hs. apply list_elem_of_singleton in Hs as ->.
    rewrite (py_gt_nums x x nx nx Hx Hx), num_ltb_irrefl. reflexivity.
  - destruct (max_step x a) as [x'|e] eqn:Hstep; [|discriminate].
    simpl in H. unfold max_step in Hstep.
    destruct (py_gt a x) as [b|e] eqn:E; [|discriminate].
    simpl in Hstep. injection Hstep as <-.
    destruct (py_gt_num_r a x nx _ Hx E) as (na & Ha & Hb).
    destruct b.
    + (* the new item is greater *)
      destruct (IH a na Ha H) as (nm & Hm & Hrel & Hin & Hmax).
      assert (Hlt : Num.ltb nx nm = true).
      { destruct Hrel as [->|Hrel].
        - rewrite Ha in Hm. injection Hm as <-. symmetry. exact Hb.
        - eapply num_ltb_trans; [symmetry; exact Hb | exact Hrel]. }
      exists nm. split; [exact Hm|]. split; [right; exact Hlt|]. split.
      * apply elem_of_cons in Hin as [->|Hin]; [right; left | right; right; exact Hin].
      * intros s Hs. apply elem_of_cons in Hs as [->|Hs]; [|apply Hmax; exact Hs].
        rewrite (py_gt_nums x m nx nm Hx Hm).
        destruct (Num.ltb nm nx) eqn:Hc; [|reflexivity].
        pose proof (num_ltb_trans _ _ _ Hlt Hc) as Hbad.
        rewrite num_ltb_irrefl in Hbad. discriminate.
    + (* the maximum so far stays *)
      destruct (IH x nx Hx H) as (nm & Hm & Hrel & Hin & Hmax).
      exists nm. split; [exact Hm|]. split; [exact Hrel|]. split.
      * apply elem_of_cons in Hin as [->|Hin]; [left | right; right; exact Hin].
      * intros s Hs. apply elem_of_cons in Hs as [->|Hs].
        { apply Hmax. left. }
        apply elem_of_cons in Hs as [->|Hs]; [|apply Hmax; right; exact Hs].
        rewrite (py_gt_nums a m na nm Ha Hm).
        destruct Hrel as [->|Hrel].
        -- rewrite Hx in Hm. injection Hm as <-. rewrite <- Hb. reflexivity.
        -- destruct (Num.ltb nm na) eqn:Hc; [|reflexivity].
           rewrite (num_ltb_trans _ _ _ Hrel Hc) in Hb. discriminate.
Qed.

Lemma strain_so_far (date : string) (daily : pydict) :
  dict_get "strain" (VInt 0) (day_metrics "whoop" date (set_date "whoop" date daily))
  = default (VInt 0) (metric "whoop" date "strain" daily).
Proof.
  rewrite day_metrics_set_date by exact whoop_not_date.
  unfold dict_get, metric.
  destruct (dict_lookup "strain" (day_metrics "whoop" date daily)); reflexivity.
Qed.

(** The workout stream changes the strain of a date exactly by the events
    of that date. *)
Lemma workout_fold_strain (date : string) (ws : list pyval)
  (daily daily' : pydict) :
  foldM workout_step daily ws = Ok daily' ->
  strain_after (metric "whoop" date "strain" daily) (strains_on date ws)
  = Ok (metric "whoop" date "strain" daily').
Proof.
  revert daily. induction ws as [|r ws IH]; intros daily H; simpl in H.
  - injection H as <-. reflexivity.
  - destruct (workout_step daily r) as [d1|e] eqn:Hstep; [|discriminate].
    simpl in H. specialize (IH d1 H).
    unfold workout_step in Hstep.
    destruct (dated_score r) as [[[p score]|]|e] eqn:Hds; try discriminate;
      simpl in Hstep.
    + destruct p as [| | |k| |]; simpl in Hstep; try discriminate Hstep.
      rewrite strain_so_far in Hstep.
      destruct (event_strain score) as [s|e] eqn:Hs; [|discriminate].
      simpl in Hstep.
      destruct (max_step (default (VInt 0) (metric "whoop" k "strain" daily)) s)
        as [m|e] eqn:Hm; [|discriminate].
      simpl in Hstep. injection Hstep as <-.
      unfold strains_on. simpl. fold (strains_on date ws).
      unfold strain_on. rewrite Hds, Hs.
      destruct (String.eqb_spec k date) as [->|Hne]; simpl.
      * unfold strain_after. simpl. rewrite Hm. simpl.
        rewrite metric_set_metric, !String.eqb_refl in IH. exact IH.
      * rewrite metric_set_metric in IH.
        destruct (String.eqb_spec date k) as [->|_]; [contradiction|].
        simpl in IH. rewrite metric_set_date in IH by exact whoop_not_date.
        exact IH.
    + injection Hstep as <-. unfold strains_on. simpl.
      fold (strains_on date ws). unfold strain_on. rewrite Hds. exact IH.
Qed.

Lemma strain_after_Some (x : pyval) (events : list pyval) :
  strain_after (Some x) events = Some <$> foldM max_step x events.
Proof.
  revert x. induction events as [|s events IH]; intros x; [reflexivity|].
  unfold strain_after. simpl.
  destruct (max_step x s) as [m|e]; simpl; [|reflexivity].
  apply IH.
Qed.

Lemma strain_after_None (events : list pyval) (r : option pyval) :
  events <> [] ->
  strain_after None events = Ok r ->
  exists m, r = Some m /\ maximum_of m (VInt 0 :: events).
Proof.
  intros Hne H. destruct events as [|s events]; [contradiction|].
  assert (H' : Some <$> foldM max_step (VInt 0) (s :: events) = Ok r).
  { rewrite <- H. unfold strain_after. simpl.
    destruct (max_step (VInt 0) s) as [m|e]; simpl; [|reflexivity].
    symmetry. apply strain_after_Some. }
  destruct (foldM max_step (VInt 0) (s :: events)) as [m|e] eqn:Hm;
    [|discriminate].
  simpl in H'. injection H' as <-.
  destruct (foldM_max_spec (s :: events) (VInt 0) m (PInt 0) eq_refl Hm)
    as (nm & _ & _ & Hmax).
  eauto.
Qed.

Lemma metric_empty (d k : string) : metric "whoop" d k [] = None.
Proof. reflexivity. Qed.

Lemma strain_unset_before_workouts (whoop : pyval) (d1 d2 : pydict)
  (date : string) :
  fold_stream recovery_step whoop "recovery" [] = Ok d1 ->
  fold_stream sleep_step whoop "sleep" d1 = Ok d2 ->
  metric "whoop" date "strain" d2 = None.
Proof.
  intros H1 H2.
  rewrite (fold_stream_keeps sleep_step date "strain" whoop "sleep" d1 d2);
    [| intros; eapply sleep_step_keeps; [eassumption|discriminate..] | exact H2].
  rewrite (fold_stream_keeps recovery_step date "strain" whoop "recovery" [] d1);
    [| intros; eapply recovery_step_keeps; [eassumption|discriminate..] | exact H1].
  reflexivity.
Qed.

Lemma zero_if_neither_above_nor_below (n : pynum) :
  Num.geb n (PInt 0) = true -> Num.gtb n (PInt 0) = false ->
  Num.truthy n = false.
Proof.
  unfold Num.geb, Num.gtb, Num.leb, Num.ltb, Num.compare.
  destruct n as [z|f]; simpl.
  - unfold Num.dyadic_compare. simpl. rewrite Z.mul_1_r.
    destruct z; simpl; intros; try discriminate; reflexivity.
  - destruct f as [s|s| |s m e]; simpl; try reflexivity; try discriminate.
    + destruct s; discriminate.
    + unfold Num.dyadic_compare. simpl.
      assert (Hp : 0 < Zpos m * 2 ^ (e - Z.min 0 e)).
      { apply Z.mul_pos_pos; [lia|]. apply Z.pow_pos_nonneg; lia. }
      set (k := 2 ^ (e - Z.min 0 e)) in *.
      destruct s; simpl.
      * destruct (- Zpos m * k) eqn:E; simpl; intros; try discriminate.
        rewrite Z.mul_opp_l in E. lia.
      * destruct (Zpos m * k) eqn:E; simpl; intros; try discriminate.
Qed.

Lemma py_ge_num_l (s : pyval) (b : bool) :
  py_ge s (VInt 0) = Ok b ->
  exists n, as_num s = Some n /\ b = Num.geb n (PInt 0).
Proof. destruct s; simpl; intros [= <-]; eauto. Qed.

(** A value that an event offers is either true or the int 0. *)
Lemma strain_on_or_zero (date : string) (record s : pyval) :
  s ∈ strain_on date record -> truthy s = true \/ s = VInt 0.
Proof.
  unfold strain_on.
  destruct (dated_score record) as [[[p score]|]|e]; try (intros H; apply elem_of_nil in H; contradiction).
  destruct p; try (intros H; apply elem_of_nil in H; contradiction).
  destruct (String.eqb s0 date); [|intros H; apply elem_of_nil in H; contradiction].
  unfold event_strain.
  destruct (py_get score "strain" VNone) as [v|e]; simpl;
    [|intros H; apply elem_of_nil in H; contradiction].
  intros H. apply list_elem_of_singleton in H as ->.
  unfold py_or. destruct (truthy v) eqn:T; [left; exact T | right; reflexivity].
Qed.

Lemma strains_on_or_zero (date : string) (records : list pyval) (s : pyval) :
  s ∈ strains_on date records -> truthy s = true \/ s = VInt 0.
Proof.
  unfold strains_on. intros H. apply list_elem_of_In in H.
  apply in_flat_map in H as (r & _ & Hs).
  apply list_elem_of_In in Hs. eapply strain_on_or_zero. exact Hs.
Qed.

(** With no strain below zero the 0 the fold starts from adds nothing. *)
Lemma maximum_without_zero (m : pyval) (events : list pyval) :
  events <> [] ->
  (forall s, s ∈ events -> truthy s = true \/ s = VInt 0) ->
  (forall s, s ∈ events -> py_ge s (VInt 0) = Ok true) ->
  maximum_of m (VInt 0 :: events) -> maximum_of m events.
Proof.
  intros Hne Hor Hge [Hin Hmax]. split.
  - apply elem_of_cons in Hin as [->|Hin]; [|exact Hin].
    destruct events as [|s events]; [contradiction|].
    assert (Hs : s ∈ s :: events) by left.
    destruct (Hor s Hs) as [T | ->]; [|left].
    exfalso.
    destruct (py_ge_num_l s true (Hge s Hs)) as (n & Hn & Hgeb).
    assert (Hgt : py_gt s (VInt 0) = Ok false) by (apply Hmax; right; exact Hs).
    rewrite (py_gt_nums s (VInt 0) n (PInt 0) Hn eq_refl) in Hgt.
    injection Hgt as Hgt.
    pose proof (zero_if_neither_above_nor_below n (eq_sym Hgeb) Hgt) as Hz.
    destruct s; simpl in Hn; try discriminate.
    + injection Hn as <-. destruct b; [discriminate Hgt | discriminate T].
    + injection Hn as <-. simpl in T. rewrite Hz in T. discriminate.
  - intros s Hs. apply Hmax. right. exact Hs.
Qed.

(** C7 (as amended).  When the normaliser returns, the strain of every
    date that has scored workout records is a maximum of 0 and the
    per-event strains of that date (a missing, null or zero strain counts
    as 0): one of these values, with none of them greater, and never
    their sum.  When no per-event strain is below zero it is a maximum of
    the per-event strains themselves.  Two workouts of strain 5.0 and 8.3
    on one day give 8.3. *)
Theorem strain_is_maximum_with_zero (whoop : pyval) (workouts : list pyval)
  (daily : pydict) (date : string) :
  process_whoop_data whoop = Ok daily ->
  stream_records whoop "workout" = Ok workouts ->
  strains_on date workouts <> [] ->
  exists strain,
    metric "whoop" date "strain" daily = Some strain
    /\ maximum_of strain (VInt 0 :: strains_on date workouts)
    /\ ((forall s, s ∈ strains_on date workouts -> py_ge s (VInt 0) = Ok true) ->
          maximum_of strain (strains_on date workouts))
    /\ metric "whoop" "2024-01-02" "strain" <$> process_whoop_data two_workouts
         = Ok (Some (VFloat (Float64.dec 83 1))).
Proof.
  intros Hrun Hws Hne.
  unfold process_whoop_data in Hrun.
  destruct (fold_stream recovery_step whoop "recovery" []) as [d1|e] eqn:H1;
    [|discriminate].
  simpl in Hrun.
  destruct (fold_stream sleep_step whoop "sleep" d1) as [d2|e] eqn:H2;
    [|discriminate].
  simpl in Hrun. unfold fold_stream in Hrun. rewrite Hws in Hrun.
  simpl in Hrun.
  pose proof (workout_fold_strain date workouts d2 daily Hrun) as Hfold.
  rewrite (strain_unset_before_workouts whoop d1 d2 date H1 H2) in Hfold.
  destruct (strain_after_None _ _ Hne Hfold) as (m & Hm & Hmax).
  exists m. split; [exact Hm|]. split; [exact Hmax|]. split.
  - intros Hge. apply maximum_without_zero; try assumption.
    intros s. apply strains_on_or_zero.
  - vm_compute. reflexivity.
Qed.

Lemma strain_is_maximum_with_zero_witness :
  exists strain,
    metric "whoop" "2024-01-02" "strain" [("2024-01-02", VDict [("date", VStr "2024-01-02"); ("whoop", VDict [("strain", VFloat (Float64.dec 83 1))])])] = Some strain
    /\ maximum_of strain
         (VInt 0 :: strains_on "2024-01-02"
                      [workout_record "2024-01-02T07:00:00.000Z"
                         [("strain", VFloat (Float64.dec 50 1))];
                       workout_record "2024-01-02T18:00:00.000Z"
                         [("strain", VFloat (Float64.dec 83 1))]])
    /\ ((forall s,
           s ∈ strains_on "2024-01-02"
                 [workout_record "2024-01-02T07:00:00.000Z"
                    [("strain", VFloat (Float64.dec 50 1))];
                  workout_record "2024-01-02T18:00:00.000Z"
                    [("strain", VFloat (Float64.dec 83 1))]] ->
           py_ge s (VInt 0) = Ok true) ->
          maximum_of strain
            (strains_on "2024-01-02"
               [workout_record "2024-01-02T07:00:00.000Z"
                  [("strain", VFloat (Float64.dec 50 1))];
                workout_record "2024-01-02T18:00:00.000Z"
                  [("strain", VFloat (Float64.dec 83 1))]]))
    /\ metric "whoop" "2024-01-02" "strain" <$> process_whoop_data two_workouts
         = Ok (Some (VFloat (Float64.dec 83 1))).
Proof.
  apply (strain_is_maximum_with_zero two_workouts).
  - vm_compute. reflexivity.
  - reflexivity.
  - vm_compute. discriminate.
Defined.

(** C7 as stated fails when every strain of the day is below zero: the
    workouts of strain -1.5 and -2.0 leave the day with strain 0, which
    is none of the per-event strains. *)
Lemma strain_below_zero_counterexample :
  stream_records two_negative_workouts "workout" = Ok negative_workouts
  /\ strains_on "2024-01-02" negative_workouts
     = [VFloat (Float64.dec (-15) 1); VFloat (Float64.dec (-20) 1)]
  /\ metric "whoop" "2024-01-02" "strain" <$> process_whoop_data two_negative_workouts
     = Ok (Some (VInt 0))
  /\ ~ maximum_of (VInt 0) (strains_on "2024-01-02" negative_workouts).
Proof.
  split; [reflexivity|]. split; [vm_compute; reflexivity|].
  split; [vm_compute; reflexivity|].
  intros [Hin _]. vm_compute in Hin.
  apply elem_of_cons in Hin as [Hin|Hin]; [discriminate|].
  apply elem_of_cons in Hin as [Hin|Hin]; [discriminate|].
  apply elem_of_nil in Hin. exact Hin.
Qed.

(** ** Heart-rate variability *)

Lemma normalize_hrv_num (raw : pynum) :
  normalize_hrv (VNum raw)
  = if Num.gtb raw (PInt 1) then Ok (VNum (Num.round_digits 1 raw))
    else ms ← Num.mul raw (PInt 1000); Ok (VNum (Num.round_digits 1 ms)).
Proof.
  unfold normalize_hrv. simpl.
  destruct (Num.gtb raw (PInt 1)); simpl; [reflexivity|].
  unfold py_mul, num_op. simpl.
  destruct (Num.mul raw (PInt 1000)); reflexivity.
Qed.

Lemma times_1000_defined (raw : pynum) :
  exists ms, Num.mul raw (PInt 1000) = Ok ms.
Proof.
  destruct raw as [z|f]; simpl; eauto.
Qed.

(** C8.  The normalised HRV of a raw number is the raw value times 1000
    when the raw value is at most 1 and the raw value itself when it is
    greater than 1, rounded to one decimal in both cases; a recovery
    record that carries a raw HRV stores exactly that under [hrvMs] for
    its date; 45.2 stays 45.2 and 0.0452 becomes 45.2. *)
Theorem hrv_normalized_to_milliseconds (raw : pynum) :
  (Num.leb raw (PInt 1) = true ->
     exists ms, Num.mul raw (PInt 1000) = Ok ms
       /\ normalize_hrv (VNum raw) = Ok (VNum (Num.round_digits 1 ms)))
  /\ (Num.gtb raw (PInt 1) = true ->
        normalize_hrv (VNum raw) = Ok (VNum (Num.round_digits 1 raw)))
  /\ (forall (daily daily' : pydict) (record score : pyval) (date : string),
        dated_score record = Ok (Some (VStr date, score)) ->
        py_get score "hrv_rmssd_milli" VNone = Ok (VNum raw) ->
        recovery_step daily record = Ok daily' ->
        exists hrv, normalize_hrv (VNum raw) = Ok hrv
          /\ metric "whoop" date "hrvMs" daily' = Some hrv)
  /\ normalize_hrv (VFloat (Float64.dec 452 1)) = Ok (VFloat (Float64.dec 452 1))
  /\ normalize_hrv (VFloat (Float64.dec 452 4)) = Ok (VFloat (Float64.dec 452 1)).
Proof.
  split; [|split; [|split; [|split]]].
  - intros Hle. destruct (times_1000_defined raw) as [ms Hms].
    exists ms. split; [exact Hms|].
    rewrite normalize_hrv_num, (num_leb_not_gtb _ _ Hle), Hms. reflexivity.
  - intros Hgt. rewrite normalize_hrv_num, Hgt. reflexivity.
  - intros daily daily' record score date Hds Hraw Hstep.
    unfold recovery_step in Hstep. rewrite Hds in Hstep. simpl in Hstep.
    destruct (py_get score "recovery_score" VNone) as [rs|e]; [|discriminate].
    simpl in Hstep. rewrite Hraw in Hstep. simpl in Hstep.
    destruct (normalize_hrv (VNum raw)) as [hrv|e]; [|discriminate].
    simpl in Hstep. run Hstep. subst. exists hrv. split; [reflexivity|].
    rewrite metric_set_metric_ne by discriminate.
    rewrite metric_set_metric, !String.eqb_refl. reflexivity.
  - vm_compute. reflexivity.
  - vm_compute. reflexivity.
Qed.

(** Every [hrvMs] the normaliser returns is the normalised raw HRV of a
    recovery record of that date: the sleep and workout streams do not
    touch it. *)
Lemma hrv_comes_from_a_record (rs : list pyval) (daily daily' : pydict)
  (date : string) (hrv : pyval) :
  foldM recovery_step daily rs = Ok daily' ->
  metric "whoop" date "hrvMs" daily' = Some hrv ->
  metric "whoop" date "hrvMs" daily = Some hrv
  \/ exists record score raw,
       record ∈ rs
       /\ dated_score record = Ok (Some (VStr date, score))
       /\ py_get score "hrv_rmssd_milli" VNone = Ok raw
       /\ raw <> VNone
       /\ normalize_hrv raw = Ok hrv.
Proof.
  revert daily. induction rs as [|r rs IH]; intros daily Hfold Hm; simpl in Hfold.
  - injection Hfold as <-. left. exact Hm.
  - run Hfold. destruct (IH _ Hfold Hm) as [Hprev|(rec & sc & raw & Hin & H1 & H2 & H3 & H4)].
    + unfold recovery_step in E. run E; subst;
        rewrite ?metric_set_metric_ne in Hprev by discriminate;
        try (rewrite metric_set_date in Hprev by exact whoop_not_date);
        try (left; exact Hprev).
      rewrite metric_set_metric in Hprev.
      match goal with
      | Hk : as_key ?p = Ok ?k, Hs : dated_score r = Ok (Some (?p, ?sc)),
        Hr : py_get ?sc "hrv_rmssd_milli" VNone = Ok ?raw,
        Hn : is_none ?raw = false, Hh : normalize_hrv ?raw = Ok ?h |- _ =>
          destruct (String.eqb_spec date k) as [->|Hne]; simpl in Hprev;
          [ injection Hprev as <-; right;
            destruct p; try discriminate Hk; injection Hk as ->;
            exists r, sc, raw; split; [left|]; repeat split; try assumption;
            intros ->; discriminate Hn
          | rewrite metric_set_metric_ne in Hprev by discriminate;
            rewrite metric_set_date in Hprev by exact whoop_not_date;
            left; exact Hprev ]
      end.
    + right. exists rec, sc, raw. split; [right; exact Hin|]. auto.
Qed.

Example process_whoop_data_hrv_ms :
  metric "whoop" "2024-01-02" "hrvMs" <$> process_whoop_data recovery_ms
  = Ok (Some (VFloat (Float64.dec 452 1))).
Proof. vm_compute. reflexivity. Qed.

Example process_whoop_data_hrv_seconds :
  metric "whoop" "2024-01-02" "hrvMs" <$> process_whoop_data recovery_seconds
  = Ok (Some (VFloat (Float64.dec 452 1))).
Proof. vm_compute. reflexivity. Qed.

(** ** Optimal ranges of the biomarkers *)

Lemma bound_of_shape (p : string) (v : pyval) :
  bound_of p = Some v -> v = VNone \/ exists f, v = VFloat f.
Proof.
  unfold bound_of. destruct (String.eqb p "").
  - intros [= <-]. left. reflexivity.
  - destruct (float_of_string p); [|discriminate].
    intros [= <-]. right. eauto.
Qed.

Lemma parse_parts_shape (parts : list string) (lo hi : pyval) :
  parse_parts parts = (lo, hi) ->
  (lo = VNone \/ exists f, lo = VFloat f) /\ (hi = VNone \/ exists f, hi = VFloat f).
Proof.
  unfold parse_parts.
  destruct parts as [|p0 [|p1 [|p2 parts]]]; try (intros [= <- <-]; auto).
  destruct (bound_of p0) as [v0|] eqn:E0; [|intros [= <- <-]; auto].
  destruct (bound_of p1) as [v1|] eqn:E1; intros [= <- <-].
  - split; eapply bound_of_shape; eassumption.
  - split; [eapply bound_of_shape; eassumption | auto].
Qed.

(** Parsing the range text of a string returns, whatever the string. *)
Lemma parse_optimal_range_string (s : string) :
  parse_optimal_range (VStr s)
  = Ok (if negb (String.eqb s "") && has_char "-" s
        then parse_parts (segments s) else (VNone, VNone)).
Proof.
  unfold parse_optimal_range. simpl.
  destruct (negb (String.eqb s "")); simpl; [|reflexivity].
  destruct (has_char "-" s); reflexivity.
Qed.

Lemma has_char_empty (c : ascii) : has_char c "" = false.
Proof. reflexivity. Qed.

Lemma in_range_flag_null (lo hi value : pyval) :
  is_none lo = true \/ is_none hi = true ->
  in_range_flag lo hi value = Ok VNone.
Proof.
  unfold in_range_flag. intros [-> | ->]; simpl; [reflexivity|].
  rewrite andb_false_r. reflexivity.
Qed.

Lemma in_range_flag_bounds (flo fhi : spec_float) (v : pynum) :
  in_range_flag (VFloat flo) (VFloat fhi) (VNum v)
  = Ok (VBool (Num.leb (PFloat flo) v && Num.leb v (PFloat fhi))).
Proof.
  unfold in_range_flag, py_between. simpl.
  destruct (Num.leb (PFloat flo) v); reflexivity.
Qed.

Lemma measurement_step_results
  (category_name biomarker_name unit optimal_range lo hi : pyval)
  (results results' : list pyval) (measurement : pyval) :
  parse_optimal_range optimal_range = Ok (lo, hi) ->
  measurement_step category_name biomarker_name unit optimal_range lo hi
    results measurement = Ok results' ->
  Forall biomarker_result results -> Forall biomarker_result results'.
Proof.
  intros Hp H HF. unfold measurement_step in H.
  destruct (py_get measurement "value" VNone) as [value|e]; [|discriminate].
  simpl in H. destruct (is_none value).
  - injection H as <-. exact HF.
  - destruct (in_range_flag lo hi value) as [flag|e] eqn:Hflag; [|discriminate].
    simpl in H.
    destruct (py_get measurement "date" VNone) as [date|e]; [|discriminate].
    destruct (py_get measurement "provider" VNone) as [provider|e]; [|discriminate].
    simpl in H. injection H as <-.
    apply Forall_app. split; [exact HF|].
    constructor; [|constructor].
    exists date, category_name, biomarker_name, value, unit, optimal_range,
      lo, hi, flag, provider.
    auto.
Qed.

Lemma biomarker_step_results (category_name : pyval)
  (results results' : list pyval) (biomarker : pyval) :
  biomarker_step category_name results biomarker = Ok results' ->
  Forall biomarker_result results -> Forall biomarker_result results'.
Proof.
  intros H HF. unfold biomarker_step in H.
  destruct (py_get biomarker "name" VNone) as [name|e]; [|discriminate].
  destruct (py_get biomarker "unit" VNone) as [unit|e]; [|discriminate].
  destruct (py_get biomarker "optimalRange" (VStr "")) as [range|e]; [|discriminate].
  simpl in H.
  destruct (parse_optimal_range range) as [[lo hi]|e] eqn:Hp; [|discriminate].
  simpl in H.
  destruct (py_get biomarker "measurements" (VList [])) as [measured|e]; [|discriminate].
  simpl in H.
  destruct (if truthy measured then Ok measured
            else py_get biomarker "results" (VList [])) as [ms|e]; [|discriminate].
  simpl in H.
  destruct (py_iter ms) as [items|e]; [|discriminate].
  simpl in H.
  eapply foldM_invariant; [|exact H|exact HF].
  intros acc x acc' Hstep Hacc.
  eapply measurement_step_results; eassumption.
Qed.

Lemma category_step_results (results results' : list pyval) (category : pyval) :
  category_step results category = Ok results' ->
  Forall biomarker_result results -> Forall biomarker_result results'.
Proof.
  intros H HF. unfold category_step in H.
  destruct (py_get category "name" VNone) as [name|e]; [|discriminate].
  destruct (py_get category "biomarkers" (VList [])) as [bs|e]; [|discriminate].
  simpl in H.
  destruct (py_iter bs) as [items|e]; [|discriminate].
  simpl in H.
  eapply foldM_invariant; [|exact H|exact HF].
  intros acc x acc' Hstep Hacc.
  eapply biomarker_step_results; eassumption.
Qed.

(** Every entry of the flat list carries the bounds parsed from its own
    range text and the flag computed from them. *)
Lemma process_biomarkers_results (biomarkers : pyval) (results : list pyval) :
  process_biomarkers biomarkers = Ok results ->
  Forall biomarker_result results.
Proof.
  intros H. unfold process_biomarkers in H.
  destruct (py_get biomarkers "categories" (VList [])) as [cs|e]; [|discriminate].
  simpl in H.
  destruct (py_iter cs) as [items|e]; [|discriminate].
  simpl in H.
  eapply foldM_invariant; [|exact H|constructor].
  intros acc x acc' Hstep Hacc.
  eapply category_step_results; eassumption.
Qed.

(** C9 (as amended).  Parsing the range text of a string never raises.
    Both bounds are null when the text has no dash or does not have
    exactly two segments, when its first segment is not empty and is
    not a number, and when its first segment is empty and the second is
    not a number.  With two segments an empty segment gives a null bound
    on its side only: the other side keeps the bound of its number; and
    two numbers give the two bounds.  The flag of a measurement is null
    whenever a bound is null and is the membership test
    [lo <= value <= hi] when both are known.  In every entry the
    normaliser returns the bounds are those of the entry's range text
    and the flag is the one computed from them.  "70-99" gives 70.0 and
    99.0; "invalid" gives null bounds and a null flag. *)
Theorem optimal_range_bounds (s : string) :
  exists lo hi,
    parse_optimal_range (VStr s) = Ok (lo, hi)
    /\ (has_char "-" s = false -> lo = VNone /\ hi = VNone)
    /\ (length (segments s) <> 2%nat -> lo = VNone /\ hi = VNone)
    /\ (forall p0 p1, has_char "-" s = true -> segments s = [p0; p1] ->
          (p0 <> "" -> float_of_string p0 = None -> lo = VNone /\ hi = VNone)
          /\ (p0 = "" -> float_of_string p1 = None -> lo = VNone /\ hi = VNone)
          /\ (forall f1, p0 = "" -> float_of_string p1 = Some f1 ->
                lo = VNone /\ hi = VFloat f1)
          /\ (forall f0, float_of_string p0 = Some f0 -> p1 = "" ->
                lo = VFloat f0 /\ hi = VNone)
          /\ (forall f0 f1, float_of_string p0 = Some f0 ->
                float_of_string p1 = Some f1 ->
                lo = VFloat f0 /\ hi = VFloat f1))
    /\ (forall value, is_none lo = true \/ is_none hi = true ->
          in_range_flag lo hi value = Ok VNone)
    /\ (forall v : pynum, is_none lo = false -> is_none hi = false ->
          exists flo fhi, lo = VFloat flo /\ hi = VFloat fhi
            /\ in_range_flag lo hi (VNum v)
               = Ok (VBool (Num.leb (PFloat flo) v && Num.leb v (PFloat fhi))))
    /\ (forall biomarkers results,
          process_biomarkers biomarkers = Ok results ->
          Forall biomarker_result results)
    /\ process_biomarkers (one_biomarker "70-99" (VInt 85))
       = Ok [one_result "70-99" (VInt 85) (VFloat (Float64.dec 700 1))
               (VFloat (Float64.dec 990 1)) (VBool true)]
    /\ process_biomarkers (one_biomarker "invalid" (VInt 85))
       = Ok [one_result "invalid" (VInt 85) VNone VNone VNone].
Proof.
  rewrite parse_optimal_range_string.
  destruct (if negb (String.eqb s "") && has_char "-" s
            then parse_parts (segments s) else (VNone, VNone)) as [lo hi] eqn:E.
  exists lo, hi. split; [reflexivity|].
  split; [|split; [|split; [|split; [|split; [|split; [|split]]]]]].
  - intros Hd. rewrite Hd, andb_false_r in E. injection E as <- <-. auto.
  - intros Hlen. destruct (negb (String.eqb s "") && has_char "-" s);
      [|injection E as <- <-; auto].
    unfold parse_parts in E.
    destruct (segments s) as [|p0 [|p1 [|p2 parts]]]; try (injection E as <- <-; auto).
    simpl in Hlen. contradiction.
  - intros p0 p1 Hd Hseg.
    assert (Hs : negb (String.eqb s "") = true).
    { destruct (String.eqb_spec s "") as [->|_]; [discriminate Hd | reflexivity]. }
    assert (He : float_of_string "" = None) by reflexivity.
    rewrite Hs, Hd, Hseg in E. simpl in E. unfold bound_of in E.
    split; [|split; [|split; [|split]]].
    + intros Hne Hnone.
      destruct (String.eqb_spec p0 "") as [->|_]; [contradiction|].
      rewrite Hnone in E. injection E as <- <-. auto.
    + intros -> Hnone. simpl in E. rewrite Hnone in E.
      destruct (String.eqb p1 ""); injection E as <- <-; auto.
    + intros f1 -> H1. simpl in E.
      destruct (String.eqb p1 "") eqn:E1;
        [apply String.eqb_eq in E1; congruence|].
      rewrite H1 in E. injection E as <- <-. auto.
    + intros f0 H0 ->.
      destruct (String.eqb p0 "") eqn:E0;
        [apply String.eqb_eq in E0; congruence|].
      rewrite H0 in E. simpl in E. injection E as <- <-. auto.
    + intros f0 f1 H0 H1.
      destruct (String.eqb p0 "") eqn:E0;
        [apply String.eqb_eq in E0; congruence|].
      destruct (String.eqb p1 "") eqn:E1;
        [apply String.eqb_eq in E1; congruence|].
      rewrite H0, H1 in E. injection E as <- <-. auto.
  - intros value. apply in_range_flag_null.
  - intros v Hlo Hhi.
    assert (Hshape : (lo = VNone \/ exists f, lo = VFloat f)
                     /\ (hi = VNone \/ exists f, hi = VFloat f)).
    { destruct (negb (String.eqb s "") && has_char "-" s).
      - eapply parse_parts_shape. exact E.
      - injection E as <- <-. auto. }
    destruct Hshape as [[-> | [flo ->]] [-> | [fhi ->]]]; try discriminate.
    exists flo, fhi. split; [reflexivity|]. split; [reflexivity|].
    apply in_range_flag_bounds.
  - exact process_biomarkers_results.
  - vm_compute. reflexivity.
  - vm_compute. reflexivity.
Qed.

(** C9 as stated fails on a range with an empty segment: "70-" and
    "-99" are not ranges of two numbers, and each keeps the bound of
    the number it has. *)
Lemma optimal_range_half_open_counterexample :
  segments "70-" = ["70"; ""]
  /\ float_of_string "" = None
  /\ parse_optimal_range (VStr "70-") = Ok (VFloat (Float64.dec 700 1), VNone)
  /\ process_biomarkers (one_biomarker "70-" (VInt 85))
     = Ok [one_result "70-" (VInt 85) (VFloat (Float64.dec 700 1)) VNone VNone]
  /\ segments "-99" = [""; "99"]
  /\ parse_optimal_range (VStr "-99") = Ok (VNone, VFloat (Float64.dec 990 1)).
Proof. vm_compute. repeat split; reflexivity. Qed.

(** The white space that [float] strips is that of ASCII, after the
    white space beyond ASCII has been read as a blank: a no-break space
    (160) around a number is accepted, a file separator (28) is not. *)
Example float_of_string_white_space :
  float_of_string (String (ascii_of_nat 160) "70") = Some (Float64.dec 700 1)
  /\ float_of_string (String (ascii_of_nat 28) "70") = None
  /\ parse_optimal_range (VStr (String (ascii_of_nat 28) "70-99")) = Ok (VNone, VNone).
Proof. vm_compute. repeat split; reflexivity. Qed.

(** A second segment that is not a number stops the parse after the first
    bound has been set. *)
Remark optimal_range_after_first_bound :
  parse_optimal_range (VStr "70-abc") = Ok (VFloat (Float64.dec 700 1), VNone).
Proof. vm_compute. reflexivity. Qed.

(** * Further properties of the pipeline

    The normalisers of the activity tracker, the recovery tracker and the
    glucose sensor, the biomarker normaliser and the consolidation that
    calls them. *)

(** ** Dictionaries *)

Lemma keys_dict_set_present (k : string) (v : pyval) (d : pydict) :
  k ∈ keys d -> keys (dict_set k v d) = keys d.
Proof.
  unfold keys. induction d as [|[k' v'] d IH]; simpl; intros H.
  - inversion H.
  - destruct (String.eqb_spec k k') as [->|Hne]; simpl; [reflexivity|].
    f_equal. apply IH. apply elem_of_cons in H as [H|H]; [contradiction|exact H].
Qed.

Lemma keys_dict_set_absent (k : string) (v : pyval) (d : pydict) :
  k ∉ keys d -> keys (dict_set k v d) = keys d ++ [k].
Proof.
  unfold keys. induction d as [|[k' v'] d IH]; simpl; intros H; [reflexivity|].
  apply not_elem_of_cons in H as [Hne H].
  destruct (String.eqb_spec k k') as [->|_]; [contradiction|].
  simpl. f_equal. apply IH, H.
Qed.

Lemma elem_of_keys_dict_set (k x : string) (v : pyval) (d : pydict) :
  x ∈ keys (dict_set k v d) <-> x = k \/ x ∈ keys d.
Proof.
  destruct (decide (k ∈ keys d)) as [Hin|Hout].
  - rewrite keys_dict_set_present by exact Hin.
    split; [auto | intros [->|H]; assumption].
  - rewrite keys_dict_set_absent by exact Hout.
    rewrite elem_of_app, list_elem_of_singleton. tauto.
Qed.

Lemma NoDup_keys_dict_set (k : string) (v : pyval) (d : pydict) :
  NoDup (keys d) -> NoDup (keys (dict_set k v d)).
Proof.
  intros Hnd. destruct (decide (k ∈ keys d)) as [Hin|Hout].
  - rewrite keys_dict_set_present by exact Hin. exact Hnd.
  - rewrite keys_dict_set_absent by exact Hout.
    apply NoDup_app. split; [exact Hnd|]. split.
    + intros x Hx Hk. apply list_elem_of_singleton in Hk as ->. contradiction.
    + apply NoDup_singleton.
Qed.

Lemma Forall_dict_set (P : string * pyval -> Prop) (k : string) (v : pyval)
  (d : pydict) :
  Forall P d -> P (k, v) -> Forall P (dict_set k v d).
Proof.
  intros Hd Hk. induction d as [|[k' v'] d IH]; simpl.
  - constructor; [exact Hk | constructor].
  - inversion Hd as [|? ? Hhd Htl]; subst.
    destruct (String.eqb_spec k k') as [->|_].
    + constructor; assumption.
    + constructor; [exact Hhd | apply IH, Htl].
Qed.

Lemma dict_lookup_Forall (P : string * pyval -> Prop) (k : string) (v : pyval)
  (d : pydict) :
  Forall P d -> dict_lookup k d = Some v -> P (k, v).
Proof.
  intros Hd Hk. apply dict_lookup_Some_elem in Hk.
  rewrite Forall_forall in Hd. apply Hd, Hk.
Qed.

Lemma dict_lookup_present (k : string) (d : pydict) :
  k ∈ keys d -> exists v, dict_lookup k d = Some v.
Proof.
  intros Hin. destruct (dict_lookup k d) as [v|] eqn:E; [eauto|].
  apply dict_lookup_None in E. contradiction.
Qed.

Lemma dict_lookup_keys (k : string) (v : pyval) (d : pydict) :
  dict_lookup k d = Some v -> k ∈ keys d.
Proof.
  intros H. destruct (decide (k ∈ keys d)) as [Hin|Hout]; [exact Hin|].
  apply dict_lookup_None in Hout. congruence.
Qed.

(** ** Per-source mappings *)

Lemma normalised_empty (ns : string) : normalised ns [].
Proof. split; [apply NoDup_nil_2 | constructor]. Qed.

Lemma day_entry_present (ns date : string) (daily : pydict) :
  normalised ns daily -> date ∈ keys daily ->
  date <> ""
  /\ dict_lookup "date" (day_entry ns date daily) = Some (VStr date)
  /\ exists m, dict_lookup ns (day_entry ns date daily) = Some (VDict m).
Proof.
  intros [_ Hall] Hin. apply dict_lookup_present in Hin as [v Hv].
  pose proof (dict_lookup_Forall _ _ _ _ Hall Hv) as [Hne (e & m & He & Hd & Hm)].
  simpl in *. subst v. unfold day_entry. rewrite Hv. eauto.
Qed.

Lemma day_entry_namespace (ns date : string) (daily : pydict) :
  ns <> "date" -> normalised ns daily ->
  exists m, dict_lookup ns (day_entry ns date daily) = Some (VDict m).
Proof.
  intros Hns Hn. destruct (decide (date ∈ keys daily)) as [Hin|Hout].
  - apply (day_entry_present ns date daily Hn Hin).
  - apply dict_lookup_None in Hout. unfold day_entry. rewrite Hout.
    exists []. unfold fresh_day. simpl.
    destruct (String.eqb_spec ns "date") as [->|_]; [contradiction|].
    rewrite String.eqb_refl. reflexivity.
Qed.

Lemma normalised_set_date (ns date : string) (daily : pydict) :
  ns <> "date" -> date <> "" -> normalised ns daily ->
  normalised ns (set_date ns date daily).
Proof.
  intros Hns Hne Hn. pose proof Hn as [Hnd Hall]. unfold set_date. split.
  - apply NoDup_keys_dict_set, Hnd.
  - apply Forall_dict_set; [exact Hall|].
    destruct (day_entry_namespace ns date daily Hns Hn) as [m Hm].
    split; [exact Hne|]. eexists _, m. split; [reflexivity|]. simpl. split.
    + rewrite dict_lookup_set, String.eqb_refl. reflexivity.
    + rewrite dict_lookup_set.
      destruct (String.eqb_spec ns "date") as [->|_]; [contradiction|exact Hm].
Qed.

Lemma normalised_set_namespace (ns date : string) (m : pydict) (daily : pydict) :
  ns <> "date" -> normalised ns daily -> date ∈ keys daily ->
  normalised ns (set_namespace ns date (VDict m) daily).
Proof.
  intros Hns Hn Hin. pose proof Hn as [Hnd Hall]. unfold set_namespace. split.
  - apply NoDup_keys_dict_set, Hnd.
  - apply Forall_dict_set; [exact Hall|].
    destruct (day_entry_present ns date daily Hn Hin) as (Hne & Hd & _).
    split; [exact Hne|]. eexists _, m. split; [reflexivity|]. simpl. split.
    + rewrite dict_lookup_set.
      destruct (String.eqb_spec "date" ns) as [E|_]; [congruence|exact Hd].
    + rewrite dict_lookup_set, String.eqb_refl. reflexivity.
Qed.

(** A date's update keeps the mapping well formed, adds the date to its
    keys and leaves every other date as it was. *)
Lemma day_update_spec (ns date : string) (daily daily' : pydict) :
  ns <> "date" -> date <> "" -> normalised ns daily ->
  day_update ns date daily daily' ->
  normalised ns daily'
  /\ (forall d, d ∈ keys daily' <-> d = date \/ d ∈ keys daily)
  /\ (forall d, d <> date -> dict_lookup d daily' = dict_lookup d daily).
Proof.
  intros Hns Hne Hn Hup. induction Hup as [|daily' k v Hup IH|daily' m Hup IH].
  - split; [apply normalised_set_date; assumption|]. split.
    + intros d. unfold set_date. apply elem_of_keys_dict_set.
    + intros d Hd. unfold set_date. rewrite dict_lookup_set.
      destruct (String.eqb_spec d date) as [->|_]; [contradiction|reflexivity].
  - destruct IH as (Hn' & Hk & Hf).
    assert (Hin : date ∈ keys daily') by (apply Hk; left; reflexivity).
    split; [apply normalised_set_namespace; assumption|]. split.
    + intros d. unfold set_metric, set_namespace.
      rewrite elem_of_keys_dict_set, Hk. split; [intros [->|H]; auto | tauto].
    + intros d Hd. unfold set_metric, set_namespace. rewrite dict_lookup_set.
      destruct (String.eqb_spec d date) as [->|_]; [contradiction|apply Hf, Hd].
  - destruct IH as (Hn' & Hk & Hf).
    assert (Hin : date ∈ keys daily') by (apply Hk; left; reflexivity).
    split; [apply normalised_set_namespace; assumption|]. split.
    + intros d. unfold set_namespace.
      rewrite elem_of_keys_dict_set, Hk. split; [intros [->|H]; auto | tauto].
    + intros d Hd. unfold set_namespace. rewrite dict_lookup_set.
      destruct (String.eqb_spec d date) as [->|_]; [contradiction|apply Hf, Hd].
Qed.

(** A loop whose body updates the date of its record, or passes the
    record over: the dates of the mapping are those it had and those of
    the records. *)
Lemma foldM_day_updates {A : Type} (ns : string)
  (step : pydict -> A -> res pydict) (D : A -> string -> Prop) (Q : A -> Prop) :
  ns <> "date" ->
  (forall daily r daily', Q r -> step daily r = Ok daily' ->
     (daily' = daily /\ forall d, ~ D r d)
     \/ exists date, (forall d, D r d <-> d = date) /\ date <> ""
          /\ day_update ns date daily daily') ->
  forall rs daily daily',
    Forall Q rs -> normalised ns daily -> foldM step daily rs = Ok daily' ->
    normalised ns daily'
    /\ forall d, d ∈ keys daily' <-> d ∈ keys daily \/ exists r, r ∈ rs /\ D r d.
Proof.
  intros Hns Hstep. induction rs as [|r rs IH]; intros daily daily' HQ Hn H.
  - simpl in H. injection H as <-. split; [exact Hn|].
    intros d. split; [auto|]. intros [H|(r & Hr & _)]; [exact H|inversion Hr].
  - inversion HQ as [|? ? Hr Hrs]; subst.
    simpl in H. apply bind_Ok in H as (daily1 & H1 & H2).
    destruct (Hstep _ _ _ Hr H1) as [[-> Hno]|(date & HD & Hne & Hup)].
    + destruct (IH _ _ Hrs Hn H2) as [Hn' Hk]. split; [exact Hn'|].
      intros d. rewrite Hk. split.
      * intros [H|(r' & Hr' & HD')]; [auto|]. right. exists r'. split; [right|]; assumption.
      * intros [H|(r' & Hr' & HD')]; [auto|].
        apply elem_of_cons in Hr' as [->|Hr']; [destruct (Hno _ HD')|].
        right. eauto.
    + destruct (day_update_spec _ _ _ _ Hns Hne Hn Hup) as (Hn1 & Hk1 & _).
      destruct (IH _ _ Hrs Hn1 H2) as [Hn' Hk]. split; [exact Hn'|].
      intros d. rewrite Hk, Hk1. split.
      * intros [[->|H]|(r' & Hr' & HD')]; [|auto|].
        -- right. exists r. split; [left|apply HD]; reflexivity.
        -- right. exists r'. split; [right|]; assumption.
      * intros [H|(r' & Hr' & HD')]; [auto|].
        apply elem_of_cons in Hr' as [->|Hr'].
        -- left. left. apply HD, HD'.
        -- right. eauto.
Qed.

Lemma day_update_frame (ns date d : string) (daily daily' : pydict) :
  day_update ns date daily daily' -> d <> date ->
  dict_lookup d daily' = dict_lookup d daily.
Proof.
  intros Hup Hd. induction Hup as [|daily' k v Hup IH|daily' m Hup IH].
  - unfold set_date. rewrite dict_lookup_set.
    destruct (String.eqb_spec d date) as [->|_]; [contradiction|reflexivity].
  - unfold set_metric, set_namespace. rewrite dict_lookup_set.
    destruct (String.eqb_spec d date) as [->|_]; [contradiction|exact IH].
  - unfold set_namespace. rewrite dict_lookup_set.
    destruct (String.eqb_spec d date) as [->|_]; [contradiction|exact IH].
Qed.

Lemma metric_lookup_ext (ns d k : string) (daily1 daily2 : pydict) :
  dict_lookup d daily1 = dict_lookup d daily2 ->
  metric ns d k daily1 = metric ns d k daily2.
Proof.
  intros H. unfold metric, day_metrics, day_entry. rewrite H. reflexivity.
Qed.

Lemma foldM_app {A S : Type} (step : S -> A -> res S) (l1 l2 : list A) (acc : S) :
  foldM step acc (l1 ++ l2) = (acc' ← foldM step acc l1; foldM step acc' l2).
Proof.
  revert acc. induction l1 as [|x l1 IH]; intros acc; simpl; [reflexivity|].
  destruct (step acc x) as [acc'|e]; simpl; [apply IH|reflexivity].
Qed.

(** ** Groups *)

Lemma group_of_append (d d' : string) (v : pyval)
  (g : list (string * list pyval)) :
  group_of d (group_append d' v g)
  = if String.eqb d d' then group_of d g ++ [v] else group_of d g.
Proof.
  induction g as [|[d0 vs] g IH]; simpl.
  - destruct (String.eqb d d'); reflexivity.
  - destruct (String.eqb_spec d' d0) as [->|Hne]; simpl.
    + destruct (String.eqb d d0); reflexivity.
    + destruct (String.eqb_spec d d0) as [->|Hne'].
      * destruct (String.eqb_spec d0 d') as [E|_]; [congruence|reflexivity].
      * exact IH.
Qed.

Lemma keys_group_append (d x : string) (v : pyval)
  (g : list (string * list pyval)) :
  x ∈ map fst (group_append d v g) <-> x = d \/ x ∈ map fst g.
Proof.
  induction g as [|[d0 vs] g IH]; simpl.
  - rewrite list_elem_of_singleton. split; [auto|]. intros [H|H]; [exact H|inversion H].
  - destruct (String.eqb_spec d d0) as [->|Hne]; simpl.
    + rewrite elem_of_cons. tauto.
    + rewrite !elem_of_cons, IH. tauto.
Qed.

Lemma groups_ok_append (d : string) (v : pyval)
  (g : list (string * list pyval)) :
  groups_ok g -> groups_ok (group_append d v g).
Proof.
  intros [Hnd Hne]. split.
  - induction g as [|[d0 vs] g IH]; simpl.
    + apply NoDup_singleton.
    + simpl in Hnd. apply NoDup_cons in Hnd as [Hd0 Hnd].
      inversion Hne as [|? ? _ Htl]; subst.
      destruct (String.eqb_spec d d0) as [->|Hd]; simpl.
      * apply NoDup_cons. split; assumption.
      * apply NoDup_cons. split; [|apply IH; assumption].
        rewrite keys_group_append. intros [E|H]; [congruence|contradiction].
  - clear Hnd. induction g as [|[d0 vs] g IH]; simpl.
    + constructor; [discriminate|constructor].
    + inversion Hne as [|? ? Hhd Htl]; subst.
      destruct (String.eqb d d0).
      * constructor; [|exact Htl]. simpl. intros E.
        apply app_eq_nil in E as [_ E]. discriminate.
      * constructor; [exact Hhd|apply IH, Htl].
Qed.

Lemma group_of_elem (d : string) (vs : list pyval)
  (g : list (string * list pyval)) :
  groups_ok g -> ((d, vs) ∈ g <-> group_of d g = vs /\ vs <> []).
Proof.
  intros [Hnd Hne]. induction g as [|[d0 vs0] g IH]; simpl.
  - split; [intros H; inversion H|]. intros [<- H]. contradiction.
  - simpl in Hnd. apply NoDup_cons in Hnd as [Hd0 Hnd].
    inversion Hne as [|? ? Hhd Htl]; subst. simpl in Hhd.
    rewrite elem_of_cons. destruct (String.eqb_spec d d0) as [->|Hd].
    + split.
      * intros [E|H]; [injection E as <-; auto|].
        exfalso. apply Hd0. apply list_elem_of_fmap. exists (d0, vs). auto.
      * intros [-> _]. left. reflexivity.
    + rewrite <- (IH Hnd Htl). split; [|auto].
      intros [E|H]; [congruence|exact H].
Qed.

Lemma group_of_keys (d : string) (g : list (string * list pyval)) :
  groups_ok g -> (d ∈ map fst g <-> group_of d g <> []).
Proof.
  intros Hok. split.
  - intros H. apply list_elem_of_fmap in H as ([d0 vs] & -> & H). simpl.
    apply (group_of_elem _ _ _ Hok) in H as [-> H]. exact H.
  - intros H. apply list_elem_of_fmap. exists (d, group_of d g).
    split; [reflexivity|]. apply (group_of_elem _ _ _ Hok). auto.
Qed.

(** A loop that appends the value of each dated record to the group of
    its date builds the groups of the dates. *)
Lemma foldM_groups {A : Type}
  (step : list (string * list pyval) -> A -> res (list (string * list pyval)))
  (E : A -> option (string * pyval)) :
  (forall g r g', step g r = Ok g' ->
     g' = match E r with Some (d, v) => group_append d v g | None => g end) ->
  forall rs g g', foldM step g rs = Ok g' -> groups_ok g ->
    groups_ok g' /\ forall d, group_of d g' = group_of d g ++ grouped E d rs.
Proof.
  intros Hstep. induction rs as [|r rs IH]; intros g g' H Hok; simpl in H.
  - injection H as <-. split; [exact Hok|]. intros d. simpl. rewrite app_nil_r. reflexivity.
  - apply bind_Ok in H as (g1 & H1 & H2). apply Hstep in H1.
    assert (Hok1 : groups_ok g1).
    { subst g1. destruct (E r) as [[d v]|]; [apply groups_ok_append|]; exact Hok. }
    destruct (IH _ _ H2 Hok1) as [Hok' Hg]. split; [exact Hok'|].
    intros d. rewrite Hg. unfold grouped. simpl. rewrite app_assoc. f_equal.
    subst g1. unfold contribution. destruct (E r) as [[d' v]|].
    + rewrite group_of_append. destruct (String.eqb d d'); [reflexivity|].
      rewrite app_nil_r. reflexivity.
    + rewrite app_nil_r. reflexivity.
Qed.

(** ** Values and streams *)

Lemma truthy_string (s : string) : truthy (VStr s) = true <-> s <> "".
Proof.
  simpl. destruct (String.eqb_spec s "") as [->|H]; simpl.
  - split; [discriminate | contradiction].
  - split; [auto | reflexivity].
Qed.

Lemma as_key_Ok (v : pyval) (s : string) : as_key v = Ok s -> v = VStr s.
Proof. destruct v; simpl; intros H; try discriminate. congruence. Qed.

Lemma fold_stream_items (step : pydict -> pyval -> res pydict)
  (document : pyval) (stream : string) (daily daily' : pydict) :
  fold_stream step document stream daily = Ok daily' ->
  stream_records document stream = Ok (stream_items document stream)
  /\ foldM step daily (stream_items document stream) = Ok daily'.
Proof.
  unfold fold_stream, stream_items. intros H.
  apply bind_Ok in H as (items & Hi & H). rewrite Hi. auto.
Qed.

Ltac not_in_list :=
  let H := fresh in
  intros H; repeat (apply elem_of_cons in H as [H|H]; [discriminate H|]);
  inversion H.

Ltac each_member H :=
  repeat (apply elem_of_cons in H as [->|H]); [..|inversion H].

(** ** Loops that cannot return *)

Lemma foldM_never_Ok {A S : Type} (step : S -> A -> res S) (x : A) (l : list A) :
  x ∈ l -> (forall acc acc', step acc x <> Ok acc') ->
  forall acc acc', foldM step acc l <> Ok acc'.
Proof.
  intros Hin Hx. induction l as [|y l IH]; [inversion Hin|].
  intros acc acc' H. simpl in H. apply bind_Ok in H as (acc1 & H1 & H2).
  apply elem_of_cons in Hin as [->|Hin].
  - apply (Hx _ _ H1).
  - apply (IH Hin _ _ H2).
Qed.

Lemma never_Ok_raises {A : Type} (m : res A) :
  (forall a, m <> Ok a) -> exists e, m = Raise e.
Proof. destruct m as [a|e]; [intros H; destruct (H a eq_refl)|eauto]. Qed.

Lemma mapM_elem {A B : Type} (f : A -> res B) (l : list A) (ys : list B)
  (x : A) (y : B) :
  mapM f l = Ok ys -> x ∈ l -> f x = Ok y -> y ∈ ys /\ length ys = length l.
Proof.
  revert ys. induction l as [|a l IH]; intros ys H Hin Hx; [inversion Hin|].
  simpl in H. apply bind_Ok in H as (b & Hb & H).
  apply bind_Ok in H as (bs & Hbs & H). injection H as <-.
  assert (Hlen : length bs = length l).
  { clear -Hbs. revert bs Hbs. induction l as [|a' l IHl]; intros bs Hbs; simpl in Hbs.
    - injection Hbs as <-. reflexivity.
    - apply bind_Ok in Hbs as (b' & _ & Hbs).
      apply bind_Ok in Hbs as (bs' & Hbs' & Hbs). injection Hbs as <-.
      simpl. f_equal. apply IHl, Hbs'. }
  split; [|simpl; f_equal; exact Hlen].
  apply elem_of_cons in Hin as [->|Hin].
  - rewrite Hx in Hb. injection Hb as ->. left.
  - right. apply (IH _ Hbs Hin Hx).
Qed.

(** The last item that satisfies a test, with what comes before and after
    it. *)
Lemma last_filter_split {A : Type} (p : A -> bool) (l : list A) (r : A) :
  last (filter (fun x => Is_true (p x)) l) = Some r ->
  exists pre post, l = pre ++ r :: post /\ p r = true
    /\ Forall (fun x => ~ p x = true) post.
Proof.
  induction l as [|x l IH]; intros H; [discriminate|].
  rewrite filter_cons in H. destruct (filter _ l) as [|y l'] eqn:E.
  - destruct (decide (Is_true (p x))) as [Hx|Hx]; [|discriminate].
    cbv [last] in H. injection H as <-. exists [], l.
    split; [reflexivity|]. split; [apply Is_true_true, Hx|].
    apply Forall_forall. intros r' Hr' Hd.
    assert (Hin : r' ∈ filter (fun x => Is_true (p x)) l)
      by (apply list_elem_of_filter; split; [apply Is_true_true, Hd|exact Hr']).
    rewrite E in Hin. inversion Hin.
  - assert (Hl : last (y :: l') = Some r).
    { destruct (decide (Is_true (p x))); [|exact H].
      rewrite last_cons in H. destruct (last (y :: l')) eqn:E2; [exact H|].
      rewrite last_cons in E2. destruct (last l'); discriminate. }
    destruct (IH Hl) as (pre & post & -> & Hr & Hpost).
    exists (x :: pre), post. auto.
Qed.

(** ** The activity-tracker normaliser *)

Lemma garmin_not_date : "garmin" <> "date".
Proof. discriminate. Qed.

Lemma has_date_true (d : string) (r : pyval) :
  has_date d r = true <-> py_get r "date" VNone = Ok (VStr d) /\ d <> "".
Proof.
  unfold has_date. destruct (py_get r "date" VNone) as [[| | |s| |]|e];
    try (split; [discriminate | intros [E _]; discriminate]).
  destruct (String.eqb_spec s d) as [->|Hne]; simpl.
  - destruct (String.eqb_spec d "") as [->|Hd]; simpl.
    + split; [discriminate | intros [_ H]; contradiction].
    + split; [auto | reflexivity].
  - split; [discriminate | intros [E _]; congruence].
Qed.

Lemma copy_fields_update (date : string) (record : pyval) (ks : list string)
  (daily0 daily daily' : pydict) :
  day_update "garmin" date daily0 daily ->
  copy_fields date record ks daily = Ok daily' ->
  day_update "garmin" date daily0 daily'.
Proof.
  unfold copy_fields. revert daily.
  induction ks as [|k ks IH]; intros daily Hup H; simpl in H.
  - injection H as <-. exact Hup.
  - apply bind_Ok in H as (daily1 & H1 & H2).
    apply bind_Ok in H1 as (v & Hv & H1). injection H1 as <-.
    apply (IH _ (update_metric _ _ _ _ k v Hup) H2).
Qed.

(** The body of a loop over dated records updates the date of its record
    and passes a record without a date over. *)
Lemma garmin_step_update (fields : list string) (daily daily' : pydict)
  (r : pyval) :
  garmin_step fields daily r = Ok daily' ->
  (daily' = daily /\ forall d, ~ has_date d r = true)
  \/ exists date, (forall d, has_date d r = true <-> d = date) /\ date <> ""
       /\ day_update "garmin" date daily daily'.
Proof.
  unfold garmin_step. intros H. apply bind_Ok in H as (date & Hd & H).
  destruct (truthy date) eqn:Ht.
  - apply bind_Ok in H as (s & Hs & H). apply as_key_Ok in Hs as ->.
    apply truthy_string in Ht. right. exists s. split; [|split; [exact Ht|]].
    + intros d. rewrite has_date_true, Hd. split.
      * intros [E _]. congruence.
      * intros ->. auto.
    + apply (copy_fields_update _ _ _ _ _ _ (update_date _ _ _) H).
  - injection H as <-. left. split; [reflexivity|].
    intros d Hh. apply has_date_true in Hh as [E Hne]. rewrite Hd in E.
    injection E as ->. apply truthy_string in Hne. congruence.
Qed.

Lemma garmin_stream_dates (fields : list string) (garmin : pyval)
  (stream : string) (daily daily' : pydict) :
  normalised "garmin" daily ->
  fold_stream (garmin_step fields) garmin stream daily = Ok daily' ->
  normalised "garmin" daily'
  /\ forall d, d ∈ keys daily' <->
       d ∈ keys daily
       \/ exists r, r ∈ stream_items garmin stream /\ has_date d r = true.
Proof.
  intros Hn H. apply fold_stream_items in H as [_ H].
  apply (foldM_day_updates "garmin" (garmin_step fields)
           (fun r d => has_date d r = true) (fun _ => True) garmin_not_date)
    with (rs := stream_items garmin stream) (daily := daily); try assumption.
  - intros daily0 r daily1 _ Hs. apply (garmin_step_update _ _ _ _ Hs).
  - apply Forall_forall. auto.
Qed.

(** [activity_entry] is defined on every dictionary. *)
Lemma activity_entry_dict (a : pydict) :
  exists e, activity_entry (VDict a) = Ok (VDict e).
Proof. unfold activity_entry. simpl. eauto. Qed.

Lemma activity_step_appends (g g' : list (string * list pyval)) (a : pyval) :
  activity_step g a = Ok g' ->
  g' = match dated_activity a with
       | Some (d, v) => group_append d v g
       | None => g
       end.
Proof.
  unfold activity_step, dated_activity. intros H.
  apply bind_Ok in H as (date & Hd & H). rewrite Hd.
  destruct (truthy date) eqn:Ht.
  - apply bind_Ok in H as (s & Hs & H). apply as_key_Ok in Hs as ->.
    apply bind_Ok in H as (entry & He & H). injection H as <-.
    apply truthy_string in Ht.
    destruct (String.eqb_spec s "") as [->|_]; [contradiction|].
    unfold activity_dict. rewrite He. reflexivity.
  - injection H as <-. destruct date as [| | |s| |]; try reflexivity.
    destruct (String.eqb_spec s "") as [->|Hne]; [reflexivity|].
    apply truthy_string in Hne. congruence.
Qed.

(** The group of a date holds the dictionaries of its activities. *)
Lemma grouped_activities (d : string) (acts : list pyval) :
  grouped dated_activity d acts = map activity_dict (records_on d acts).
Proof.
  unfold grouped, records_on. induction acts as [|a acts IH]; [reflexivity|].
  simpl. rewrite IH. unfold filter at 2. simpl. fold (filter (fun r => Is_true (has_date d r)) acts).
  unfold contribution, dated_activity, has_date.
  destruct (py_get a "date" VNone) as [[| | |s| |]|e]; simpl; try reflexivity.
  - destruct (String.eqb_spec s "") as [->|Hne].
    + rewrite andb_false_r. reflexivity.
    + rewrite andb_true_r, (String.eqb_sym d s).
      destruct (String.eqb s d); reflexivity.
Qed.

Lemma totals_step_update (daily daily' : pydict) (date : string)
  (acts : list pyval) :
  totals_step daily (date, acts) = Ok daily' ->
  day_update "garmin" date daily daily'.
Proof.
  unfold totals_step. intros H.
  apply bind_Ok in H as (duration & _ & H).
  apply bind_Ok in H as (calories & _ & H). injection H as <-.
  repeat apply update_metric. apply update_date.
Qed.

Lemma records_on_nonempty (d : string) (rs : list pyval) :
  records_on d rs <> [] <-> exists r, r ∈ rs /\ has_date d r = true.
Proof.
  unfold records_on. split.
  - intros H. destruct (filter _ rs) as [|r l] eqn:E; [contradiction|].
    assert (Hr : r ∈ filter (fun r => Is_true (has_date d r)) rs)
      by (rewrite E; left).
    apply list_elem_of_filter in Hr as [Hp Hr].
    exists r. split; [exact Hr | apply Is_true_true, Hp].
  - intros (r & Hr & Hd) E.
    assert (Hin : r ∈ filter (fun r => Is_true (has_date d r)) rs)
      by (apply list_elem_of_filter; split; [apply Is_true_true, Hd | exact Hr]).
    rewrite E in Hin. inversion Hin.
Qed.

(** The groups of the activities: one group for every date an activity
    carries, holding the dictionaries of that date's activities. *)
Lemma activity_groups (acts : list pyval) (g : list (string * list pyval)) :
  foldM activity_step [] acts = Ok g ->
  groups_ok g
  /\ (forall d, group_of d g = map activity_dict (records_on d acts))
  /\ Forall (fun kv => fst kv <> "") g.
Proof.
  intros H.
  destruct (foldM_groups activity_step dated_activity
              (fun g a g' => activity_step_appends g g' a) acts [] g H)
    as [Hok Hg].
  { split; [apply NoDup_nil_2 | constructor]. }
  assert (Hg' : forall d, group_of d g = map activity_dict (records_on d acts)).
  { intros d. rewrite Hg. simpl. apply grouped_activities. }
  split; [exact Hok|]. split; [exact Hg'|].
  apply Forall_forall. intros [d vs] Hin. simpl.
  assert (Hd : d ∈ map fst g) by (apply list_elem_of_fmap; exists (d, vs); auto).
  apply (group_of_keys _ _ Hok) in Hd. rewrite Hg' in Hd.
  assert (Hr : records_on d acts <> []) by (intros E; rewrite E in Hd; contradiction).
  apply records_on_nonempty in Hr as (r & _ & Hr).
  apply has_date_true in Hr as [_ Hr]. exact Hr.
Qed.

Lemma garmin_totals_dates (g : list (string * list pyval))
  (daily daily' : pydict) :
  Forall (fun kv => fst kv <> "") g ->
  normalised "garmin" daily ->
  foldM totals_step daily g = Ok daily' ->
  normalised "garmin" daily'
  /\ forall d, d ∈ keys daily' <-> d ∈ keys daily \/ d ∈ map fst g.
Proof.
  intros Hg Hn H.
  destruct (foldM_day_updates "garmin" totals_step
              (fun kv d => d = fst kv) (fun kv => fst kv <> "") garmin_not_date)
    with (rs := g) (daily := daily) (daily' := daily') as [Hn' Hk]; try assumption.
  - intros daily0 [date acts] daily1 Hne Hs. right. exists date.
    split; [tauto|]. split; [exact Hne|]. apply (totals_step_update _ _ _ _ Hs).
  - split; [exact Hn'|]. intros d. rewrite Hk. apply or_iff_compat_l.
    rewrite list_elem_of_fmap. split.
    + intros (kv & Hin & ->). eauto.
    + intros (kv & -> & Hin). eauto.
Qed.

(** The steps of [garmin_daily], named. *)
Lemma garmin_daily_steps (garmin : pyval) (daily : pydict) :
  garmin_daily garmin = Ok daily ->
  exists d1 d2 g d3,
    fold_stream (garmin_step summary_fields) garmin "dailySummaries" [] = Ok d1
    /\ fold_stream (garmin_step sleep_fields) garmin "sleepData" d1 = Ok d2
    /\ stream_records garmin "activities" = Ok (stream_items garmin "activities")
    /\ foldM activity_step [] (stream_items garmin "activities") = Ok g
    /\ foldM totals_step d2 g = Ok d3
    /\ fold_stream (garmin_step weight_fields) garmin "weight" d3 = Ok daily.
Proof.
  unfold garmin_daily. intros H.
  apply bind_Ok in H as (d1 & H1 & H). apply bind_Ok in H as (d2 & H2 & H).
  apply bind_Ok in H as (acts & Ha & H). apply bind_Ok in H as (g & Hg & H).
  apply bind_Ok in H as (d3 & H3 & H).
  exists d1, d2, g, d3. unfold stream_items. rewrite Ha. auto 10.
Qed.

Lemma process_garmin_data_Ok (garmin : pyval) (daily : pydict) :
  process_garmin_data garmin = Some (Ok daily) -> garmin_daily garmin = Ok daily.
Proof.
  unfold process_garmin_data. destruct (dates_in_model garmin); congruence.
Qed.

(** X1.  On an activity-tracker document whose dates are texts (no
    record has a number other than zero, or true, as its date) the
    normaliser returns one entry for every date that a daily summary, a
    sleep record, an activity or a weight record of the document
    carries, and for no other date: a record without a date (or with an
    empty one) is passed over.  No date occurs twice, and every entry
    holds its own date under "date" and a dictionary under "garmin". *)
Theorem garmin_dates_are_the_dates_seen (garmin : pyval) (daily : pydict) :
  dates_in_model garmin = true ->
  process_garmin_data garmin = Some (Ok daily) ->
  normalised "garmin" daily
  /\ forall d, d ∈ keys daily <->
       exists stream r,
         stream ∈ garmin_streams /\ r ∈ stream_items garmin stream
         /\ has_date d r = true.
Proof.
  intros _ H. apply process_garmin_data_Ok, garmin_daily_steps in H
    as (d1 & d2 & g & d3 & H1 & H2 & _ & Hg & H3 & H4).
  destruct (garmin_stream_dates _ _ _ _ _ (normalised_empty _) H1) as [N1 K1].
  destruct (garmin_stream_dates _ _ _ _ _ N1 H2) as [N2 K2].
  destruct (activity_groups _ _ Hg) as (Hok & Hgr & Hne).
  destruct (garmin_totals_dates _ _ _ Hne N2 H3) as [N3 K3].
  destruct (garmin_stream_dates _ _ _ _ _ N3 H4) as [N4 K4].
  split; [exact N4|]. intros d.
  rewrite K4, K3, K2, K1, (group_of_keys _ _ Hok), Hgr.
  assert (Hact : map activity_dict (records_on d (stream_items garmin "activities")) <> []
                 <-> exists r, r ∈ stream_items garmin "activities" /\ has_date d r = true).
  { rewrite <- records_on_nonempty. destruct (records_on d _); simpl; split; congruence. }
  rewrite Hact. unfold garmin_streams. split.
  - intros [[[[H|(r & Hr & Hd)]|(r & Hr & Hd)]|(r & Hr & Hd)]|(r & Hr & Hd)].
    + inversion H.
    + exists "dailySummaries", r. split; [repeat constructor|auto].
    + exists "sleepData", r. split; [repeat constructor|auto].
    + exists "activities", r. split; [repeat constructor|auto].
    + exists "weight", r. split; [repeat constructor|auto].
  - intros (stream & r & Hs & Hr & Hd).
    repeat (apply elem_of_cons in Hs as [->|Hs]); [| | | |inversion Hs].
    + left. left. left. right. eauto.
    + left. left. right. eauto.
    + left. right. eauto.
    + right. eauto.
Qed.

Lemma garmin_dates_are_the_dates_seen_witness :
  normalised "garmin" sample_garmin_daily
  /\ forall d, d ∈ keys sample_garmin_daily <->
       exists stream r,
         stream ∈ garmin_streams /\ r ∈ stream_items sample_garmin stream
         /\ has_date d r = true.
Proof.
  apply (garmin_dates_are_the_dates_seen sample_garmin sample_garmin_daily).
  - vm_compute. reflexivity.
  - vm_compute. reflexivity.
Defined.

(** *** What the loops write *)

Lemma copy_fields_keeps (date : string) (record : pyval) (ks : list string)
  (daily daily' : pydict) (d k : string) :
  copy_fields date record ks daily = Ok daily' ->
  d <> date \/ k ∉ ks ->
  metric "garmin" d k daily' = metric "garmin" d k daily.
Proof.
  unfold copy_fields. revert daily.
  induction ks as [|k0 ks IH]; intros daily H Hk; simpl in H.
  - injection H as <-. reflexivity.
  - apply bind_Ok in H as (daily1 & H1 & H2).
    apply bind_Ok in H1 as (v & Hv & H1). injection H1 as <-.
    rewrite (IH _ H2).
    + rewrite metric_set_metric.
      destruct (String.eqb_spec d date) as [->|_]; [|reflexivity].
      destruct (String.eqb_spec k k0) as [->|_]; [|reflexivity].
      destruct Hk as [Hk|Hk]; [contradiction|]. exfalso. apply Hk. left.
    + destruct Hk as [Hk|Hk]; [left; exact Hk|right].
      intros Hin. apply Hk. right. exact Hin.
Qed.

Lemma copy_fields_sets (date : string) (record : pyval) (ks : list string)
  (daily daily' : pydict) (k : string) :
  copy_fields date record ks daily = Ok daily' -> k ∈ ks ->
  Some <$> py_get record k VNone = Ok (metric "garmin" date k daily').
Proof.
  revert daily. induction ks as [|k0 ks IH]; intros daily H Hk.
  - inversion Hk.
  - unfold copy_fields in H. simpl in H.
    apply bind_Ok in H as (daily1 & H1 & H2).
    apply bind_Ok in H1 as (v & Hv & H1). injection H1 as <-.
    destruct (decide (k ∈ ks)) as [Hin|Hout].
    + apply (IH _ H2 Hin).
    + apply elem_of_cons in Hk as [->|Hk]; [|contradiction].
      rewrite (copy_fields_keeps _ _ _ _ _ date k0 H2) by (right; exact Hout).
      rewrite metric_set_metric, !String.eqb_refl, Hv. reflexivity.
Qed.

Lemma garmin_step_keeps (fields : list string) (daily daily' : pydict)
  (r : pyval) (d k : string) :
  garmin_step fields daily r = Ok daily' ->
  ~ has_date d r = true \/ k ∉ fields ->
  metric "garmin" d k daily' = metric "garmin" d k daily.
Proof.
  unfold garmin_step. intros H Hk. apply bind_Ok in H as (date & Hd & H).
  destruct (truthy date) eqn:Ht.
  - apply bind_Ok in H as (s & Hs & H). apply as_key_Ok in Hs as ->.
    rewrite (copy_fields_keeps _ _ _ _ _ d k H).
    + apply metric_set_date, garmin_not_date.
    + destruct Hk as [Hk|Hk]; [left|right; exact Hk].
      intros ->. apply Hk. apply has_date_true. split; [exact Hd|].
      apply truthy_string, Ht.
  - injection H as <-. reflexivity.
Qed.

Lemma garmin_step_sets (fields : list string) (daily daily' : pydict)
  (r : pyval) (d k : string) :
  garmin_step fields daily r = Ok daily' ->
  has_date d r = true -> k ∈ fields ->
  Some <$> py_get r k VNone = Ok (metric "garmin" d k daily').
Proof.
  unfold garmin_step. intros H Hd Hk. apply has_date_true in Hd as [Hd Hne].
  apply bind_Ok in H as (date & Hd' & H). rewrite Hd in Hd'. injection Hd' as <-.
  apply truthy_string in Hne. rewrite Hne in H.
  apply bind_Ok in H as (s & Hs & H). apply as_key_Ok in Hs. injection Hs as <-.
  apply (copy_fields_sets _ _ _ _ _ _ H Hk).
Qed.

Lemma garmin_records_keep (fields : list string) (rs : list pyval)
  (daily daily' : pydict) (d k : string) :
  foldM (garmin_step fields) daily rs = Ok daily' ->
  Forall (fun r => ~ has_date d r = true) rs \/ k ∉ fields ->
  metric "garmin" d k daily' = metric "garmin" d k daily.
Proof.
  revert daily. induction rs as [|r rs IH]; intros daily H Hk; simpl in H.
  - injection H as <-. reflexivity.
  - apply bind_Ok in H as (daily1 & H1 & H2). rewrite (IH _ H2).
    + apply (garmin_step_keeps _ _ _ _ _ _ H1).
      destruct Hk as [Hk|Hk]; [left|right; exact Hk].
      inversion Hk; assumption.
    + destruct Hk as [Hk|Hk]; [left|right; exact Hk].
      inversion Hk; assumption.
Qed.

Lemma garmin_stream_keeps (fields : list string) (garmin : pyval)
  (stream : string) (daily daily' : pydict) (d k : string) :
  fold_stream (garmin_step fields) garmin stream daily = Ok daily' ->
  k ∉ fields ->
  metric "garmin" d k daily' = metric "garmin" d k daily.
Proof.
  intros H Hk. apply fold_stream_items in H as [_ H].
  apply (garmin_records_keep _ _ _ _ _ _ H). right. exact Hk.
Qed.

(** The last record of a date, with what comes before and after it. *)
Lemma last_records_on (d : string) (rs : list pyval) (r : pyval) :
  last (records_on d rs) = Some r ->
  exists pre post, rs = pre ++ r :: post /\ has_date d r = true
    /\ Forall (fun r' => ~ has_date d r' = true) post.
Proof. apply (last_filter_split (has_date d)). Qed.

Lemma garmin_records_last (fields : list string) (rs : list pyval)
  (daily daily' : pydict) (d k : string) (r : pyval) :
  foldM (garmin_step fields) daily rs = Ok daily' ->
  last (records_on d rs) = Some r -> k ∈ fields ->
  Some <$> py_get r k VNone = Ok (metric "garmin" d k daily').
Proof.
  intros H Hl Hk. apply last_records_on in Hl as (pre & post & -> & Hr & Hpost).
  rewrite foldM_app in H. apply bind_Ok in H as (daily1 & _ & H).
  simpl in H. apply bind_Ok in H as (daily2 & H2 & H3).
  rewrite (garmin_records_keep _ _ _ _ d k H3) by (left; exact Hpost).
  apply (garmin_step_sets _ _ _ _ _ _ H2 Hr Hk).
Qed.

Lemma totals_step_keeps (daily daily' : pydict) (day : string * list pyval)
  (d k : string) :
  totals_step daily day = Ok daily' ->
  d <> fst day \/ k ∉ activity_totals ->
  metric "garmin" d k daily' = metric "garmin" d k daily.
Proof.
  destruct day as [date acts]. unfold totals_step. intros H Hk.
  apply bind_Ok in H as (duration & _ & H).
  apply bind_Ok in H as (calories & _ & H). injection H as <-.
  rewrite !metric_set_metric, metric_set_date by exact garmin_not_date.
  destruct (String.eqb_spec d date) as [->|_]; [|reflexivity]. simpl.
  destruct Hk as [Hk|Hk]; [contradiction|]. unfold activity_totals in Hk.
  repeat (apply not_elem_of_cons in Hk as [? Hk]).
  repeat (match goal with
          | |- context [String.eqb k ?s] =>
              destruct (String.eqb_spec k s); [contradiction|]
          end).
  reflexivity.
Qed.

Lemma totals_keep (g : list (string * list pyval)) (daily daily' : pydict)
  (d k : string) :
  foldM totals_step daily g = Ok daily' ->
  d ∉ map fst g \/ k ∉ activity_totals ->
  metric "garmin" d k daily' = metric "garmin" d k daily.
Proof.
  revert daily. induction g as [|day g IH]; intros daily H Hk; simpl in H.
  - injection H as <-. reflexivity.
  - apply bind_Ok in H as (daily1 & H1 & H2). rewrite (IH _ H2).
    + apply (totals_step_keeps _ _ _ _ _ H1).
      destruct Hk as [Hk|Hk]; [left|right; exact Hk].
      intros ->. apply Hk. left.
    + destruct Hk as [Hk|Hk]; [left|right; exact Hk].
      intros Hin. apply Hk. right. exact Hin.
Qed.

Lemma totals_step_sets (daily daily' : pydict) (date : string)
  (acts : list pyval) :
  totals_step daily (date, acts) = Ok daily' ->
  metric "garmin" date "activities" daily' = Some (VList acts)
  /\ metric "garmin" date "activityCount" daily' = Some (py_len acts)
  /\ Some <$> py_sum_gen (amount "duration") acts
     = Ok (metric "garmin" date "totalActivityDuration" daily')
  /\ Some <$> py_sum_gen (amount "calories") acts
     = Ok (metric "garmin" date "totalActivityCalories" daily').
Proof.
  unfold totals_step. intros H.
  apply bind_Ok in H as (duration & Hd & H).
  apply bind_Ok in H as (calories & Hc & H). injection H as <-.
  rewrite Hd, Hc, !metric_set_metric, !String.eqb_refl. simpl. auto.
Qed.

Lemma totals_of_group (g : list (string * list pyval)) (daily daily' : pydict)
  (d : string) (acts : list pyval) :
  NoDup (map fst g) -> (d, acts) ∈ g ->
  foldM totals_step daily g = Ok daily' ->
  metric "garmin" d "activities" daily' = Some (VList acts)
  /\ metric "garmin" d "activityCount" daily' = Some (py_len acts)
  /\ Some <$> py_sum_gen (amount "duration") acts
     = Ok (metric "garmin" d "totalActivityDuration" daily')
  /\ Some <$> py_sum_gen (amount "calories") acts
     = Ok (metric "garmin" d "totalActivityCalories" daily').
Proof.
  intros Hnd Hin H. apply list_elem_of_split in Hin as (pre & post & ->).
  rewrite foldM_app in H. apply bind_Ok in H as (daily1 & _ & H).
  simpl in H. apply bind_Ok in H as (daily2 & H2 & H3).
  assert (Hpost : d ∉ map fst post).
  { rewrite map_app in Hnd. apply NoDup_app in Hnd as (_ & _ & Hnd).
    simpl in Hnd. apply NoDup_cons in Hnd as [Hd _]. exact Hd. }
  rewrite !(totals_keep _ _ _ d _ H3) by (left; exact Hpost).
  apply (totals_step_sets _ _ _ _ H2).
Qed.

Lemma amount_activity_dict (k d : string) (a : pyval) :
  has_date d a = true -> k = "duration" \/ k = "calories" ->
  amount k (activity_dict a) = amount k a.
Proof.
  intros Hd Hk. apply has_date_true in Hd as [Hd _].
  destruct a as [| | | | |a]; try discriminate.
  unfold activity_dict, activity_entry, amount. simpl. unfold dict_get.
  destruct Hk as [->| ->]; simpl.
  - destruct (dict_lookup "duration" a); reflexivity.
  - destruct (dict_lookup "calories" a); reflexivity.
Qed.

Lemma sum_over_activity_dicts (k d : string) (acts : list pyval) :
  k = "duration" \/ k = "calories" ->
  py_sum_gen (amount k) (map activity_dict (records_on d acts))
  = py_sum_gen (amount k) (records_on d acts).
Proof.
  intros Hk. unfold py_sum_gen. rewrite foldM_map.
  apply foldM_ext_Forall with (P := fun a => has_date d a = true).
  - intros acc a Ha. rewrite (amount_activity_dict _ _ _ Ha Hk). reflexivity.
  - apply Forall_forall. intros a Ha. unfold records_on in Ha.
    apply list_elem_of_filter in Ha as [Ha _]. apply Is_true_true, Ha.
Qed.

(** X2.  For every date that an activity of the document carries, the
    normaliser stores the dictionaries of that date's activities in
    document order, their number as activityCount, and as
    totalActivityDuration and totalActivityCalories the sums of their
    durations and calories, a missing, null or zero amount counting as 0.
    Activities without a date do not count. *)
Theorem activity_totals_of_a_date (garmin : pyval) (daily : pydict) (d : string) :
  process_garmin_data garmin = Some (Ok daily) ->
  records_on d (stream_items garmin "activities") <> [] ->
  metric "garmin" d "activities" daily
  = Some (VList (map activity_dict (records_on d (stream_items garmin "activities"))))
  /\ metric "garmin" d "activityCount" daily
     = Some (py_len (records_on d (stream_items garmin "activities")))
  /\ Some <$> py_sum_gen (amount "duration")
                (records_on d (stream_items garmin "activities"))
     = Ok (metric "garmin" d "totalActivityDuration" daily)
  /\ Some <$> py_sum_gen (amount "calories")
                (records_on d (stream_items garmin "activities"))
     = Ok (metric "garmin" d "totalActivityCalories" daily).
Proof.
  intros H Hne. apply process_garmin_data_Ok, garmin_daily_steps in H
    as (d1 & d2 & g & d3 & _ & _ & _ & Hg & H3 & H4).
  destruct (activity_groups _ _ Hg) as (Hok & Hgr & _).
  set (acts := records_on d (stream_items garmin "activities")) in *.
  assert (Hin : (d, map activity_dict acts) ∈ g).
  { apply (group_of_elem _ _ _ Hok). split; [apply Hgr|].
    destruct acts; [contradiction|discriminate]. }
  destruct (totals_of_group _ _ _ _ _ (proj1 Hok) Hin H3) as (T1 & T2 & T3 & T4).
  rewrite !(garmin_stream_keeps _ _ _ _ _ d _ H4) by not_in_list.
  rewrite T1, T2, <- T3, <- T4. unfold py_len. rewrite length_map.
  subst acts. rewrite !sum_over_activity_dicts by auto. auto.
Qed.

Lemma activity_totals_of_a_date_witness :
  metric "garmin" "2024-01-02" "activities" sample_garmin_daily
  = Some (VList (map activity_dict
                   (records_on "2024-01-02" (stream_items sample_garmin "activities"))))
  /\ metric "garmin" "2024-01-02" "activityCount" sample_garmin_daily
     = Some (py_len (records_on "2024-01-02" (stream_items sample_garmin "activities")))
  /\ Some <$> py_sum_gen (amount "duration")
                (records_on "2024-01-02" (stream_items sample_garmin "activities"))
     = Ok (metric "garmin" "2024-01-02" "totalActivityDuration" sample_garmin_daily)
  /\ Some <$> py_sum_gen (amount "calories")
                (records_on "2024-01-02" (stream_items sample_garmin "activities"))
     = Ok (metric "garmin" "2024-01-02" "totalActivityCalories" sample_garmin_daily).
Proof.
  apply (activity_totals_of_a_date sample_garmin sample_garmin_daily "2024-01-02").
  - vm_compute. reflexivity.
  - vm_compute. discriminate.
Defined.

(** The sample document: two activities on 2024-01-02, one of them without
    a duration, and one activity without a date. *)
Example sample_activity_totals :
  metric "garmin" "2024-01-02" "activityCount" sample_garmin_daily = Some (VInt 2)
  /\ metric "garmin" "2024-01-02" "totalActivityDuration" sample_garmin_daily
     = Some (VInt 1800)
  /\ metric "garmin" "2024-01-02" "totalActivityCalories" sample_garmin_daily
     = Some (VInt 390)
  /\ metric "garmin" "2024-01-01" "steps" sample_garmin_daily = Some (VInt 8000)
  /\ keys sample_garmin_daily = ["2024-01-01"; "2024-01-02"; "2024-01-03"].
Proof. vm_compute. auto. Qed.

(** X3.  In each of the streams of daily summaries, sleep records and
    weights, the last record of a date decides the fields of that date:
    every field taken from the stream holds what that record gives for it
    (null when the record lacks the field), whatever earlier records of
    the date held. *)
Theorem garmin_last_record_wins (garmin : pyval) (daily : pydict)
  (stream : string) (fields : list string) (d k : string) (r : pyval) :
  process_garmin_data garmin = Some (Ok daily) ->
  (stream, fields) ∈ garmin_fields -> k ∈ fields ->
  last (records_on d (stream_items garmin stream)) = Some r ->
  Some <$> py_get r k VNone = Ok (metric "garmin" d k daily).
Proof.
  intros H Hs Hk Hl. apply process_garmin_data_Ok, garmin_daily_steps in H
    as (d1 & d2 & g & d3 & H1 & H2 & _ & _ & H3 & H4).
  unfold garmin_fields in Hs.
  repeat (apply elem_of_cons in Hs as [Hs|Hs]); [| | |inversion Hs];
    injection Hs as -> ->.
  - apply fold_stream_items in H1 as [_ H1].
    rewrite (garmin_records_last _ _ _ _ _ _ _ H1 Hl Hk).
    f_equal.
    rewrite (garmin_stream_keeps _ _ _ _ _ d k H4) by (each_member Hk; not_in_list).
    rewrite (totals_keep _ _ _ d k H3) by (right; each_member Hk; not_in_list).
    rewrite (garmin_stream_keeps _ _ _ _ _ d k H2) by (each_member Hk; not_in_list).
    reflexivity.
  - apply fold_stream_items in H2 as [_ H2].
    rewrite (garmin_records_last _ _ _ _ _ _ _ H2 Hl Hk).
    f_equal.
    rewrite (garmin_stream_keeps _ _ _ _ _ d k H4) by (each_member Hk; not_in_list).
    rewrite (totals_keep _ _ _ d k H3) by (right; each_member Hk; not_in_list).
    reflexivity.
  - apply fold_stream_items in H4 as [_ H4].
    apply (garmin_records_last _ _ _ _ _ _ _ H4 Hl Hk).
Qed.

Lemma garmin_last_record_wins_witness :
  Some <$> py_get (VDict [("date", VStr "2024-01-01"); ("steps", VInt 8000);
                          ("calories", VInt 2100)]) "steps" VNone
  = Ok (metric "garmin" "2024-01-01" "steps" sample_garmin_daily).
Proof.
  apply (garmin_last_record_wins sample_garmin sample_garmin_daily
           "dailySummaries" summary_fields "2024-01-01" "steps").
  - vm_compute. reflexivity.
  - left.
  - left.
  - vm_compute. reflexivity.
Defined.

Lemma garmin_metric_empty (d k : string) : metric "garmin" d k [] = None.
Proof. reflexivity. Qed.

(** X4.  The garmin namespace of a date only ever holds the fields the
    normaliser takes from the summaries, sleep records and weights and
    the four activity totals.  In particular the resting heart rate of a
    daily summary is never copied, whatever the document holds. *)
Theorem garmin_namespace_is_closed (garmin : pyval) (daily : pydict)
  (d k : string) :
  process_garmin_data garmin = Some (Ok daily) ->
  (k ∉ garmin_metrics -> metric "garmin" d k daily = None)
  /\ metric "garmin" d "restingHeartRate" daily = None.
Proof.
  intros H. apply process_garmin_data_Ok, garmin_daily_steps in H
    as (d1 & d2 & g & d3 & H1 & H2 & _ & _ & H3 & H4).
  assert (Hgen : forall k', k' ∉ garmin_metrics -> metric "garmin" d k' daily = None).
  { intros k' Hk. unfold garmin_metrics in Hk.
    apply not_elem_of_app in Hk as [Ka Hk]. apply not_elem_of_app in Hk as [Kb Hk].
    apply not_elem_of_app in Hk as [Kc Kd].
    rewrite (garmin_stream_keeps _ _ _ _ _ d k' H4 Kd).
    rewrite (totals_keep _ _ _ d k' H3) by (right; exact Kc).
    rewrite (garmin_stream_keeps _ _ _ _ _ d k' H2 Kb).
    rewrite (garmin_stream_keeps _ _ _ _ _ d k' H1 Ka).
    apply garmin_metric_empty. }
  split; [apply Hgen|]. apply Hgen. not_in_list.
Qed.

Lemma garmin_namespace_is_closed_witness :
  ("heartRate" ∉ garmin_metrics ->
     metric "garmin" "2024-01-01" "heartRate" sample_garmin_daily = None)
  /\ metric "garmin" "2024-01-01" "restingHeartRate" sample_garmin_daily = None.
Proof.
  apply (garmin_namespace_is_closed sample_garmin sample_garmin_daily).
  vm_compute. reflexivity.
Defined.

(** ** The glucose normaliser *)

Lemma glucose_not_date : "glucose" <> "date".
Proof. discriminate. Qed.

Lemma str_take_nonempty (n : nat) (s : string) :
  s <> "" -> str_take (S n) s <> "".
Proof. destruct s; [contradiction|discriminate]. Qed.

Lemma lingo_reading_step_appends (g g' : list (string * list pyval))
  (r : pyval) :
  lingo_reading_step g r = Ok g' ->
  g' = match dated_value r with
       | Some (d, v) => group_append d v g
       | None => g
       end.
Proof.
  unfold lingo_reading_step, dated_value. intros H.
  apply bind_Ok in H as (ts & Hts & H). rewrite Hts.
  destruct (truthy ts) eqn:Ht.
  - apply bind_Ok in H as (date & Hd & H).
    apply bind_Ok in H as (key & Hk & H).
    apply bind_Ok in H as (value & Hv & H). injection H as <-.
    apply as_key_Ok in Hk as ->.
    destruct ts as [| | |s|l|]; try (simpl in *; discriminate).
    apply truthy_string in Ht.
    destruct (String.eqb_spec s "") as [->|_]; [contradiction|].
    simpl in Hd. injection Hd as <-. rewrite Hv. reflexivity.
  - injection H as <-. destruct ts as [| | |s| |]; try reflexivity.
    destruct (String.eqb_spec s "") as [->|Hne]; [reflexivity|].
    apply truthy_string in Hne. congruence.
Qed.

Lemma values_on_dated (d : string) (rs : list pyval) :
  values_on d rs <> [] -> d <> "".
Proof.
  unfold values_on, grouped. induction rs as [|r rs IH]; simpl; [congruence|].
  intros H. destruct (contribution dated_value d r) as [|v l] eqn:E; [apply IH, H|].
  unfold contribution, dated_value in E.
  destruct (py_get r "timestamp" (VStr "")) as [[| | |ts| |]|e];
    try (simpl in E; discriminate E).
  destruct (String.eqb_spec ts "") as [E1|Hne]; [discriminate|].
  destruct (py_get r "value" VNone); [|discriminate].
  destruct (String.eqb_spec d (str_take 10 ts)) as [->|_]; [|discriminate].
  apply str_take_nonempty, Hne.
Qed.

(** The groups of the readings: one group for every date a reading
    carries, holding the values of that date. *)
Lemma reading_groups (rs : list pyval) (g : list (string * list pyval)) :
  foldM lingo_reading_step [] rs = Ok g ->
  groups_ok g
  /\ (forall d, group_of d g = values_on d rs)
  /\ Forall (fun kv => fst kv <> "" /\ snd kv <> []) g.
Proof.
  intros H.
  destruct (foldM_groups lingo_reading_step dated_value
              (fun g r g' => lingo_reading_step_appends g g' r) rs [] g H)
    as [Hok Hg].
  { split; [apply NoDup_nil_2 | constructor]. }
  assert (Hg' : forall d, group_of d g = values_on d rs).
  { intros d. rewrite Hg. reflexivity. }
  split; [exact Hok|]. split; [exact Hg'|].
  apply Forall_forall. intros [d vs] Hin. simpl.
  apply (group_of_elem _ _ _ Hok) in Hin as [Hd Hne].
  split; [|exact Hne]. apply (values_on_dated d rs).
  rewrite <- Hg', Hd. exact Hne.
Qed.

Lemma glucose_summary_dict (values : list pyval) (g : pyval) :
  glucose_summary values = Ok g -> exists m, g = VDict m.
Proof. unfold glucose_summary. intros H. run H. subst. eauto. Qed.

Lemma lingo_day_step_update (daily daily' : pydict) (date : string)
  (values : list pyval) :
  values <> [] ->
  lingo_day_step daily (date, values) = Ok daily' ->
  exists g, glucose_summary values = Ok g
    /\ daily' = set_namespace "glucose" date g (set_date "glucose" date daily)
    /\ day_update "glucose" date daily daily'.
Proof.
  unfold lingo_day_step. intros Hne H. destruct values as [|v l]; [contradiction|].
  apply bind_Ok in H as (g & Hg & H). injection H as <-.
  exists g. split; [exact Hg|]. split; [reflexivity|].
  destruct (glucose_summary_dict _ _ Hg) as [m ->].
  apply update_namespace, update_date.
Qed.

Lemma glucose_days_dates (g : list (string * list pyval))
  (daily daily' : pydict) :
  Forall (fun kv => fst kv <> "" /\ snd kv <> []) g ->
  normalised "glucose" daily ->
  foldM lingo_day_step daily g = Ok daily' ->
  normalised "glucose" daily'
  /\ forall d, d ∈ keys daily' <-> d ∈ keys daily \/ d ∈ map fst g.
Proof.
  intros Hg Hn H.
  destruct (foldM_day_updates "glucose" lingo_day_step
              (fun kv d => d = fst kv) (fun kv => fst kv <> "" /\ snd kv <> [])
              glucose_not_date)
    with (rs := g) (daily := daily) (daily' := daily') as [Hn' Hk]; try assumption.
  - intros daily0 [date vs] daily1 [Hne Hvs] Hs. right. exists date.
    split; [tauto|]. split; [exact Hne|].
    destruct (lingo_day_step_update _ _ _ _ Hvs Hs) as (_ & _ & _ & Hup). exact Hup.
  - split; [exact Hn'|]. intros d. rewrite Hk. apply or_iff_compat_l.
    rewrite list_elem_of_fmap. split.
    + intros (kv & Hin & ->). eauto.
    + intros (kv & -> & Hin). eauto.
Qed.

Lemma lingo_day_step_frame (daily daily' : pydict) (day : string * list pyval)
  (d : string) :
  lingo_day_step daily day = Ok daily' -> d <> fst day ->
  dict_lookup d daily' = dict_lookup d daily.
Proof.
  destruct day as [date vs]. simpl. intros H Hd.
  destruct vs as [|v l]; [injection H as <-; reflexivity|].
  destruct (lingo_day_step_update daily daily' date (v :: l)) as (_ & _ & _ & Hup);
    [discriminate|exact H|].
  apply (day_update_frame _ _ _ _ _ Hup Hd).
Qed.

Lemma glucose_days_frame (g : list (string * list pyval))
  (daily daily' : pydict) (d : string) :
  foldM lingo_day_step daily g = Ok daily' -> d ∉ map fst g ->
  dict_lookup d daily' = dict_lookup d daily.
Proof.
  revert daily. induction g as [|day g IH]; intros daily H Hd; simpl in H.
  - injection H as <-. reflexivity.
  - apply bind_Ok in H as (daily1 & H1 & H2).
    rewrite (IH _ H2) by (intros Hin; apply Hd; right; exact Hin).
    apply (lingo_day_step_frame _ _ _ _ H1). intros ->. apply Hd. left.
Qed.

(** The entry of a date is made once, from the group of the date. *)
Lemma glucose_day_entry (g : list (string * list pyval)) (daily : pydict)
  (d : string) (vs : list pyval) :
  groups_ok g -> (d, vs) ∈ g ->
  foldM lingo_day_step [] g = Ok daily ->
  exists s, glucose_summary vs = Ok s
    /\ dict_lookup d daily = Some (VDict [("date", VStr d); ("glucose", s)]).
Proof.
  intros Hok Hin H. pose proof Hok as [Hnd Hne].
  assert (Hvs : vs <> []) by (apply (group_of_elem _ _ _ Hok) in Hin as [_ Hvs]; exact Hvs).
  apply list_elem_of_split in Hin as (pre & post & ->).
  rewrite map_app in Hnd. simpl in Hnd.
  apply NoDup_app in Hnd as (_ & Hpre & Hnd). apply NoDup_cons in Hnd as [Hpost _].
  rewrite foldM_app in H. apply bind_Ok in H as (daily1 & H1 & H).
  simpl in H. apply bind_Ok in H as (daily2 & H2 & H3).
  rewrite (glucose_days_frame _ _ _ d H3 Hpost).
  assert (Hfresh : dict_lookup d daily1 = None).
  { rewrite (glucose_days_frame _ _ _ d H1); [reflexivity|].
    intros Hd. apply (Hpre d Hd). left. }
  destruct (lingo_day_step_update _ _ _ _ Hvs H2) as (s & Hs & -> & _).
  exists s. split; [exact Hs|].
  unfold set_namespace, set_date. rewrite dict_lookup_set, String.eqb_refl.
  rewrite day_entry_set, String.eqb_refl. unfold day_entry. rewrite Hfresh.
  reflexivity.
Qed.

Lemma process_lingo_data_steps (lingo : pyval) (daily : pydict) :
  process_lingo_data lingo = Ok daily ->
  exists g,
    foldM lingo_reading_step [] (stream_items lingo "history") = Ok g
    /\ foldM lingo_day_step [] g = Ok daily.
Proof.
  unfold process_lingo_data, stream_items, stream_records. intros H.
  apply bind_Ok in H as (history & Hh & H). apply bind_Ok in H as (rs & Hrs & H).
  apply bind_Ok in H as (g & Hg & H). rewrite Hh. simpl. rewrite Hrs. eauto.
Qed.

(** X5.  The glucose normaliser returns an entry for exactly the dates
    that the timestamp of a reading starts with, and the entry of a date
    holds the date and the statistics of the values of that date's
    readings, taken in the order of the history.  A reading without a
    timestamp contributes to no date. *)
Theorem glucose_statistics_of_a_date (lingo : pyval) (daily : pydict) :
  process_lingo_data lingo = Ok daily ->
  normalised "glucose" daily
  /\ (forall d, d ∈ keys daily <-> values_on d (stream_items lingo "history") <> [])
  /\ (forall d, values_on d (stream_items lingo "history") <> [] ->
        exists s,
          glucose_summary (values_on d (stream_items lingo "history")) = Ok s
          /\ dict_lookup d daily = Some (VDict [("date", VStr d); ("glucose", s)])).
Proof.
  intros H. apply process_lingo_data_steps in H as (g & Hg & H).
  destruct (reading_groups _ _ Hg) as (Hok & Hgr & Hne).
  destruct (glucose_days_dates _ _ _ Hne (normalised_empty _) H) as [Hn Hk].
  split; [exact Hn|]. split.
  - intros d. rewrite Hk, (group_of_keys _ _ Hok), Hgr. split; [|auto].
    intros [Hd|Hd]; [inversion Hd|exact Hd].
  - intros d Hd. apply (glucose_day_entry g daily d); [exact Hok| |exact H].
    apply (group_of_elem _ _ _ Hok). split; [apply Hgr|exact Hd].
Qed.

Lemma glucose_statistics_of_a_date_witness :
  normalised "glucose" sample_glucose_daily
  /\ (forall d, d ∈ keys sample_glucose_daily <->
        values_on d (stream_items history_with_undated "history") <> [])
  /\ (forall d, values_on d (stream_items history_with_undated "history") <> [] ->
        exists s,
          glucose_summary (values_on d (stream_items history_with_undated "history"))
          = Ok s
          /\ dict_lookup d sample_glucose_daily
             = Some (VDict [("date", VStr d); ("glucose", s)])).
Proof.
  apply (glucose_statistics_of_a_date history_with_undated sample_glucose_daily).
  vm_compute. reflexivity.
Defined.

(** *** Extremes and counts *)

Lemma py_lt_nums (a b : pyval) (na nb : pynum) :
  as_num a = Some na -> as_num b = Some nb ->
  py_lt a b = Ok (Num.ltb na nb).
Proof.
  destruct a, b; simpl; intros [= <-] [= <-]; reflexivity.
Qed.

Lemma py_lt_num_r (a x : pyval) (nx : pynum) (b : bool) :
  as_num x = Some nx -> py_lt a x = Ok b ->
  exists na, as_num a = Some na /\ b = Num.ltb na nx.
Proof.
  destruct a, x; simpl; intros [= <-] [= <-]; eauto.
Qed.

(** The fold of [min] from a number returns a minimum of what it saw. *)
Lemma foldM_min_spec (l : list pyval) (x m : pyval) (nx : pynum) :
  as_num x = Some nx ->
  foldM min_step x l = Ok m ->
  exists nm, as_num m = Some nm
    /\ (m = x \/ Num.ltb nm nx = true)
    /\ minimum_of m (x :: l).
Proof.
  revert x nx. induction l as [|a l IH]; intros x nx Hx H; simpl in H.
  - injection H as <-. exists nx. split; [exact Hx|]. split; [left; reflexivity|].
    split; [left|]. intros s Hs. apply list_elem_of_singleton in Hs as ->.
    rewrite (py_lt_nums x x nx nx Hx Hx), num_ltb_irrefl. reflexivity.
  - destruct (min_step x a) as [x'|e] eqn:Hstep; [|discriminate].
    simpl in H. unfold min_step in Hstep.
    destruct (py_lt a x) as [b|e] eqn:E; [|discriminate].
    simpl in Hstep. injection Hstep as <-.
    destruct (py_lt_num_r a x nx _ Hx E) as (na & Ha & Hb).
    destruct b.
    + destruct (IH a na Ha H) as (nm & Hm & Hrel & Hin & Hmin).
      assert (Hlt : Num.ltb nm nx = true).
      { destruct Hrel as [->|Hrel].
        - rewrite Ha in Hm. injection Hm as <-. symmetry. exact Hb.
        - eapply num_ltb_trans; [exact Hrel | symmetry; exact Hb]. }
      exists nm. split; [exact Hm|]. split; [right; exact Hlt|]. split.
      * apply elem_of_cons in Hin as [->|Hin]; [right; left | right; right; exact Hin].
      * intros s Hs. apply elem_of_cons in Hs as [->|Hs]; [|apply Hmin; exact Hs].
        rewrite (py_lt_nums x m nx nm Hx Hm).
        destruct (Num.ltb nx nm) eqn:Hc; [|reflexivity].
        pose proof (num_ltb_trans _ _ _ Hc Hlt) as Hbad.
        rewrite num_ltb_irrefl in Hbad. discriminate.
    + destruct (IH x nx Hx H) as (nm & Hm & Hrel & Hin & Hmin).
      exists nm. split; [exact Hm|]. split; [exact Hrel|]. split.
      * apply elem_of_cons in Hin as [->|Hin]; [left | right; right; exact Hin].
      * intros s Hs. apply elem_of_cons in Hs as [->|Hs].
        { apply Hmin. left. }
        apply elem_of_cons in Hs as [->|Hs]; [|apply Hmin; right; exact Hs].
        rewrite (py_lt_nums a m na nm Ha Hm).
        destruct Hrel as [->|Hrel].
        -- rewrite Hx in Hm. injection Hm as <-. rewrite <- Hb. reflexivity.
        -- destruct (Num.ltb na nm) eqn:Hc; [|reflexivity].
           rewrite (num_ltb_trans _ _ _ Hc Hrel) in Hb. discriminate.
Qed.

(** A sum that succeeds has added numbers only. *)
Lemma sum_of_numbers_only (l : list pyval) (n : pynum) (s : pyval) :
  foldM (fun acc a => t ← Ok a; py_add acc t) (VNum n) l = Ok s ->
  Forall (fun v => exists nv, as_num v = Some nv) l.
Proof.
  revert n. induction l as [|v l IH]; intros n H; [constructor|].
  simpl in H. apply bind_Ok in H as (acc & Hacc & H).
  assert (Hv : exists nv, as_num v = Some nv).
  { destruct v; simpl in Hacc; try discriminate; simpl; eauto. }
  assert (Hn : exists n', acc = VNum n').
  { destruct Hv as [nv Hv]. unfold py_add in Hacc.
    destruct v; try discriminate; unfold num_op in Hacc; simpl in Hacc, Hv;
      injection Hv as <-; apply bind_Ok in Hacc as (r & _ & Hacc);
      injection Hacc as <-; eauto. }
  destruct Hn as [n' ->]. constructor; [exact Hv|apply (IH _ H)].
Qed.

Lemma count_if_bounds (p : pyval -> res bool) (l : list pyval) (c : pyval) :
  count_if p l = Ok c ->
  exists n, c = VInt n /\ 0 <= n <= Z.of_nat (length l).
Proof.
  unfold count_if.
  assert (Hgen : forall l a r,
            foldM (fun acc v => b ← p v;
                     if b : bool then py_add acc (VInt 1) else Ok acc)
              (VInt a) l = Ok r ->
            exists n, r = VInt n /\ a <= n <= a + Z.of_nat (length l)).
  { clear. induction l as [|v l IH]; intros a r H; simpl in H.
    - injection H as <-. exists a. split; [reflexivity|]. simpl. lia.
    - apply bind_Ok in H as (acc & Hacc & H).
      apply bind_Ok in Hacc as (b & _ & Hacc). destruct b.
      + simpl in Hacc. injection Hacc as <-.
        destruct (IH _ _ H) as (n & -> & Hn). exists n. split; [reflexivity|].
        simpl length. lia.
      + injection Hacc as <-.
        destruct (IH _ _ H) as (n & -> & Hn). exists n. split; [reflexivity|].
        simpl length. lia. }
  intros H. destruct (Hgen _ _ _ H) as (n & -> & Hn). exists n.
  split; [reflexivity|]. lia.
Qed.

(** What the statistics of a day hold besides the means. *)
Lemma glucose_summary_extremes (values : list pyval) (s : pyval) :
  glucose_summary values = Ok s ->
  exists m lo hi n,
    s = VDict m
    /\ dict_lookup "min" m = Some lo /\ minimum_of lo values
    /\ dict_lookup "max" m = Some hi /\ maximum_of hi values
    /\ dict_lookup "readings" m = Some (py_len values)
    /\ dict_lookup "inRange" m = Some (VInt n)
    /\ 0 <= n <= Z.of_nat (length values)
    /\ Forall (fun v => exists nv, as_num v = Some nv) values.
Proof.
  unfold glucose_summary. intros H.
  apply bind_Ok in H as (total & Htotal & H).
  apply bind_Ok in H as (mean & _ & H).
  apply bind_Ok in H as (average & _ & H).
  apply bind_Ok in H as (lo & Hlo & H).
  apply bind_Ok in H as (hi & Hhi & H).
  apply bind_Ok in H as (in_range & Hin & H).
  apply bind_Ok in H as (in_range' & _ & H).
  apply bind_Ok in H as (share & _ & H).
  apply bind_Ok in H as (percent & _ & H).
  apply bind_Ok in H as (time_in_range & _ & H). injection H as <-.
  pose proof (sum_of_numbers_only _ _ _ Htotal) as Hnum.
  destruct (count_if_bounds _ _ _ Hin) as (n & -> & Hn).
  destruct values as [|x l]; [discriminate|].
  inversion Hnum as [|? ? [nx Hx] _]; subst.
  simpl in Hlo, Hhi.
  destruct (foldM_min_spec _ _ _ _ Hx Hlo) as (_ & _ & _ & Hmin).
  destruct (foldM_max_spec _ _ _ _ Hx Hhi) as (_ & _ & _ & Hmax).
  eexists _, lo, hi, n. split; [reflexivity|]. simpl. auto 10.
Qed.

(** X6.  In the entry of a date, min and max are values of that date's
    readings, no reading of the date is smaller than min or greater than
    max, readings is the number of the date's readings, inRange is a
    count between 0 and that number, and every value of the date is a
    number: the normaliser does not return otherwise. *)
Theorem glucose_extremes_of_a_date (lingo : pyval) (daily : pydict) (d : string) :
  process_lingo_data lingo = Ok daily ->
  values_on d (stream_items lingo "history") <> [] ->
  exists lo hi n,
    metric "glucose" d "min" daily = Some lo
    /\ minimum_of lo (values_on d (stream_items lingo "history"))
    /\ metric "glucose" d "max" daily = Some hi
    /\ maximum_of hi (values_on d (stream_items lingo "history"))
    /\ metric "glucose" d "readings" daily
       = Some (py_len (values_on d (stream_items lingo "history")))
    /\ metric "glucose" d "inRange" daily = Some (VInt n)
    /\ 0 <= n <= Z.of_nat (length (values_on d (stream_items lingo "history")))
    /\ Forall (fun v => exists nv, as_num v = Some nv)
         (values_on d (stream_items lingo "history")).
Proof.
  intros H Hd. apply process_lingo_data_steps in H as (g & Hg & H).
  destruct (reading_groups _ _ Hg) as (Hok & Hgr & _).
  destruct (glucose_day_entry g daily d (values_on d (stream_items lingo "history")))
    as (s & Hs & Hlook); [exact Hok| |exact H|].
  { apply (group_of_elem _ _ _ Hok). split; [apply Hgr|exact Hd]. }
  destruct (glucose_summary_extremes _ _ Hs)
    as (m & lo & hi & n & -> & Hlo & Hmin & Hhi & Hmax & Hr & Hin & Hn & Hnum).
  assert (Hm : forall k, metric "glucose" d k daily = dict_lookup k m).
  { intros k. unfold metric, day_metrics, day_entry. rewrite Hlook. reflexivity. }
  exists lo, hi, n. rewrite !Hm. auto 10.
Qed.

Lemma glucose_extremes_of_a_date_witness :
  exists lo hi n,
    metric "glucose" "2024-01-02" "min" sample_glucose_daily = Some lo
    /\ minimum_of lo (values_on "2024-01-02" (stream_items history_with_undated "history"))
    /\ metric "glucose" "2024-01-02" "max" sample_glucose_daily = Some hi
    /\ maximum_of hi (values_on "2024-01-02" (stream_items history_with_undated "history"))
    /\ metric "glucose" "2024-01-02" "readings" sample_glucose_daily
       = Some (py_len (values_on "2024-01-02" (stream_items history_with_undated "history")))
    /\ metric "glucose" "2024-01-02" "inRange" sample_glucose_daily = Some (VInt n)
    /\ 0 <= n <= Z.of_nat (length (values_on "2024-01-02"
                                     (stream_items history_with_undated "history")))
    /\ Forall (fun v => exists nv, as_num v = Some nv)
         (values_on "2024-01-02" (stream_items history_with_undated "history")).
Proof.
  apply (glucose_extremes_of_a_date history_with_undated sample_glucose_daily
           "2024-01-02").
  - vm_compute. reflexivity.
  - vm_compute. discriminate.
Defined.

(** The example day: readings of 100, 120, 150 and 90 and two readings
    without a timestamp. *)
Example sample_glucose_day :
  values_on "2024-01-02" (stream_items history_with_undated "history")
  = [VInt 100; VInt 120; VInt 150; VInt 90]
  /\ metric "glucose" "2024-01-02" "min" sample_glucose_daily = Some (VInt 90)
  /\ metric "glucose" "2024-01-02" "max" sample_glucose_daily = Some (VInt 150)
  /\ metric "glucose" "2024-01-02" "inRange" sample_glucose_daily = Some (VInt 3).
Proof. vm_compute. auto. Qed.

(** *** Readings without a timestamp *)

Lemma undated_step (g : list (string * list pyval)) (r : pyval) :
  undated r = true -> lingo_reading_step g r = Ok g.
Proof.
  destruct r as [| | | | |d]; try discriminate. unfold undated, lingo_reading_step.
  simpl. intros H. apply negb_true_iff in H. rewrite H. reflexivity.
Qed.

Lemma readings_without_undated (rs : list pyval) (g : list (string * list pyval)) :
  foldM lingo_reading_step g (filter (fun r => Is_true (negb (undated r))) rs)
  = foldM lingo_reading_step g rs.
Proof.
  revert g. induction rs as [|r rs IH]; intros g; [reflexivity|].
  rewrite filter_cons. destruct (decide (Is_true (negb (undated r)))) as [Hd|Hd].
  - simpl. destruct (lingo_reading_step g r); simpl; [apply IH | reflexivity].
  - assert (Hu : undated r = true).
    { destruct (undated r); [reflexivity|]. destruct Hd. exact I. }
    simpl. rewrite (undated_step g r Hu). simpl. apply IH.
Qed.

(** C1 (as amended).  A reading without a timestamp is skipped silently
    and never aborts the processing: the document gives what it gives
    without such readings.  Every reading with a timestamp counts for
    the date its timestamp starts with: when the normaliser returns, a
    date has an entry exactly when a reading carries it, the entry
    holds the statistics of the values of all readings of that date, and
    a date without such a reading has no entry. *)
Theorem undated_readings_are_skipped (lingo : pydict) :
  process_lingo_data (VDict (without_undated lingo)) = process_lingo_data (VDict lingo)
  /\ (forall daily, process_lingo_data (VDict lingo) = Ok daily ->
        forall d,
          (d ∈ keys daily <-> values_on d (stream_items (VDict lingo) "history") <> [])
          /\ (values_on d (stream_items (VDict lingo) "history") <> [] ->
                exists s,
                  glucose_summary (values_on d (stream_items (VDict lingo) "history"))
                  = Ok s
                  /\ dict_lookup d daily
                     = Some (VDict [("date", VStr d); ("glucose", s)]))).
Proof.
  split.
  - unfold without_undated.
    destruct (dict_lookup "history" lingo) as [[| | | |rs|]|] eqn:Eh; try reflexivity.
    unfold process_lingo_data. simpl. unfold dict_get.
    rewrite dict_lookup_set, String.eqb_refl, Eh. simpl.
    rewrite readings_without_undated. reflexivity.
  - intros daily H d. apply process_lingo_data_steps in H as (g & Hg & H).
    destruct (reading_groups _ _ Hg) as (Hok & Hgr & Hne).
    destruct (glucose_days_dates _ _ _ Hne (normalised_empty _) H) as [_ Hk].
    split.
    + rewrite Hk, (group_of_keys _ _ Hok), Hgr. split; [|auto].
      intros [Hd|Hd]; [inversion Hd|exact Hd].
    + intros Hd. apply (glucose_day_entry g daily d); [exact Hok| |exact H].
      apply (group_of_elem _ _ _ Hok). split; [apply Hgr|exact Hd].
Qed.

(** The history of [history_with_undated] has readings without a
    timestamp between the four of 2024-01-02. *)
Example without_undated_history :
  (h ← py_index (VDict (without_undated
                          match history_with_undated with VDict d => d | _ => [] end))
         "history";
   Ok (py_len match h with VList l => l | _ => [] end))
  = Ok (VInt 4).
Proof. vm_compute. reflexivity. Qed.

(** ** The recovery-tracker normaliser *)

(** When the guard of a loop body lets a record through and its date can
    be a key, the record counts for exactly that date. *)
Lemma dated_score_scored (r score : pyval) (s : string) :
  dated_score r = Ok (Some (VStr s, score)) ->
  s <> "" /\ forall d, scored_on d r = true <-> d = s.
Proof.
  unfold dated_score, record_date. intros H.
  apply bind_Ok in H as (date & Hdate & H).
  apply bind_Ok in Hdate as (created_at & Hc & Hdate).
  destruct r as [| | | | |r]; try discriminate. simpl in Hc. injection Hc as <-.
  destruct (truthy (dict_get "created_at" (VStr "") r)) eqn:Hct.
  - destruct (truthy date) eqn:Ht; [|discriminate].
    apply bind_Ok in H as (sc & Hsc & H). simpl in Hsc. injection Hsc as <-.
    destruct (truthy (dict_get "score" VNone r)) eqn:Hst; [|discriminate].
    apply bind_Ok in H as (score' & _ & H). injection H as -> _.
    destruct (dict_get "created_at" (VStr "") r) as [| | |ts|l|] eqn:E;
      try (simpl in Hdate; discriminate Hdate).
    unfold slice10 in Hdate.
    assert (Hdt : s = str_take 10 ts) by congruence. subst s.
    apply truthy_string in Ht. split; [exact Ht|].
    intros d. unfold scored_on. rewrite E, Hst, andb_true_r.
    apply truthy_string in Hct.
    destruct (String.eqb_spec ts "") as [E1|_]; [contradiction|].
    rewrite andb_true_l, String.eqb_eq. split; intros H0; symmetry; exact H0.
  - injection Hdate as <-. discriminate.
Qed.

Lemma dated_score_none (r : pyval) :
  dated_score r = Ok None -> forall d, ~ scored_on d r = true.
Proof.
  unfold dated_score, record_date. intros H d Hs.
  apply bind_Ok in H as (date & Hdate & H).
  apply bind_Ok in Hdate as (created_at & Hc & Hdate).
  destruct r as [| | | | |r]; try discriminate. simpl in Hc. injection Hc as <-.
  unfold scored_on in Hs.
  destruct (dict_get "created_at" (VStr "") r) as [| | |ts|l|] eqn:E;
    try discriminate.
  apply andb_prop in Hs as [Hs Hsc]. apply andb_prop in Hs as [Hne Hd].
  assert (Hts : ts <> "").
  { destruct (String.eqb_spec ts "") as [E1|E1]; [discriminate|exact E1]. }
  pose proof Hts as Hct. apply truthy_string in Hct. rewrite Hct in Hdate.
  unfold slice10 in Hdate.
  assert (Hdt : date = VStr (str_take 10 ts)) by congruence. subst date.
  pose proof (str_take_nonempty 9 ts Hts) as Hd'. apply truthy_string in Hd'.
  rewrite Hd' in H. apply bind_Ok in H as (sc & Hsc' & H).
  simpl in Hsc'. injection Hsc' as <-. rewrite Hsc in H.
  apply bind_Ok in H as (score & _ & H). discriminate.
Qed.

Lemma recovery_step_update (daily daily' : pydict) (r : pyval) :
  recovery_step daily r = Ok daily' ->
  (daily' = daily /\ forall d, ~ scored_on d r = true)
  \/ exists date, (forall d, scored_on d r = true <-> d = date) /\ date <> ""
       /\ day_update "whoop" date daily daily'.
Proof.
  unfold recovery_step. intros H. apply bind_Ok in H as (ds & Hds & H).
  destruct ds as [[date score]|].
  - apply bind_Ok in H as (s & Hs & H). apply as_key_Ok in Hs as ->.
    destruct (dated_score_scored _ _ _ Hds) as [Hne Hd].
    right. exists s. split; [exact Hd|]. split; [exact Hne|].
    run H; subst; repeat apply update_metric; apply update_date.
  - injection H as <-. left. split; [reflexivity|apply dated_score_none, Hds].
Qed.

Lemma sleep_step_update (daily daily' : pydict) (r : pyval) :
  sleep_step daily r = Ok daily' ->
  (daily' = daily /\ forall d, ~ scored_on d r = true)
  \/ exists date, (forall d, scored_on d r = true <-> d = date) /\ date <> ""
       /\ day_update "whoop" date daily daily'.
Proof.
  unfold sleep_step. intros H. apply bind_Ok in H as (ds & Hds & H).
  destruct ds as [[date score]|].
  - apply bind_Ok in H as (stage & _ & H).
    apply bind_Ok in H as (s & Hs & H). apply as_key_Ok in Hs as ->.
    destruct (dated_score_scored _ _ _ Hds) as [Hne Hd].
    right. exists s. split; [exact Hd|]. split; [exact Hne|].
    run H; subst; repeat apply update_metric; apply update_date.
  - injection H as <-. left. split; [reflexivity|apply dated_score_none, Hds].
Qed.

Lemma workout_step_update (daily daily' : pydict) (r : pyval) :
  workout_step daily r = Ok daily' ->
  (daily' = daily /\ forall d, ~ scored_on d r = true)
  \/ exists date, (forall d, scored_on d r = true <-> d = date) /\ date <> ""
       /\ day_update "whoop" date daily daily'.
Proof.
  unfold workout_step. intros H. apply bind_Ok in H as (ds & Hds & H).
  destruct ds as [[date score]|].
  - apply bind_Ok in H as (s & Hs & H). apply as_key_Ok in Hs as ->.
    destruct (dated_score_scored _ _ _ Hds) as [Hne Hd].
    right. exists s. split; [exact Hd|]. split; [exact Hne|].
    apply bind_Ok in H as (new_strain & _ & H).
    apply bind_Ok in H as (strain & _ & H). injection H as <-.
    apply update_metric, update_date.
  - injection H as <-. left. split; [reflexivity|apply dated_score_none, Hds].
Qed.

Lemma whoop_stream_dates (step : pydict -> pyval -> res pydict)
  (whoop : pyval) (stream : string) (daily daily' : pydict) :
  (forall daily r daily', step daily r = Ok daily' ->
     (daily' = daily /\ forall d, ~ scored_on d r = true)
     \/ exists date, (forall d, scored_on d r = true <-> d = date) /\ date <> ""
          /\ day_update "whoop" date daily daily') ->
  normalised "whoop" daily ->
  fold_stream step whoop stream daily = Ok daily' ->
  normalised "whoop" daily'
  /\ forall d, d ∈ keys daily' <->
       d ∈ keys daily
       \/ exists r, r ∈ stream_items whoop stream /\ scored_on d r = true.
Proof.
  intros Hstep Hn H. apply fold_stream_items in H as [_ H].
  apply (foldM_day_updates "whoop" step
           (fun r d => scored_on d r = true) (fun _ => True) whoop_not_date)
    with (rs := stream_items whoop stream) (daily := daily); try assumption.
  - intros daily0 r daily1 _ Hs. apply (Hstep _ _ _ Hs).
  - apply Forall_forall. auto.
Qed.

Lemma process_whoop_data_steps (whoop : pyval) (daily : pydict) :
  process_whoop_data whoop = Ok daily ->
  exists d1 d2,
    fold_stream recovery_step whoop "recovery" [] = Ok d1
    /\ fold_stream sleep_step whoop "sleep" d1 = Ok d2
    /\ fold_stream workout_step whoop "workout" d2 = Ok daily.
Proof.
  unfold process_whoop_data. intros H.
  apply bind_Ok in H as (d1 & H1 & H). apply bind_Ok in H as (d2 & H2 & H).
  eauto.
Qed.

(** X7.  The recovery-tracker normaliser returns one entry for every date
    that a recovery, sleep or workout record with a score starts its
    created_at with, and for no other date: a record without created_at
    or without a score (or with an empty one) is passed over.  No date
    occurs twice, and every entry holds its own date under "date" and a
    dictionary under "whoop". *)
Theorem whoop_dates_are_the_dates_scored (whoop : pyval) (daily : pydict) :
  process_whoop_data whoop = Ok daily ->
  normalised "whoop" daily
  /\ forall d, d ∈ keys daily <->
       exists stream r,
         stream ∈ whoop_streams /\ r ∈ stream_items whoop stream
         /\ scored_on d r = true.
Proof.
  intros H. apply process_whoop_data_steps in H as (d1 & d2 & H1 & H2 & H3).
  destruct (whoop_stream_dates _ _ _ _ _ (fun a r b => recovery_step_update a b r)
              (normalised_empty _) H1) as [N1 K1].
  destruct (whoop_stream_dates _ _ _ _ _ (fun a r b => sleep_step_update a b r) N1 H2) as [N2 K2].
  destruct (whoop_stream_dates _ _ _ _ _ (fun a r b => workout_step_update a b r) N2 H3) as [N3 K3].
  split; [exact N3|]. intros d. rewrite K3, K2, K1. unfold whoop_streams. split.
  - intros [[[H|(r & Hr & Hd)]|(r & Hr & Hd)]|(r & Hr & Hd)].
    + inversion H.
    + exists "recovery", r. split; [repeat constructor|auto].
    + exists "sleep", r. split; [repeat constructor|auto].
    + exists "workout", r. split; [repeat constructor|auto].
  - intros (stream & r & Hs & Hr & Hd).
    repeat (apply elem_of_cons in Hs as [->|Hs]); [| | |inversion Hs].
    + left. left. right. eauto.
    + left. right. eauto.
    + right. eauto.
Qed.

Lemma whoop_dates_are_the_dates_scored_witness :
  normalised "whoop" sample_whoop_daily
  /\ forall d, d ∈ keys sample_whoop_daily <->
       exists stream r,
         stream ∈ whoop_streams /\ r ∈ stream_items sample_whoop stream
         /\ scored_on d r = true.
Proof.
  apply (whoop_dates_are_the_dates_scored sample_whoop sample_whoop_daily).
  vm_compute. reflexivity.
Defined.

Example sample_whoop_dates :
  keys sample_whoop_daily = ["2024-01-02"; "2024-01-04"; "2024-01-03"].
Proof. reflexivity. Qed.

(** *** Sleep durations *)

Lemma round_aux_sign_clear (m e : Z) (l : location) :
  sign_clear (binary_round_aux Float64.prec Float64.emax false m e l).
Proof.
  unfold binary_round_aux.
  destruct (shr_fexp _ _ m e l) as [mrs' e'].
  destruct (shr_fexp _ _ _ e' loc_Exact) as [mrs'' e''].
  destruct (shr_m mrs''); simpl; try reflexivity.
  destruct (Z.leb _ _); reflexivity.
Qed.

Lemma div_sign_clear (a : spec_float) (m : positive) (e : Z) :
  sign_clear a -> sign_clear (Float64.div a (S754_finite false m e)).
Proof.
  unfold Float64.div, SFdiv. destruct a as [s|s| |s ma ea]; simpl; intros H;
    try exact I; try (subst s; reflexivity).
  subst s. simpl.
  destruct (SFdiv_core_binary _ _ _ _ _ _) as [[mz ez] lz].
  apply round_aux_sign_clear.
Qed.

Lemma sign_clear_not_below_zero (f : spec_float) :
  sign_clear f -> Num.ltb (PFloat f) (PInt 0) = false.
Proof.
  destruct f as [s|s| |s m e]; simpl; intros H; try subst s; try reflexivity.
  unfold Num.ltb, Num.compare. simpl. unfold Num.dyadic_compare.
  set (k := 2 ^ (e - Z.min e 0)).
  assert (Hk : 0 < k) by (apply Z.pow_pos_nonneg; lia).
  destruct (Z.pos m * k ?= 0 * 2 ^ (0 - Z.min e 0)) eqn:E; try reflexivity.
  rewrite Z.mul_0_l in E. apply (proj1 (Z.compare_lt_iff _ _)) in E.
  clearbody k. pose proof (Pos2Z.is_pos m). nia.
Qed.

Lemma round_half_even_nonneg (a b : Z) :
  0 <= a -> 0 < b -> 0 <= Float64.round_half_even a b.
Proof.
  intros Ha Hb. unfold Float64.round_half_even.
  assert (Hq : 0 <= a / b) by (apply Z.div_pos; lia).
  destruct (2 * (a mod b) ?= b); [destruct (Z.even (a / b))| |]; lia.
Qed.

Lemma round_digits_sign_clear (n : nat) (f : spec_float) :
  sign_clear f -> sign_clear (Float64.round_digits n f).
Proof.
  destruct f as [s|s| |s m e]; simpl; intros H; try exact H.
  subst s. destruct (Z.leb_spec 0 e) as [_|He]; [reflexivity|].
  set (k := Float64.round_half_even (Z.pos m * 10 ^ Z.of_nat n) (2 ^ (- e))).
  assert (Hk : 0 <= k).
  { apply round_half_even_nonneg; [|apply Z.pow_pos_nonneg; lia].
    assert (0 < 10 ^ Z.of_nat n) by (apply Z.pow_pos_nonneg; lia).
    apply Z.mul_nonneg_nonneg; lia. }
  destruct (Z.eqb_spec k 0) as [_|Hne]; [reflexivity|].
  unfold Float64.of_quot, Float64.signed.
  assert (Hp : 0 < 10 ^ Z.of_nat n) by (apply Z.pow_pos_nonneg; lia).
  destruct (10 ^ Z.of_nat n) as [|p|p] eqn:Ep; try lia.
  destruct k as [|q|q]; try lia. simpl Float64.exact.
  apply div_sign_clear. reflexivity.
Qed.

(** The hours of a total above zero are a float that is not below zero. *)
Lemma hours_of_positive (total h : pyval) :
  py_gt total (VInt 0) = Ok true -> hours total = Ok h ->
  exists f, h = VFloat f /\ sign_clear f.
Proof.
  intros Hgt H.
  destruct (py_gt_num_r total (VInt 0) (PInt 0) true eq_refl Hgt) as (n & Hn & Hlt).
  unfold hours in H. change (1000 * 60 * 60) with 3600000 in H.
  apply bind_Ok in H as (q & Hq & H).
  unfold py_div, num_op in Hq. rewrite Hn in Hq. simpl in Hq.
  apply bind_Ok in Hq as (nq & Hq & Hq'). injection Hq' as <-.
  assert (Hf : exists fq, nq = PFloat fq /\ sign_clear fq).
  { destruct n as [x|f].
    - simpl in Hq.
      destruct (Float64.is_inf (Float64.of_quot x 3600000)); [discriminate|].
      injection Hq as <-. eexists. split; [reflexivity|].
      unfold Num.ltb, Num.compare in Hlt. simpl in Hlt.
      unfold Num.dyadic_compare in Hlt. simpl in Hlt.
      destruct x as [|p|p]; simpl in Hlt; try discriminate.
      unfold Float64.of_quot. simpl Float64.exact. apply div_sign_clear. reflexivity.
    - simpl in Hq. injection Hq as <-. eexists. split; [reflexivity|].
      assert (Hs : sign_clear f).
      { destruct f as [s|s| |s m e]; simpl; try exact I;
          unfold Num.ltb, Num.compare in Hlt; simpl in Hlt; try discriminate.
        - destruct s; [discriminate|reflexivity].
        - destruct s; [|reflexivity]. exfalso.
          unfold Num.dyadic_compare in Hlt. simpl Float64.signed in Hlt.
          set (k := 2 ^ (e - Z.min 0 e)) in Hlt.
          assert (Hk : 0 < k) by (apply Z.pow_pos_nonneg; lia).
          destruct (0 * 2 ^ (0 - Z.min 0 e) ?= - Z.pos m * k) eqn:E;
            try discriminate Hlt.
          rewrite Z.mul_0_l in E. apply (proj1 (Z.compare_lt_iff _ _)) in E.
          clearbody k. pose proof (Pos2Z.is_pos m). nia. }
      let v := eval vm_compute in (Float64.of_Z 3600000) in
      change (Float64.of_Z 3600000) with v.
      apply div_sign_clear, Hs. }
  destruct Hf as (fq & -> & Hs).
  unfold py_round, num_fun in H. simpl in H. injection H as <-.
  eexists. split; [reflexivity|]. apply round_digits_sign_clear, Hs.
Qed.

Lemma sleep_durations_same (d : string) (daily daily' : pydict) :
  (forall k, k ∈ "sleepHours" :: stage_hours ->
     metric "whoop" d k daily' = metric "whoop" d k daily) ->
  sleep_durations_ok d daily -> sleep_durations_ok d daily'.
Proof.
  intros Hsame [Ha Hb]. split.
  - intros k Hk. rewrite (Hsame k) by (right; exact Hk).
    rewrite (Hsame "sleepHours") by left. apply Ha, Hk.
  - intros v. rewrite (Hsame "sleepHours") by left. apply Hb.
Qed.

Lemma sleep_step_durations (d : string) (daily daily' : pydict) (r : pyval) :
  sleep_step daily r = Ok daily' ->
  sleep_durations_ok d daily -> sleep_durations_ok d daily'.
Proof.
  unfold sleep_step. intros H Hok. apply bind_Ok in H as (ds & Hds & H).
  destruct ds as [[date score]|]; [|injection H as <-; exact Hok].
  apply bind_Ok in H as (stage & _ & H).
  apply bind_Ok in H as (s & Hs & H). apply as_key_Ok in Hs as ->.
  apply bind_Ok in H as (light & _ & H). apply bind_Ok in H as (deep & _ & H).
  apply bind_Ok in H as (rem & _ & H). apply bind_Ok in H as (ld & _ & H).
  apply bind_Ok in H as (total & _ & H). apply bind_Ok in H as (asleep & Hgt & H).
  apply bind_Ok in H as (daily1 & H1 & H).
  apply bind_Ok in H as (performance & _ & H).
  apply bind_Ok in H as (efficiency & _ & H). injection H as <-.
  assert (Hlast : forall k, k ∈ "sleepHours" :: stage_hours ->
            metric "whoop" d k
              (set_metric "whoop" s "sleepEfficiency" efficiency
                 (set_metric "whoop" s "sleepPerformance" performance daily1))
            = metric "whoop" d k daily1).
  { intros k Hk. unfold stage_hours in Hk.
    each_member Hk; rewrite !metric_set_metric_ne by discriminate; reflexivity. }
  destruct asleep.
  - apply bind_Ok in H1 as (sleep_h & Hh & H1).
    apply bind_Ok in H1 as (deep' & _ & H1). apply bind_Ok in H1 as (deep_h & _ & H1).
    apply bind_Ok in H1 as (rem' & _ & H1). apply bind_Ok in H1 as (rem_h & _ & H1).
    apply bind_Ok in H1 as (light' & _ & H1). apply bind_Ok in H1 as (light_h & _ & H1).
    injection H1 as <-.
    destruct (String.eqb_spec d s) as [->|Hne].
    + destruct (hours_of_positive _ _ Hgt Hh) as (f & -> & Hf). split.
      * intros k Hk. rewrite (Hlast k) by (right; exact Hk).
        rewrite (Hlast "sleepHours") by left. unfold stage_hours in Hk.
        each_member Hk; rewrite !metric_set_metric, !String.eqb_refl; simpl;
          split; discriminate.
      * intros v. rewrite (Hlast "sleepHours") by left.
        rewrite !metric_set_metric, !String.eqb_refl. simpl.
        intros [= <-]. eauto.
    + apply (sleep_durations_same d daily); [|exact Hok].
      intros k Hk. rewrite (Hlast k Hk), !metric_set_metric.
      destruct (String.eqb_spec d s) as [E|_]; [contradiction|]. simpl.
      apply metric_set_date, whoop_not_date.
  - injection H1 as <-. apply (sleep_durations_same d daily); [|exact Hok].
    intros k Hk. rewrite (Hlast k Hk). apply metric_set_date, whoop_not_date.
Qed.

Lemma sleep_durations_empty (d : string) : sleep_durations_ok d [].
Proof.
  split.
  - intros k _. rewrite !metric_empty. tauto.
  - intros v. rewrite metric_empty. discriminate.
Qed.

Lemma stream_invariant (step : pydict -> pyval -> res pydict)
  (P : pydict -> Prop) (whoop : pyval) (stream : string) (daily daily' : pydict) :
  (forall daily r daily', step daily r = Ok daily' -> P daily -> P daily') ->
  fold_stream step whoop stream daily = Ok daily' -> P daily -> P daily'.
Proof.
  intros Hstep H. apply fold_stream_items in H as [_ H].
  apply (foldM_invariant step P Hstep _ _ _ H).
Qed.

(** X8.  For every date the recovery-tracker normaliser returns, the four
    sleep durations (sleepHours and the deep, REM and light hours) are
    stored together or not at all, and a stored sleepHours is a float
    that is not below zero: a sleep record whose stage durations do not
    add up to more than zero stores none of them and erases none. *)
Theorem sleep_durations_of_a_date (whoop : pyval) (daily : pydict) (d : string) :
  process_whoop_data whoop = Ok daily ->
  (forall k, k ∈ stage_hours ->
     (metric "whoop" d k daily = None <-> metric "whoop" d "sleepHours" daily = None))
  /\ (forall v, metric "whoop" d "sleepHours" daily = Some v ->
        exists f, v = VFloat f /\ Num.ltb (PFloat f) (PInt 0) = false).
Proof.
  intros H. apply process_whoop_data_steps in H as (d1 & d2 & H1 & H2 & H3).
  assert (Hok : sleep_durations_ok d daily).
  { apply (stream_invariant workout_step _ _ _ _ _ (fun a r b Hs => sleep_durations_same d a b
             (fun k Hk => workout_step_keeps a b r d k Hs
                            ltac:(unfold stage_hours in Hk; each_member Hk; discriminate))) H3).
    apply (stream_invariant sleep_step _ _ _ _ _
             (fun a r b Hs => sleep_step_durations d a b r Hs) H2).
    apply (stream_invariant recovery_step _ _ _ _ _ (fun a r b Hs => sleep_durations_same d a b
             (fun k Hk => recovery_step_keeps a b r d k Hs
                            ltac:(unfold stage_hours in Hk; each_member Hk; discriminate)
                            ltac:(unfold stage_hours in Hk; each_member Hk; discriminate)
                            ltac:(unfold stage_hours in Hk; each_member Hk; discriminate))) H1).
    apply sleep_durations_empty. }
  destruct Hok as [Ha Hb]. split; [exact Ha|].
  intros v Hv. destruct (Hb v Hv) as (f & -> & Hf).
  exists f. split; [reflexivity|apply sign_clear_not_below_zero, Hf].
Qed.

Lemma sleep_durations_of_a_date_witness :
  (forall k, k ∈ stage_hours ->
     (metric "whoop" "2024-01-02" k sample_whoop_daily = None
      <-> metric "whoop" "2024-01-02" "sleepHours" sample_whoop_daily = None))
  /\ (forall v, metric "whoop" "2024-01-02" "sleepHours" sample_whoop_daily = Some v ->
        exists f, v = VFloat f /\ Num.ltb (PFloat f) (PInt 0) = false).
Proof.
  apply (sleep_durations_of_a_date sample_whoop sample_whoop_daily "2024-01-02").
  vm_compute. reflexivity.
Defined.

(** The sample document: 7.25 hours on 2024-01-02, and no duration from
    the record of 2024-01-04, which has no stage durations. *)
Example sample_sleep_durations :
  metric "whoop" "2024-01-02" "sleepHours" sample_whoop_daily
  = Some (VFloat (Float64.dec 725 2))
  /\ metric "whoop" "2024-01-02" "deepSleepHours" sample_whoop_daily
     = Some (VFloat (Float64.dec 15 1))
  /\ metric "whoop" "2024-01-04" "sleepHours" sample_whoop_daily = None
  /\ metric "whoop" "2024-01-04" "sleepPerformance" sample_whoop_daily
     = Some (VInt 40).
Proof. vm_compute. auto. Qed.

(** *** Recovery records of one date *)

Lemma recovery_step_frame (daily daily' : pydict) (r : pyval) (d k : string) :
  recovery_step daily r = Ok daily' -> ~ scored_on d r = true ->
  metric "whoop" d k daily' = metric "whoop" d k daily.
Proof.
  intros H Hd. destruct (recovery_step_update _ _ _ H)
    as [[-> _]|(date & HD & _ & Hup)]; [reflexivity|].
  apply metric_lookup_ext, (day_update_frame _ _ _ _ _ Hup).
  intros ->. apply Hd, HD. reflexivity.
Qed.

Lemma recovery_records_frame (rs : list pyval) (daily daily' : pydict)
  (d k : string) :
  foldM recovery_step daily rs = Ok daily' ->
  Forall (fun r => ~ scored_on d r = true) rs ->
  metric "whoop" d k daily' = metric "whoop" d k daily.
Proof.
  revert daily. induction rs as [|r rs IH]; intros daily H Hall; simpl in H.
  - injection H as <-. reflexivity.
  - apply bind_Ok in H as (daily1 & H1 & H2).
    inversion Hall as [|? ? Hr Hrs]; subst.
    rewrite (IH _ H2 Hrs). apply (recovery_step_frame _ _ _ _ _ H1 Hr).
Qed.

(** What a recovery record leaves for its date. *)
Lemma recovery_step_sets (daily daily' : pydict) (r : pyval) (d : string) :
  recovery_step daily r = Ok daily' -> scored_on d r = true ->
  exists score,
    py_index r "score" = Ok score
    /\ Some <$> py_get score "recovery_score" VNone
       = Ok (metric "whoop" d "recoveryScore" daily')
    /\ Some <$> py_get score "resting_heart_rate" VNone
       = Ok (metric "whoop" d "restingHeartRate" daily')
    /\ (forall raw, py_get score "hrv_rmssd_milli" VNone = Ok raw -> raw <> VNone ->
          Some <$> normalize_hrv raw = Ok (metric "whoop" d "hrvMs" daily')).
Proof.
  unfold recovery_step. intros H Hd. apply bind_Ok in H as (ds & Hds & H).
  destruct ds as [[date score]|];
    [|destruct (dated_score_none _ Hds d Hd)].
  apply bind_Ok in H as (s & Hs & H). apply as_key_Ok in Hs as ->.
  destruct (dated_score_scored _ _ _ Hds) as [_ HD]. apply HD in Hd as ->.
  assert (Hscore : py_index r "score" = Ok score).
  { unfold dated_score in Hds. apply bind_Ok in Hds as (dt & _ & Hds).
    destruct (truthy dt); [|discriminate].
    apply bind_Ok in Hds as (sc & _ & Hds). destruct (truthy sc); [|discriminate].
    apply bind_Ok in Hds as (score' & Hsc & Hds). injection Hds as _ <-. exact Hsc. }
  exists score. split; [exact Hscore|].
  apply bind_Ok in H as (recovery_score & Hrs & H).
  apply bind_Ok in H as (hrv_raw & Hraw & H).
  apply bind_Ok in H as (daily1 & H1 & H).
  apply bind_Ok in H as (resting & Hrest & H). injection H as <-.
  rewrite Hrs, Hrest. simpl. split; [|split].
  - rewrite metric_set_metric_ne by discriminate.
    destruct (is_none hrv_raw).
    + injection H1 as <-. rewrite metric_set_metric, !String.eqb_refl. reflexivity.
    + apply bind_Ok in H1 as (hrv & _ & H1). injection H1 as <-.
      rewrite metric_set_metric_ne by discriminate.
      rewrite metric_set_metric, !String.eqb_refl. reflexivity.
  - rewrite metric_set_metric, !String.eqb_refl. reflexivity.
  - intros raw Hraw' Hne. rewrite Hraw in Hraw'. injection Hraw' as ->.
    rewrite metric_set_metric_ne by discriminate.
    destruct (is_none raw) eqn:E; [destruct raw; try discriminate E; contradiction|].
    apply bind_Ok in H1 as (hrv & Hhrv & H1). injection H1 as <-.
    rewrite Hhrv. simpl. rewrite metric_set_metric, !String.eqb_refl. reflexivity.
Qed.

(** X15.  The last recovery record that counts for a date decides the
    recovery fields of the date: recoveryScore and restingHeartRate hold
    what its score gives for them (null when it lacks them, whatever
    earlier records of the date held), and hrvMs holds its normalised
    HRV when it has one. *)
Theorem last_recovery_record_wins (whoop : pyval) (daily : pydict)
  (d : string) (r : pyval) :
  process_whoop_data whoop = Ok daily ->
  last (scored_records d (stream_items whoop "recovery")) = Some r ->
  exists score,
    py_index r "score" = Ok score
    /\ Some <$> py_get score "recovery_score" VNone
       = Ok (metric "whoop" d "recoveryScore" daily)
    /\ Some <$> py_get score "resting_heart_rate" VNone
       = Ok (metric "whoop" d "restingHeartRate" daily)
    /\ (forall raw, py_get score "hrv_rmssd_milli" VNone = Ok raw -> raw <> VNone ->
          Some <$> normalize_hrv raw = Ok (metric "whoop" d "hrvMs" daily)).
Proof.
  intros H Hl. apply process_whoop_data_steps in H as (d1 & d2 & H1 & H2 & H3).
  apply fold_stream_items in H1 as [_ H1].
  apply (last_filter_split (scored_on d)) in Hl as (pre & post & Hrs & Hr & Hpost).
  rewrite Hrs, foldM_app in H1. apply bind_Ok in H1 as (da & _ & H1).
  simpl in H1. apply bind_Ok in H1 as (db & Hstep & Hrest).
  destruct (recovery_step_sets _ _ _ _ Hstep Hr) as (score & Hsc & A & B & C).
  assert (Hkeep : forall k, k ∈ ["recoveryScore"; "restingHeartRate"; "hrvMs"] ->
            metric "whoop" d k daily = metric "whoop" d k db).
  { intros k Hk.
    rewrite (fold_stream_keeps workout_step d k whoop "workout" d2 daily
               (fun a b x Hs => workout_step_keeps a b x d k Hs
                                  ltac:(each_member Hk; discriminate)) H3).
    rewrite (fold_stream_keeps sleep_step d k whoop "sleep" d1 d2
               (fun a b x Hs => sleep_step_keeps a b x d k Hs
                                  ltac:(each_member Hk; discriminate)
                                  ltac:(each_member Hk; discriminate)
                                  ltac:(each_member Hk; discriminate)
                                  ltac:(each_member Hk; discriminate)
                                  ltac:(each_member Hk; discriminate)
                                  ltac:(each_member Hk; discriminate)) H2).
    apply (recovery_records_frame _ _ _ _ _ Hrest Hpost). }
  exists score. rewrite !Hkeep by (repeat constructor). auto.
Qed.

Lemma last_recovery_record_wins_witness :
  exists score,
    py_index (recovery_record "2024-01-02T09:00:00.000Z"
                [("resting_heart_rate", VInt 55)]) "score" = Ok score
    /\ Some <$> py_get score "recovery_score" VNone
       = Ok (metric "whoop" "2024-01-02" "recoveryScore" two_recoveries_daily)
    /\ Some <$> py_get score "resting_heart_rate" VNone
       = Ok (metric "whoop" "2024-01-02" "restingHeartRate" two_recoveries_daily)
    /\ (forall raw, py_get score "hrv_rmssd_milli" VNone = Ok raw -> raw <> VNone ->
          Some <$> normalize_hrv raw
          = Ok (metric "whoop" "2024-01-02" "hrvMs" two_recoveries_daily)).
Proof.
  apply (last_recovery_record_wins two_recoveries two_recoveries_daily "2024-01-02").
  - vm_compute. reflexivity.
  - vm_compute. reflexivity.
Defined.

(** The later record erases the recovery score of the earlier one and
    keeps its HRV. *)
Example two_recoveries_fields :
  metric "whoop" "2024-01-02" "recoveryScore" two_recoveries_daily = Some VNone
  /\ metric "whoop" "2024-01-02" "restingHeartRate" two_recoveries_daily
     = Some (VInt 55)
  /\ metric "whoop" "2024-01-02" "hrvMs" two_recoveries_daily
     = Some (VFloat (Float64.dec 452 1)).
Proof. vm_compute. auto. Qed.

(** ** From the normalisers to the merged sequence *)

Lemma garmin_daily_normalised (garmin : pyval) (daily : pydict) :
  garmin_daily garmin = Ok daily -> normalised "garmin" daily.
Proof.
  intros H. apply garmin_daily_steps in H
    as (d1 & d2 & g & d3 & H1 & H2 & _ & Hg & H3 & H4).
  destruct (garmin_stream_dates _ _ _ _ _ (normalised_empty _) H1) as [N1 _].
  destruct (garmin_stream_dates _ _ _ _ _ N1 H2) as [N2 _].
  destruct (activity_groups _ _ Hg) as (_ & _ & Hne).
  destruct (garmin_totals_dates _ _ _ Hne N2 H3) as [N3 _].
  destruct (garmin_stream_dates _ _ _ _ _ N3 H4) as [N4 _]. exact N4.
Qed.

Lemma process_lingo_data_normalised (lingo : pyval) (daily : pydict) :
  process_lingo_data lingo = Ok daily -> normalised "glucose" daily.
Proof.
  intros H. apply process_lingo_data_steps in H as (g & Hg & H).
  destruct (reading_groups _ _ Hg) as (_ & _ & Hne).
  destruct (glucose_days_dates _ _ _ Hne (normalised_empty _) H) as [Hn _].
  exact Hn.
Qed.

Lemma process_whoop_data_normalised (whoop : pyval) (daily : pydict) :
  process_whoop_data whoop = Ok daily -> normalised "whoop" daily.
Proof.
  intros H. apply process_whoop_data_steps in H as (d1 & d2 & H1 & H2 & H3).
  destruct (whoop_stream_dates _ _ _ _ _ (fun a r b => recovery_step_update a b r)
              (normalised_empty _) H1) as [N1 _].
  destruct (whoop_stream_dates _ _ _ _ _ (fun a r b => sleep_step_update a b r) N1 H2)
    as [N2 _].
  destruct (whoop_stream_dates _ _ _ _ _ (fun a r b => workout_step_update a b r) N2 H3)
    as [N3 _].
  exact N3.
Qed.

Lemma normalised_daily_mapping (ns : string) (daily : pydict) :
  normalised ns daily -> daily_mapping daily.
Proof.
  intros [_ H]. unfold daily_mapping. apply (Forall_impl _ _ _ H).
  intros [k v] (_ & e & m & -> & _). exact I.
Qed.

Lemma normalised_dates (ns : string) (daily : pydict) (d : string) :
  normalised ns daily -> d ∈ keys daily -> d <> "".
Proof.
  intros Hn Hd. apply (day_entry_present ns d daily Hn Hd).
Qed.

(** The sub-record of a normalised source is a dictionary. *)
Lemma normalised_sub_record (ns : string) (daily : pydict) (d : string) :
  normalised ns daily -> exists m, source_sub_record ns d daily = VDict m.
Proof.
  intros Hn. unfold source_sub_record.
  destruct (dict_lookup d daily) as [v|] eqn:E; [|eauto].
  destruct Hn as [_ Hall].
  pose proof (dict_lookup_Forall _ _ _ _ Hall E) as (_ & e & m & Hv & _ & Hm).
  simpl in Hv, Hm. subst v. rewrite Hm. eauto.
Qed.

(** Merging three normalised sources. *)
Lemma merge_normalised (gd ld wd : pydict) :
  normalised "garmin" gd -> normalised "glucose" ld -> normalised "whoop" wd ->
  exists dates,
    merge_daily_data gd ld wd = Ok (map (merged_record gd ld wd) dates)
    /\ increasing dates
    /\ (forall d, d ∈ dates <-> d ∈ keys gd \/ d ∈ keys ld \/ d ∈ keys wd)
    /\ Forall (fun d => d <> "") dates
    /\ (forall d, exists g w gl,
          merged_record gd ld wd d
          = VDict [("date", VStr d); ("garmin", VDict g); ("whoop", VDict w);
                   ("glucose", VDict gl)]).
Proof.
  intros Ng Nl Nw. exists (sorted (all_dates gd ld wd)).
  assert (Hk : forall d, d ∈ sorted (all_dates gd ld wd)
                         <-> d ∈ keys gd \/ d ∈ keys ld \/ d ∈ keys wd).
  { intros d. rewrite elem_of_sorted. apply elem_of_all_dates. }
  split; [|split; [apply increasing_sorted|split; [exact Hk|split]]].
  - unfold merge_daily_data. apply mapM_map. intros d _.
    apply merge_record_ok; eapply normalised_daily_mapping; eassumption.
  - apply Forall_forall. intros d Hd. apply Hk in Hd as [Hd|[Hd|Hd]].
    + apply (normalised_dates _ _ _ Ng Hd).
    + apply (normalised_dates _ _ _ Nl Hd).
    + apply (normalised_dates _ _ _ Nw Hd).
  - intros d. unfold merged_record.
    destruct (normalised_sub_record "garmin" gd d Ng) as [g ->].
    destruct (normalised_sub_record "whoop" wd d Nw) as [w ->].
    destruct (normalised_sub_record "glucose" ld d Nl) as [gl ->].
    eauto.
Qed.

(** X9.  When the dates of the activity-tracker document are texts (no
    record has a number other than zero, or true, as its date), whatever
    the three normalisers return can be merged: the merger does not
    raise on their mappings, its records come in strictly increasing
    order of their dates, one for each date of a source, no date is
    empty, and every record holds a dictionary (possibly empty) under
    each of garmin, whoop and glucose. *)
Theorem normalised_sources_merge (garmin lingo whoop : pyval)
  (gd ld wd : pydict) :
  dates_in_model garmin = true ->
  process_garmin_data garmin = Some (Ok gd) ->
  process_lingo_data lingo = Ok ld ->
  process_whoop_data whoop = Ok wd ->
  exists dates,
    merge_daily_data gd ld wd = Ok (map (merged_record gd ld wd) dates)
    /\ increasing dates
    /\ (forall d, d ∈ dates <-> d ∈ keys gd \/ d ∈ keys ld \/ d ∈ keys wd)
    /\ Forall (fun d => d <> "") dates
    /\ (forall d, exists g w gl,
          merged_record gd ld wd d
          = VDict [("date", VStr d); ("garmin", VDict g); ("whoop", VDict w);
                   ("glucose", VDict gl)]).
Proof.
  intros _ Hg Hl Hw. apply merge_normalised.
  - apply (garmin_daily_normalised garmin), process_garmin_data_Ok, Hg.
  - apply (process_lingo_data_normalised lingo), Hl.
  - apply (process_whoop_data_normalised whoop), Hw.
Qed.

Lemma normalised_sources_merge_witness :
  exists dates,
    merge_daily_data sample_garmin_daily sample_glucose_daily sample_whoop_daily
    = Ok (map (merged_record sample_garmin_daily sample_glucose_daily
                 sample_whoop_daily) dates)
    /\ increasing dates
    /\ (forall d, d ∈ dates <->
          d ∈ keys sample_garmin_daily \/ d ∈ keys sample_glucose_daily
          \/ d ∈ keys sample_whoop_daily)
    /\ Forall (fun d => d <> "") dates
    /\ (forall d, exists g w gl,
          merged_record sample_garmin_daily sample_glucose_daily
            sample_whoop_daily d
          = VDict [("date", VStr d); ("garmin", VDict g); ("whoop", VDict w);
                   ("glucose", VDict gl)]).
Proof.
  apply (normalised_sources_merge sample_garmin history_with_undated sample_whoop).
  - vm_compute. reflexivity.
  - vm_compute. reflexivity.
  - vm_compute. reflexivity.
  - vm_compute. reflexivity.
Defined.

(** ** The date range of the consolidation *)

Lemma string_ltb_asym (s t : string) :
  (s <? t)%string = true -> (t <? s)%string = false.
Proof.
  unfold String.ltb. rewrite (String.compare_antisym t s).
  destruct (String.compare s t); simpl; congruence.
Qed.

Lemma min_of_increasing (x : string) (l : list string) :
  Forall (fun y => (x <? y)%string = true) l ->
  foldM min_step (VStr x) (map VStr l) = Ok (VStr x).
Proof.
  induction l as [|y l IH]; intros H; [reflexivity|].
  inversion H as [|? ? Hy Hl]; subst.
  change (map VStr (y :: l)) with (VStr y :: map VStr l). rewrite foldM_cons.
  assert (Hstep : min_step (VStr x) (VStr y) = Ok (VStr x)).
  { unfold min_step. simpl. rewrite (string_ltb_asym _ _ Hy). reflexivity. }
  rewrite Hstep, ret_bind. apply IH, Hl.
Qed.

Lemma max_of_increasing (x : string) (l : list string) :
  increasing (x :: l) ->
  foldM max_step (VStr x) (map VStr l)
  = Ok (VStr (default x (last l))).
Proof.
  revert x. induction l as [|y l IH]; intros x H; [reflexivity|].
  inversion H as [|? ? Hl Hx]; subst.
  inversion Hx as [|? ? Hy _]; subst.
  change (map VStr (y :: l)) with (VStr y :: map VStr l). rewrite foldM_cons.
  assert (Hstep : max_step (VStr x) (VStr y) = Ok (VStr y)).
  { unfold max_step. simpl. rewrite Hy. reflexivity. }
  rewrite Hstep, ret_bind, (IH y Hl). f_equal. f_equal. rewrite last_cons.
  destruct (last l); reflexivity.
Qed.

Lemma date_of_merged (gd ld wd : pydict) (d : string) (acc : list pyval) :
  d <> "" ->
  date_step acc (merged_record gd ld wd d) = Ok (acc ++ [VStr d]).
Proof.
  intros Hd. apply truthy_string in Hd. simpl in Hd.
  unfold date_step, merged_record. simpl. rewrite Hd. reflexivity.
Qed.

Lemma dates_of_merged (gd ld wd : pydict) (dates : list string)
  (acc : list pyval) :
  Forall (fun d => d <> "") dates ->
  foldM date_step acc (map (merged_record gd ld wd) dates)
  = Ok (acc ++ map VStr dates).
Proof.
  revert acc. induction dates as [|d dates IH]; intros acc H.
  - simpl. rewrite app_nil_r. reflexivity.
  - inversion H as [|? ? Hd Hds]; subst.
    change (map (merged_record gd ld wd) (d :: dates))
      with (merged_record gd ld wd d :: map (merged_record gd ld wd) dates).
    rewrite foldM_cons, (date_of_merged _ _ _ _ _ Hd), ret_bind, (IH _ Hds).
    rewrite <- app_assoc. reflexivity.
Qed.

Lemma date_range_of_summary (gd ld wd : pydict) (dates : list string)
  (biomarkers : list pyval) (summary : pyval) :
  increasing dates -> Forall (fun d => d <> "") dates ->
  generate_summary_stats (map (merged_record gd ld wd) dates) biomarkers
  = Ok summary ->
  py_index summary "dateRange" = Ok (date_range dates).
Proof.
  intros Hinc Hne H. unfold generate_summary_stats in H.
  rewrite (dates_of_merged gd ld wd dates [] Hne) in H. simpl app in H.
  apply bind_Ok in H as (ds & Hds & H). injection Hds as <-.
  do 7 (apply bind_Ok in H as (? & _ & H)).
  apply bind_Ok in H as (first & Hfirst & H).
  apply bind_Ok in H as (final & Hfinal & H).
  do 8 (apply bind_Ok in H as (? & _ & H)). injection H as <-.
  simpl. unfold date_range, py_len. rewrite length_map.
  destruct dates as [|d0 l0].
  - simpl in Hfirst, Hfinal. injection Hfirst as <-. injection Hfinal as <-.
    reflexivity.
  - simpl in Hfirst, Hfinal.
    inversion Hinc as [|? ? Hl Hx]; subst.
    rewrite (min_of_increasing d0 l0 Hx) in Hfirst. injection Hfirst as <-.
    rewrite (max_of_increasing d0 l0 Hinc) in Hfinal. injection Hfinal as <-.
    simpl. rewrite last_cons. destruct (last l0); reflexivity.
Qed.

Lemma if_loaded_Ok {A : Type} (x : pyval) (f : res A) (empty a : A)
  (P : A -> Prop) :
  if_loaded x f empty = Ok a -> P empty -> (f = Ok a -> P a) -> P a.
Proof.
  unfold if_loaded. destruct (truthy x); intros H He Hf.
  - apply Hf, H.
  - injection H as <-. exact He.
Qed.

(** X10.  Whenever the consolidation returns, the daily records it writes
    carry strictly increasing dates, and the date range of the summary it
    writes beside them is exactly their range: start is the date of the
    first record, end the date of the last one, totalDays their number
    (and start and end are null when there is no record). *)
Theorem written_date_range {L : Libm} (generated_at : string)
  (garmin_file lingo_file whoop biomarkers_raw out : pyval) :
  main_output generated_at garmin_file lingo_file whoop biomarkers_raw
  = Some (Ok out) ->
  exists dates records summary,
    py_index out "dailyData" = Ok (VList records)
    /\ Forall2 (fun r d => py_index r "date" = Ok (VStr d)) records dates
    /\ increasing dates
    /\ py_index out "summary" = Ok summary
    /\ py_index summary "dateRange" = Ok (date_range dates).
Proof.
  unfold main_output. intros H.
  set (garmin := py_or garmin_file (VDict [])) in *.
  set (lingo := py_or lingo_file (VDict [])) in *.
  destruct (if truthy garmin then process_garmin_data garmin else Some (Ok []))
    as [gp|] eqn:Hgp; [|discriminate].
  injection H as H.
  apply bind_Ok in H as (? & _ & H). apply bind_Ok in H as (? & _ & H).
  apply bind_Ok in H as (gd & Hgd & H). subst gp.
  apply bind_Ok in H as (wd & Hwd & H).
  apply bind_Ok in H as (ld & Hld & H).
  apply bind_Ok in H as (biomarkers & _ & H).
  apply bind_Ok in H as (daily_data & Hmerge & H).
  apply bind_Ok in H as (correlations & _ & H).
  apply bind_Ok in H as (summary & Hsummary & H).
  apply bind_Ok in H as (recovery & _ & H).
  apply bind_Ok in H as (tracked & _ & H). injection H as <-.
  assert (Ng : normalised "garmin" gd).
  { destruct (truthy garmin).
    - apply (garmin_daily_normalised garmin), process_garmin_data_Ok, Hgp.
    - injection Hgp as <-. apply normalised_empty. }
  assert (Nw : normalised "whoop" wd).
  { apply (if_loaded_Ok _ _ _ _ (normalised "whoop") Hwd);
      [apply normalised_empty|apply process_whoop_data_normalised]. }
  assert (Nl : normalised "glucose" ld).
  { apply (if_loaded_Ok _ _ _ _ (normalised "glucose") Hld);
      [apply normalised_empty|apply process_lingo_data_normalised]. }
  destruct (merge_normalised gd ld wd Ng Nl Nw)
    as (dates & Hm & Hinc & _ & Hne & _).
  rewrite Hm in Hmerge. injection Hmerge as <-.
  exists dates, (map (merged_record gd ld wd) dates), summary.
  split; [reflexivity|]. split; [|split; [exact Hinc|split; [reflexivity|]]].
  - clear. induction dates as [|d dates IH]; simpl; constructor; [reflexivity|exact IH].
  - apply (date_range_of_summary gd ld wd dates biomarkers summary Hinc Hne Hsummary).
Qed.

Lemma written_date_range_witness :
  exists dates records summary,
    py_index sample_output "dailyData" = Ok (VList records)
    /\ Forall2 (fun r d => py_index r "date" = Ok (VStr d)) records dates
    /\ increasing dates
    /\ py_index sample_output "summary" = Ok summary
    /\ py_index summary "dateRange" = Ok (date_range dates).
Proof.
  apply (written_date_range (L := correctly_rounded) "2024-01-05T12:00:00"
           sample_garmin history_with_undated sample_whoop (VDict [])).
  vm_compute. reflexivity.
Defined.

(** The consolidation of the sample documents covers four days. *)
Example sample_output_range :
  (s ← py_index sample_output "summary"; py_index s "dateRange")
  = Ok (date_range ["2024-01-01"; "2024-01-02"; "2024-01-03"; "2024-01-04"]).
Proof. vm_compute. reflexivity. Qed.

(** ** The biomarker normaliser *)

(** A loop that appends to a list what its body makes of each item. *)
Lemma foldM_appends {A B : Type} (step : list pyval -> A -> res (list pyval))
  (R : pyval -> B -> Prop) (spec : A -> list B) :
  (forall acc x acc', step acc x = Ok acc' ->
     exists new, acc' = acc ++ new /\ Forall2 R new (spec x)) ->
  forall l acc acc', foldM step acc l = Ok acc' ->
    exists new, acc' = acc ++ new /\ Forall2 R new (flat_map spec l).
Proof.
  intros Hstep. induction l as [|x l IH]; intros acc acc' H; simpl in H.
  - injection H as <-. exists []. rewrite app_nil_r. split; [reflexivity|constructor].
  - apply bind_Ok in H as (acc1 & H1 & H2).
    destruct (Hstep _ _ _ H1) as (new1 & -> & HR1).
    destruct (IH _ _ H2) as (new2 & -> & HR2).
    exists (new1 ++ new2). rewrite app_assoc. split; [reflexivity|].
    simpl. apply Forall2_app; assumption.
Qed.

Lemma measurement_step_appends
  (category biomarker category_name biomarker_name unit optimal_range lo hi : pyval)
  (results results' : list pyval) (m : pyval) :
  py_get category "name" VNone = Ok category_name ->
  py_get biomarker "name" VNone = Ok biomarker_name ->
  py_get biomarker "unit" VNone = Ok unit ->
  py_get biomarker "optimalRange" (VStr "") = Ok optimal_range ->
  measurement_step category_name biomarker_name unit optimal_range lo hi
    results m = Ok results' ->
  exists new, results' = results ++ new
    /\ Forall2 entry_of new (if valued m then [(category, biomarker, m)] else []).
Proof.
  intros Hc Hb Hu Hr H. unfold measurement_step in H.
  apply bind_Ok in H as (value & Hv & H). unfold valued. rewrite Hv.
  destruct (is_none value); simpl.
  - injection H as <-. exists []. rewrite app_nil_r. split; [reflexivity|constructor].
  - apply bind_Ok in H as (flag & _ & H). apply bind_Ok in H as (date & Hd & H).
    apply bind_Ok in H as (provider & Hp & H). injection H as <-.
    eexists. split; [reflexivity|]. constructor; [|constructor].
    unfold entry_of. simpl. rewrite Hc, Hb, Hu, Hr, Hv, Hd, Hp. auto 10.
Qed.

Lemma biomarker_step_appends (category category_name : pyval)
  (results results' : list pyval) (b : pyval) :
  py_get category "name" VNone = Ok category_name ->
  biomarker_step category_name results b = Ok results' ->
  exists new, results' = results ++ new
    /\ Forall2 entry_of new
         (flat_map (fun m => if valued m then [(category, b, m)] else [])
            (measurements_of b)).
Proof.
  intros Hc H. unfold biomarker_step in H.
  apply bind_Ok in H as (name & Hn & H). apply bind_Ok in H as (unit & Hu & H).
  apply bind_Ok in H as (range & Hr & H).
  apply bind_Ok in H as ([lo hi] & _ & H).
  apply bind_Ok in H as (measured & Hm & H).
  apply bind_Ok in H as (ms & Hms & H). apply bind_Ok in H as (items & Hi & H).
  assert (Hof : measurements_of b = items).
  { unfold measurements_of. rewrite Hm. simpl. rewrite Hms. simpl. rewrite Hi.
    reflexivity. }
  rewrite Hof.
  apply (foldM_appends (measurement_step category_name name unit range lo hi)
           entry_of (fun m => if valued m then [(category, b, m)] else []))
    with (l := items); [|exact H].
  intros acc m acc' Hs.
  apply (measurement_step_appends category b _ _ _ _ _ _ _ _ _ Hc Hn Hu Hr Hs).
Qed.

Lemma category_step_appends (results results' : list pyval) (c : pyval) :
  category_step results c = Ok results' ->
  exists new, results' = results ++ new
    /\ Forall2 entry_of new
         (flat_map (fun b =>
                      flat_map (fun m => if valued m then [(c, b, m)] else [])
                        (measurements_of b))
            (stream_items c "biomarkers")).
Proof.
  intros H. unfold category_step in H.
  apply bind_Ok in H as (name & Hn & H). apply bind_Ok in H as (bs & Hbs & H).
  apply bind_Ok in H as (items & Hi & H).
  assert (Hof : stream_items c "biomarkers" = items).
  { unfold stream_items, stream_records. rewrite Hbs. simpl. rewrite Hi. reflexivity. }
  rewrite Hof.
  apply (foldM_appends (biomarker_step name) entry_of
           (fun b => flat_map (fun m => if valued m then [(c, b, m)] else [])
                       (measurements_of b))) with (l := items); [|exact H].
  intros acc b acc' Hs. apply (biomarker_step_appends c name _ _ _ Hn Hs).
Qed.

(** X11.  The biomarker normaliser returns one entry for every measurement
    that has a value (0 counts as a value, null does not), in the order
    of the document: categories, their biomarkers, the measurements of
    each, which are taken from "results" when "measurements" is missing
    or empty.  Each entry carries the name of its category, the name,
    unit and range text of its biomarker, and the value, date and
    provider of its measurement. *)
Theorem one_entry_per_valued_measurement (document : pyval)
  (results : list pyval) :
  process_biomarkers document = Ok results ->
  Forall2 entry_of results (valued_measurements document).
Proof.
  intros H. unfold process_biomarkers in H.
  apply bind_Ok in H as (cs & Hcs & H). apply bind_Ok in H as (items & Hi & H).
  assert (Hof : stream_items document "categories" = items).
  { unfold stream_items, stream_records. rewrite Hcs. simpl. rewrite Hi. reflexivity. }
  unfold valued_measurements. rewrite Hof.
  destruct (foldM_appends category_step entry_of
              (fun c =>
                 flat_map (fun b =>
                             flat_map (fun m => if valued m then [(c, b, m)] else [])
                               (measurements_of b))
                   (stream_items c "biomarkers"))
              (fun acc c acc' => category_step_appends acc acc' c) items [] results H)
    as (new & -> & HR).
  exact HR.
Qed.

Lemma one_entry_per_valued_measurement_witness :
  Forall2 entry_of sample_results (valued_measurements sample_biomarkers).
Proof.
  apply (one_entry_per_valued_measurement sample_biomarkers sample_results).
  vm_compute. reflexivity.
Defined.

(** The sample document: three of its four measurements have a value. *)
Example sample_valued_measurements :
  map (fun cbm => py_get (snd cbm) "value" VNone) (valued_measurements sample_biomarkers)
  = [Ok (VInt 85); Ok (VInt 0); Ok (VFloat (Float64.dec 52 1))]
  /\ map (fun r => py_index r "biomarker") sample_results
     = [Ok (VStr "Glucose"); Ok (VStr "Glucose"); Ok (VStr "Insulin")].
Proof. vm_compute. auto. Qed.

(** *** Values that are not numbers *)

Lemma measurement_step_text
  (category_name biomarker_name unit optimal_range : pyval) (lo hi : spec_float)
  (m v : pyval) :
  py_get m "value" VNone = Ok v -> v <> VNone -> as_num v = None ->
  forall results results',
    measurement_step category_name biomarker_name unit optimal_range
      (VFloat lo) (VFloat hi) results m <> Ok results'.
Proof.
  intros Hv Hne Hnum results results' H. unfold measurement_step in H.
  rewrite Hv in H. simpl in H.
  destruct v; try discriminate; try contradiction; simpl in H; discriminate.
Qed.

Lemma measurements_of_items (b : pyval) (m : pyval) :
  m ∈ measurements_of b ->
  exists measured ms,
    py_get b "measurements" (VList []) = Ok measured
    /\ (if truthy measured then Ok measured
        else py_get b "results" (VList [])) = Ok ms
    /\ py_iter ms = Ok (measurements_of b).
Proof.
  unfold measurements_of. intros Hin.
  destruct (py_get b "measurements" (VList [])) as [measured|e] eqn:E1;
    [|inversion Hin].
  simpl in *.
  destruct (if truthy measured then Ok measured else py_get b "results" (VList []))
    as [ms|e] eqn:E2; [|inversion Hin].
  simpl in *. destruct (py_iter ms) as [items|e] eqn:E3; [|inversion Hin].
  exists measured, ms. auto.
Qed.

Lemma stream_items_records (document : pyval) (stream : string) (x : pyval) :
  x ∈ stream_items document stream ->
  stream_records document stream = Ok (stream_items document stream).
Proof.
  unfold stream_items. intros Hin.
  destruct (stream_records document stream); [reflexivity|inversion Hin].
Qed.

(** X12.  A value that is neither null nor a number (a text such as
    "<0.1", say) in a measurement of a biomarker whose range text gives
    two bounds makes the biomarker normaliser raise: the comparison of
    the value with the bounds fails, nothing catches it, and no list of
    results is returned. *)
Theorem textual_value_aborts (document c b m range v : pyval)
  (lo hi : spec_float) :
  c ∈ stream_items document "categories" ->
  b ∈ stream_items c "biomarkers" ->
  m ∈ measurements_of b ->
  py_get b "optimalRange" (VStr "") = Ok range ->
  parse_optimal_range range = Ok (VFloat lo, VFloat hi) ->
  py_get m "value" VNone = Ok v -> v <> VNone -> as_num v = None ->
  exists e, process_biomarkers document = Raise e.
Proof.
  intros Hc Hb Hm Hr Hp Hv Hne Hnum. apply never_Ok_raises. intros results H.
  unfold process_biomarkers in H.
  apply stream_items_records in Hc as Hcs. unfold stream_records in Hcs.
  apply bind_Ok in H as (cs & Hcs1 & H). rewrite Hcs1 in Hcs. simpl in Hcs.
  rewrite Hcs in H. simpl in H.
  revert H. apply (foldM_never_Ok category_step c _ Hc). clear results.
  intros acc acc' H. unfold category_step in H.
  apply stream_items_records in Hb as Hbs. unfold stream_records in Hbs.
  apply bind_Ok in H as (name & _ & H).
  apply bind_Ok in H as (bs & Hbs1 & H). rewrite Hbs1 in Hbs. simpl in Hbs.
  rewrite Hbs in H. simpl in H.
  revert H. apply (foldM_never_Ok (biomarker_step name) b _ Hb). clear acc acc'.
  intros acc acc' H. unfold biomarker_step in H.
  apply bind_Ok in H as (bname & _ & H). apply bind_Ok in H as (unit & _ & H).
  rewrite Hr in H. simpl in H. rewrite Hp in H. simpl in H.
  destruct (measurements_of_items b m Hm) as (measured & ms & Hmd & Hms & Hit).
  rewrite Hmd in H. simpl in H. rewrite Hms in H. simpl in H.
  rewrite Hit in H. simpl in H.
  revert H. apply (foldM_never_Ok _ m _ Hm).
  apply (measurement_step_text _ _ _ _ _ _ _ _ Hv Hne Hnum).
Qed.

Lemma textual_value_aborts_witness :
  exists e, process_biomarkers textual_biomarkers = Raise e.
Proof.
  apply (textual_value_aborts textual_biomarkers
           (VDict [("name", VStr "Hormones");
                   ("biomarkers",
                    VList [VDict [("name", VStr "TSH");
                                  ("optimalRange", VStr "0.5 - 2.5");
                                  ("measurements",
                                   VList [VDict [("date", VStr "2024-01-01");
                                                 ("value", VStr "<0.1")]])]])])
           (VDict [("name", VStr "TSH");
                   ("optimalRange", VStr "0.5 - 2.5");
                   ("measurements",
                    VList [VDict [("date", VStr "2024-01-01");
                                  ("value", VStr "<0.1")]])])
           (VDict [("date", VStr "2024-01-01"); ("value", VStr "<0.1")])
           (VStr "0.5 - 2.5") (VStr "<0.1")
           (Float64.dec 5 1) (Float64.dec 25 1)).
  - left.
  - left.
  - left.
  - reflexivity.
  - vm_compute. reflexivity.
  - reflexivity.
  - discriminate.
  - reflexivity.
Defined.

Example textual_value_raises_TypeError :
  process_biomarkers textual_biomarkers = Raise TypeError.
Proof. vm_compute. reflexivity. Qed.

(** ** The correlation engine and the summary on few or odd data *)

Lemma pairs_of_length (fx fy : pyval -> pyval) (l : list pyval) :
  (length (pairs_of fx fy l) <= length l)%nat.
Proof.
  unfold pairs_of. induction l as [|r l IH]; simpl; [lia|].
  rewrite length_app. destruct (truthy (fx r) && truthy (fy r)); simpl; lia.
Qed.

Lemma exercise_pairs_length (l : list pyval) :
  (length (exercise_pairs l) <= length l)%nat.
Proof.
  unfold exercise_pairs. induction l as [|r l IH]; simpl; [lia|].
  rewrite length_app.
  destruct (truthy (value_of "garmin" "totalActivityDuration" r)
            && truthy (value_of "glucose" "average" r)); simpl; lia.
Qed.

Lemma correlation_entry_few {L : Libm} (ps : pairs) (description : string) (e : pyval) :
  correlation_entry ps description = Ok e ->
  py_index e "dataPoints" = Ok (py_len ps)
  /\ ((length ps < 3)%nat -> py_index e "correlation" = Ok VNone).
Proof.
  unfold correlation_entry. intros H. apply bind_Ok in H as (c & Hc & H).
  injection H as <-. split; [reflexivity|]. intros Hlen. simpl.
  unfold pearson_correlation in Hc.
  destruct (Nat.ltb_spec (length ps) 3) as [_|Hge]; [|lia].
  injection Hc as <-. reflexivity.
Qed.

(** X13.  Each of the seven correlations reports a number of data points
    between 0 and the number of daily records, and a correlation with
    fewer than three data points is null.  So from fewer than three daily
    records the engine reports no correlation at all. *)
Theorem few_days_give_no_correlation {L : Libm} (daily_data : list pyval)
  (result : pyval) (name : string) :
  calculate_correlations daily_data = Ok result ->
  name ∈ correlation_names ->
  exists n : nat,
    data_points result name = Ok (VInt (Z.of_nat n))
    /\ (n <= length daily_data)%nat
    /\ ((n < 3)%nat -> correlation_of result name = Ok VNone).
Proof.
  intros H Hname. unfold calculate_correlations in H.
  apply bind_Ok in H as (acc & Hacc & H).
  destruct (collect_fold_spec _ _ _ Hacc) as (L1 & L2 & L3 & L4 & L5 & L6 & L7).
  simpl in L1, L2, L3, L4, L5, L6, L7.
  apply bind_Ok in H as (e1 & E1 & H). apply bind_Ok in H as (e2 & E2 & H).
  apply bind_Ok in H as (e3 & E3 & H). apply bind_Ok in H as (e4 & E4 & H).
  apply bind_Ok in H as (e5 & E5 & H). apply bind_Ok in H as (e6 & E6 & H).
  apply bind_Ok in H as (e7 & E7 & H). injection H as <-.
  apply correlation_entry_few in E1 as [P1 C1], E2 as [P2 C2], E3 as [P3 C3],
    E4 as [P4 C4], E5 as [P5 C5], E6 as [P6 C6], E7 as [P7 C7].
  unfold correlation_names in Hname. unfold data_points, correlation_of.
  each_member Hname; simpl.
  - exists (length (steps_sleep acc)). split; [exact P1|]. split; [|exact C1].
    rewrite L1. apply pairs_of_length.
  - exists (length (steps_glucose acc)). split; [exact P2|]. split; [|exact C2].
    rewrite L2. apply pairs_of_length.
  - exists (length (sleep_glucose acc)). split; [exact P3|]. split; [|exact C3].
    rewrite L3. apply pairs_of_length.
  - exists (length (exercise_glucose acc)). split; [exact P4|]. split; [|exact C4].
    rewrite L4. apply exercise_pairs_length.
  - exists (length (sleep_recovery acc)). split; [exact P5|]. split; [|exact C5].
    rewrite L5. apply pairs_of_length.
  - exists (length (hrv_sleep acc)). split; [exact P6|]. split; [|exact C6].
    rewrite L6. apply pairs_of_length.
  - exists (length (steps_recovery acc)). split; [exact P7|]. split; [|exact C7].
    rewrite L7. apply pairs_of_length.
Qed.

Lemma few_days_give_no_correlation_witness :
  exists n : nat,
    data_points three_days_correlations "sleep_vs_glucose" = Ok (VInt (Z.of_nat n))
    /\ (n <= length three_days)%nat
    /\ ((n < 3)%nat ->
          correlation_of three_days_correlations "sleep_vs_glucose" = Ok VNone).
Proof.
  apply (few_days_give_no_correlation (L := correctly_rounded) three_days
           three_days_correlations
           "sleep_vs_glucose").
  - vm_compute. reflexivity.
  - unfold correlation_names. repeat constructor.
Defined.

(** *** The latest date of the biomarker results *)

Lemma py_gt_None_l (m : pyval) : py_gt VNone m = Raise TypeError.
Proof. destruct m; reflexivity. Qed.

Lemma py_gt_None_r (x : pyval) : py_gt x VNone = Raise TypeError.
Proof. destruct x as [| |n| | |]; simpl; try reflexivity; destruct b; reflexivity. Qed.

Lemma py_max_None (l : list pyval) :
  VNone ∈ l -> (2 <= length l)%nat -> forall m, py_max l <> Ok m.
Proof.
  intros Hin Hlen m H. destruct l as [|x l]; [inversion Hin|]. unfold py_max in H.
  apply elem_of_cons in Hin as [<-|Hin].
  - destruct l as [|y l]; [simpl in Hlen; lia|]. rewrite foldM_cons in H.
    apply bind_Ok in H as (a & Ha & _). unfold max_step in Ha.
    rewrite py_gt_None_r in Ha. discriminate.
  - revert H. apply (foldM_never_Ok max_step VNone l Hin).
    intros acc acc' H. unfold max_step in H. rewrite py_gt_None_l in H.
    discriminate.
Qed.

(** X14.  The summary cannot be made of two or more biomarker results of
    which one has a null date: the latest date is the maximum of the
    dates, null does not compare with a date (nor with null), and the
    aggregator raises.  The biomarker normaliser makes such a result of
    every valued measurement without a date. *)
Theorem undated_result_breaks_summary (daily_data biomarkers : list pyval)
  (b : pyval) :
  b ∈ biomarkers -> py_index b "date" = Ok VNone ->
  (2 <= length biomarkers)%nat ->
  exists e, generate_summary_stats daily_data biomarkers = Raise e.
Proof.
  intros Hb Hd Hlen. apply never_Ok_raises. intros summary H.
  unfold generate_summary_stats in H.
  do 17 (apply bind_Ok in H as (? & _ & H)).
  apply bind_Ok in H as (sb & Hsb & _). unfold biomarker_summary in Hsb.
  apply bind_Ok in Hsb as (categories & _ & Hsb).
  apply bind_Ok in Hsb as (latest & Hlatest & _).
  destruct biomarkers as [|b0 bs]; [inversion Hb|].
  unfold if_any in Hlatest. apply bind_Ok in Hlatest as (ds & Hds & Hmax).
  destruct (mapM_elem _ _ _ _ _ Hds Hb Hd) as [Hin Hl].
  assert (Hlen' : (2 <= length ds)%nat) by (rewrite Hl; exact Hlen).
  apply (py_max_None ds Hin Hlen' latest Hmax).
Qed.

Lemma undated_result_breaks_summary_witness :
  exists e, generate_summary_stats three_days undated_results = Raise e.
Proof.
  apply (undated_result_breaks_summary three_days undated_results
           (VDict [("date", VNone); ("category", VStr "Lipids");
                   ("biomarker", VStr "LDL"); ("value", VInt 95);
                   ("unit", VNone); ("optimalRange", VStr "");
                   ("optimalMin", VNone); ("optimalMax", VNone);
                   ("inRange", VNone); ("provider", VNone)])).
  - right. left.
  - reflexivity.
  - simpl. lia.
Defined.

Example undated_result_raises_TypeError :
  length undated_results = 2%nat
  /\ generate_summary_stats three_days undated_results = Raise TypeError
  /\ (exists s, generate_summary_stats three_days (take 1 undated_results) = Ok s).
Proof.
  split; [reflexivity|]. split; [vm_compute; reflexivity|].
  eexists. vm_compute. reflexivity.
Qed.

(** ** What the summary can raise on the data of the pipeline *)

Lemma raises_only_Ok {A : Type} (P : exn -> Prop) (a : A) : raises_only P (Ok a).
Proof. intros e H. discriminate H. Qed.

Lemma raises_only_Raise {A : Type} (P : exn -> Prop) (e : exn) :
  P e -> raises_only (A := A) P (Raise e).
Proof. intros H e' E. injection E as <-. exact H. Qed.

Lemma raises_only_bind {A B : Type} (P : exn -> Prop) (m : res A)
  (f : A -> res B) :
  raises_only P m -> (forall a, m = Ok a -> raises_only P (f a)) ->
  raises_only P (m ≫= f).
Proof.
  intros Hm Hf e H. destruct m as [a|e1]; simpl in H.
  - apply (Hf a eq_refl e H).
  - injection H as <-. apply Hm. reflexivity.
Qed.

Lemma raises_only_foldM {A S : Type} (P : exn -> Prop) (step : S -> A -> res S)
  (l : list A) :
  Forall (fun a => forall s, raises_only P (step s a)) l ->
  forall s, raises_only P (foldM step s l).
Proof.
  induction 1 as [|a l Ha _ IH]; intros s; simpl.
  - apply raises_only_Ok.
  - apply raises_only_bind; [apply Ha | intros s' _; apply IH].
Qed.

Lemma raises_only_mapM {A B : Type} (P : exn -> Prop) (f : A -> res B)
  (l : list A) :
  Forall (fun a => raises_only P (f a)) l -> raises_only P (mapM f l).
Proof.
  induction 1 as [|a l Ha _ IH]; simpl.
  - apply raises_only_Ok.
  - apply raises_only_bind; [exact Ha | intros b _].
    apply raises_only_bind; [exact IH | intros bs _; apply raises_only_Ok].
Qed.

Lemma raises_only_if_any (P : exn -> Prop) (l : list pyval) (e : res pyval) :
  (l <> [] -> raises_only P e) -> raises_only P (if_any l e).
Proof.
  destruct l as [|x l]; intros H; simpl; [apply raises_only_Ok|].
  apply H. discriminate.
Qed.

Ltac fault := first [left; reflexivity | right; left; reflexivity
                    | right; right; reflexivity].

Lemma to_float_faults (n : pynum) : raises_only value_fault (Num.to_float n).
Proof.
  destruct n as [z|f]; simpl; [|apply raises_only_Ok].
  unfold Num.float_of_int. destruct (Float64.is_inf _);
    [apply raises_only_Raise; fault | apply raises_only_Ok].
Qed.

Lemma float_op_faults (op : spec_float -> spec_float -> spec_float) (a b : pynum) :
  raises_only value_fault (Num.float_op op a b).
Proof.
  unfold Num.float_op. apply raises_only_bind; [apply to_float_faults|intros fa _].
  apply raises_only_bind; [apply to_float_faults|intros fb _]. apply raises_only_Ok.
Qed.

Lemma py_add_faults (a b : pyval) : raises_only value_fault (py_add a b).
Proof.
  assert (Hn : raises_only value_fault (num_op Num.add a b)).
  { unfold num_op.
    destruct (as_num a) as [x|]; [|apply raises_only_Raise; fault].
    destruct (as_num b) as [y|]; [|apply raises_only_Raise; fault].
    apply raises_only_bind; [|intros n _; apply raises_only_Ok].
    destruct x, y; simpl; first [apply raises_only_Ok | apply float_op_faults]. }
  destruct a, b; try exact Hn; apply raises_only_Ok.
Qed.

Lemma py_sum_faults (l : list pyval) : raises_only value_fault (py_sum l).
Proof.
  unfold py_sum, py_sum_gen. apply raises_only_foldM, Forall_forall.
  intros a _ s. simpl. apply py_add_faults.
Qed.

(** A division by the length of a list that is not empty. *)
Lemma div_by_length_faults (s : pyval) (l : list pyval) :
  l <> [] -> raises_only value_fault (py_div s (py_len l)).
Proof.
  intros Hl. unfold py_div, num_op, py_len. simpl.
  destruct (as_num s) as [x|]; [|apply raises_only_Raise; fault].
  assert (Hz : (Z.of_nat (length l) =? 0) = false).
  { apply Z.eqb_neq. destruct l; [contradiction|simpl; lia]. }
  apply raises_only_bind; [|intros n _; apply raises_only_Ok].
  destruct x as [z|f]; unfold Num.div.
  - rewrite Hz. destruct (Float64.is_inf _);
      [apply raises_only_Raise; fault | apply raises_only_Ok].
  - apply raises_only_bind; [apply to_float_faults|intros fa _].
    apply raises_only_bind; [apply to_float_faults|intros fb _].
    unfold Num.is_zero. rewrite Hz. apply raises_only_Ok.
Qed.

Lemma mean_faults (l : list pyval) :
  l <> [] -> raises_only value_fault (mean l).
Proof.
  intros Hl. unfold mean. apply raises_only_bind; [apply py_sum_faults|intros s _].
  apply (div_by_length_faults s l Hl).
Qed.

Lemma py_round_faults (n : nat) (v : pyval) :
  raises_only value_fault (py_round n v).
Proof.
  unfold py_round, num_fun. destruct (as_num v);
    [apply raises_only_Ok | apply raises_only_Raise; fault].
Qed.

Lemma py_round_int_faults (v : pyval) : raises_only value_fault (py_round_int v).
Proof.
  unfold py_round_int, num_fun.
  destruct (as_num v) as [x|]; [|apply raises_only_Raise; fault].
  apply raises_only_bind; [|intros n _; apply raises_only_Ok].
  destruct x as [z|f]; simpl; [apply raises_only_Ok|].
  apply raises_only_bind; [|intros n _; apply raises_only_Ok].
  destruct f as [s|s| |s m e]; simpl;
    try (apply raises_only_Raise; fault); try apply raises_only_Ok.
  destruct (0 <=? e); apply raises_only_Ok.
Qed.

Lemma py_cmp_faults (fnum : pynum -> pynum -> bool)
  (fstr : string -> string -> bool) (a b : pyval) :
  raises_only value_fault (py_cmp fnum fstr a b).
Proof.
  assert (Hn : raises_only (A := bool) value_fault
                 match as_num a, as_num b with
                 | Some x, Some y => Ok (fnum x y)
                 | _, _ => Raise TypeError
                 end).
  { destruct (as_num a); [|apply raises_only_Raise; fault].
    destruct (as_num b); [apply raises_only_Ok | apply raises_only_Raise; fault]. }
  destruct a, b; try exact Hn; apply raises_only_Ok.
Qed.

Lemma py_min_faults (l : list pyval) : raises_only value_fault (py_min l).
Proof.
  destruct l as [|x l]; simpl; [apply raises_only_Raise; fault|].
  apply raises_only_foldM, Forall_forall. intros a _ s. unfold min_step.
  apply raises_only_bind; [apply py_cmp_faults | intros b _; apply raises_only_Ok].
Qed.

Lemma py_max_faults (l : list pyval) : raises_only value_fault (py_max l).
Proof.
  destruct l as [|x l]; simpl; [apply raises_only_Raise; fault|].
  apply raises_only_foldM, Forall_forall. intros a _ s. unfold max_step.
  apply raises_only_bind; [apply py_cmp_faults | intros b _; apply raises_only_Ok].
Qed.

Ltac faults :=
  repeat first
    [ apply raises_only_Ok
    | apply py_round_faults | apply py_round_int_faults
    | apply py_min_faults | apply py_max_faults
    | apply raises_only_if_any; intros ?
    | apply mean_faults; assumption
    | apply raises_only_bind; [|intros ? _] ].

Lemma stats_int_faults (l : list pyval) (source : string) :
  raises_only value_fault (stats_int l source).
Proof. unfold stats_int. faults. Qed.

Lemma stats_raw_faults (l : list pyval) (source : string) :
  raises_only value_fault (stats_raw l source).
Proof. unfold stats_raw. faults. Qed.

Lemma stats_rounded_faults (kavg kmin kmax : string) (l : list pyval)
  (source : string) :
  raises_only value_fault (stats_rounded kavg kmin kmax l source).
Proof. unfold stats_rounded. faults. Qed.

(** A record of the merged sequence answers every lookup of the summary. *)
Lemma metric_values_merged (gd ld wd : pydict) (dates : list string)
  (ns k : string) :
  (forall d, exists g w gl,
     merged_record gd ld wd d
     = VDict [("date", VStr d); ("garmin", VDict g); ("whoop", VDict w);
              ("glucose", VDict gl)]) ->
  ns ∈ ["garmin"; "whoop"; "glucose"] ->
  raises_only value_fault (metric_values ns k (map (merged_record gd ld wd) dates)).
Proof.
  intros Hrec Hns. unfold metric_values.
  apply raises_only_foldM, Forall_forall. intros r Hr acc.
  apply list_elem_of_fmap in Hr as (d & -> & _).
  destruct (Hrec d) as (g & w & gl & ->). unfold metric_step.
  each_member Hns;
    (apply raises_only_bind; [simpl; apply raises_only_Ok|intros sub Hsub];
     simpl in Hsub; injection Hsub as <-;
     apply raises_only_bind; [simpl; apply raises_only_Ok|intros v _];
     destruct (truthy v); apply raises_only_Ok).
Qed.

Lemma dates_merged (gd ld wd : pydict) (dates : list string) :
  (forall d, exists g w gl,
     merged_record gd ld wd d
     = VDict [("date", VStr d); ("garmin", VDict g); ("whoop", VDict w);
              ("glucose", VDict gl)]) ->
  raises_only value_fault (foldM date_step [] (map (merged_record gd ld wd) dates)).
Proof.
  intros Hrec. apply raises_only_foldM, Forall_forall. intros r Hr acc.
  apply list_elem_of_fmap in Hr as (d & -> & _).
  destruct (Hrec d) as (g & w & gl & ->). unfold date_step.
  apply raises_only_bind; [simpl; apply raises_only_Ok|intros v _].
  destruct (truthy v); [|apply raises_only_Ok].
  apply raises_only_bind; [simpl|intros ? _]; apply raises_only_Ok.
Qed.

(** The entries of the flat biomarker list answer the lookups of the
    summary; a category is refused only when it cannot be in a set. *)
Lemma biomarker_summary_faults (biomarkers : list pyval) :
  Forall biomarker_result biomarkers ->
  raises_only value_fault (biomarker_summary biomarkers).
Proof.
  intros Hall. unfold biomarker_summary. apply raises_only_bind; [|intros cs _].
  - apply raises_only_mapM. apply (Forall_impl _ _ _ Hall).
    intros r (date & category & name & value & unit & range & lo & hi & flag
              & provider & -> & _). unfold category_of. simpl.
    destruct (hashable category);
      [apply raises_only_Ok | apply raises_only_Raise; fault].
  - apply raises_only_bind; [|intros latest _; apply raises_only_Ok].
    apply raises_only_if_any. intros _.
    apply raises_only_bind; [|intros ds _; apply py_max_faults].
    apply raises_only_mapM. apply (Forall_impl _ _ _ Hall).
    intros r (date & category & name & value & unit & range & lo & hi & flag
              & provider & -> & _). simpl. apply raises_only_Ok.
Qed.

(** X16.  On what the pipeline itself produced, the summary fails only
    over a value: when the three normalisers, the merger and the
    biomarker normaliser have returned, generate_summary_stats on their
    results raises nothing but TypeError, ValueError or OverflowError.
    Its indexing of the three namespaces of a day and of the category and
    date of a biomarker entry never misses a key, and its means never
    divide by zero. *)
Theorem summary_faults_on_pipeline_data (garmin lingo whoop document : pyval)
  (gd ld wd : pydict) (daily_data biomarkers : list pyval) (e : exn) :
  process_garmin_data garmin = Some (Ok gd) ->
  process_lingo_data lingo = Ok ld ->
  process_whoop_data whoop = Ok wd ->
  merge_daily_data gd ld wd = Ok daily_data ->
  process_biomarkers document = Ok biomarkers ->
  generate_summary_stats daily_data biomarkers = Raise e ->
  e = TypeError \/ e = ValueError \/ e = OverflowError.
Proof.
  intros Hg Hl Hw Hm Hb.
  destruct (merge_normalised gd ld wd
              (garmin_daily_normalised garmin _ (process_garmin_data_Ok _ _ Hg))
              (process_lingo_data_normalised lingo _ Hl)
              (process_whoop_data_normalised whoop _ Hw))
    as (dates & Hm' & _ & _ & _ & Hrec).
  rewrite Hm in Hm'. injection Hm' as ->.
  pose proof (process_biomarkers_results _ _ Hb) as Hres.
  revert e. change (raises_only value_fault
                      (generate_summary_stats (map (merged_record gd ld wd) dates)
                         biomarkers)).
  unfold generate_summary_stats.
  apply raises_only_bind; [apply (dates_merged _ _ _ _ Hrec)|intros ds _].
  do 7 (apply raises_only_bind;
        [apply (metric_values_merged _ _ _ _ _ _ Hrec); repeat constructor
        |intros ? _]).
  apply raises_only_bind; [faults|intros first _].
  apply raises_only_bind; [faults|intros last _].
  apply raises_only_bind; [apply stats_int_faults|intros ? _].
  apply raises_only_bind; [apply stats_rounded_faults|intros ? _].
  apply raises_only_bind; [apply stats_rounded_faults|intros ? _].
  apply raises_only_bind; [apply stats_raw_faults|intros ? _].
  apply raises_only_bind; [apply stats_int_faults|intros ? _].
  apply raises_only_bind; [apply stats_rounded_faults|intros ? _].
  apply raises_only_bind; [faults|intros ? _].
  apply raises_only_bind; [apply (biomarker_summary_faults _ Hres)|intros ? _].
  apply raises_only_Ok.
Qed.

Lemma summary_faults_on_pipeline_data_witness :
  TypeError = TypeError \/ TypeError = ValueError \/ TypeError = OverflowError.
Proof.
  apply (summary_faults_on_pipeline_data sample_garmin history_with_undated
           sample_whoop undated_document sample_garmin_daily sample_glucose_daily
           sample_whoop_daily sample_daily_data undated_document_results
           TypeError).
  - vm_compute. reflexivity.
  - vm_compute. reflexivity.
  - vm_compute. reflexivity.
  - vm_compute. reflexivity.
  - vm_compute. reflexivity.
  - vm_compute. reflexivity.
Defined.
